(* ===== verification/_CoqProject ===== *)
-Q . S2P
Prelude.v
PyStr.v
PyDict.v
PosixPath.v
RootSearch.v
Regex.v
Hjson.v
Config.v
Lifecycle.v
OtpConst.v
TopConfig.v
Ini.v
Generate.v
Main.v
