(* ===== verification/Prelude.v ===== *)
(** * A verification development of the OpenTitan QEMU configuration generator

    The program is [src/scripts/opentitan/cfggen.py]: a Python script that
    reads a top-level HJSON description of an OpenTitan chip, the
    LifeCycle RTL package and the OTP RTL package, and writes an INI file
    for QEMU's [-readconfig].  Its parts and how they interact:

    - [OtConfiguration] (cfggen.py lines 44-228) owns the extracted state:
      four (first, last) ranges, the per-bank ROM maps, the OTP map, the
      LifeCycle token map and the top name.  Three loaders change it
      ([load_top_config], [load_lifecycle], [load_otp_constants]) and one
      renderer reads it ([save] with [_generate_roms], [_generate_otp],
      [_generate_life_cycle], [add_pair]).
    - [main] (lines 231-348) parses the command line, resolves paths,
      runs the loaders and [save], and maps exceptions to exit codes.
    - External collaborators, called but not part of the source tree:
      [OtpLifecycle] and [OtpConstants] (keyed constant tables read from
      RTL), [hjson.load], [camel_to_snake_case], [os.path], Python's [re],
      [int], [dict], [sorted] and [configparser.ConfigParser].

    The state is threaded explicitly: each loader is a function from an
    [OtConfiguration] to [res OtConfiguration], [res] being the result
    type of this file whose [Raise] carries the Python exception; [main]
    composes them in the order of the code.

    ** Files (in dependency order) and what they model

    - [Prelude] (this file): Python exceptions [exn] (with [SystemExit]
      for [argparser.error]), the result type [res] with its bind notation
      in [py_scope], [foldM]/[mapM] for loops whose body may raise, the
      class [EqB] of decidable equalities, the hint databases [cfggen] and
      [cfgsimpl], the tactics [inv_bind]/[inv_run], shared lemmas.
    - [PyStr]: [int(s, 16)] and [int(s)] ([py_int], after CPython's
      [PyLong_FromString]), [str(n)], [str.startswith], [value[2:]],
      [str.lower], ['.'.join], and [camel_to_snake_case] (modelled from
      its definition in [python/qemu/ot/util/misc.py], outside src/).
    - [PyDict]: insertion-ordered dictionaries as association lists
      ([d[k] = v], [del d[k]], [d.update(e)], [d.get(k)], [d[k]]), with the
      no-duplicate-key invariant [dict_wf].
    - [PosixPath]: [posixpath.dirname] and [posixpath.join].
    - [RootSearch]: the [while cur_dir] loop of [main] (lines 309-314)
      that walks up from the top file to the OpenTitan root, as a fuelled
      function [search_root] and as an inductive big-step relation
      [search_exec] with one rule per way round the loop.
    - [Regex]: the three patterns of the script ([RndCnstScr( .* )],
      [RndCnst( .* )Init], [(\d+)$]) run by a backtracking matcher, and
      their equivalence with one-pass characterisations.
    - [Hjson]: HJSON values, Python truthiness, [dict.get].
    - [Config]: the [OtConfiguration] record and [__init__].
    - [Lifecycle]: [load_lifecycle] (lines 80-121) and its range extractor,
      against the type class [LcProvider] standing for [OtpLifecycle].
    - [OtpConst]: [load_otp_constants] (lines 123-129) against the type
      class [OtpProvider] standing for [OtpConstants].
    - [TopConfig]: [load_top_config] and [_load_top_values] (lines 63-78,
      153-178).
    - [Ini]: the part of [ConfigParser] the script uses: [cfg[name] = d]
      (option folding, [DuplicateOptionError], the interpolation check)
      and [write].
    - [Generate]: [add_pair], [_generate_roms], [_generate_otp],
      [_generate_life_cycle] and [save] (lines 131-228); Python's [sorted]
      is the Standard Library's merge sort on the tuple order.
    - [Main]: [main] (lines 231-348) over an environment record [Env]
      ([isfile], [isdir], [abspath] and the three readers): the two
      branches that find the OpenTitan root and the top name (calling
      [RootSearch.search_root]), the path checks, the reset of line 337,
      the exception handler and the exit status.

    ** What the theorems show

    - Main: the text written is the rendering, under the located
      variant, of a fresh configuration holding only what the two RTL
      packages read from the located paths give (line 337 discards what
      [load_top_config] read), so it never has a ROM section and
      [--count] never changes a result; the LifeCycle section written
      carries the first and last non-zero keys of the [LC_STATE] table
      of the file read; the two file checks both test the LifeCycle
      path, so a missing OTP constants file ends as the reader's
      [OSError], reported with status 1 (with the traceback under
      [--debug]); the root search ends on a relative path and never ends
      on an absolute one with no matching ancestor, and is never entered
      for a bare file name; an all-zero state table ends in an uncaught
      [IndexError]; a missing LifeCycle file exits with status 2; the
      [hjson] message is a literal.  A written file implies that the
      argument checks passed, the LifeCycle file was found and both RTL
      readers succeeded (a safety property of the run).
    - Root search: the [break] stops at the nearest matching ancestor;
      the fuelled loop computes exactly the big-step relation, more fuel
      never changes a result, and the relation is deterministic.
    - LifeCycle: the ranges are the first and last non-zero keys (the
      zero-key deletion does not depend on the set's iteration order); an
      empty table, a non-hexadecimal key or a non-decimal transition
      value raise [ValueError]; the optional SOCDBG and OWNERSHIP tables
      keep the previous range when empty.
    - LifeCycle and OTP loaders: they touch disjoint parts of the
      configuration, so loading them in either order gives the same
      result.
    - Top configuration: every matching pattern writes; a parameter
      record without ["name"] is not skipped but raises [KeyError]; ROM
      banks are numbered by [int()] of the trailing digits, which reads
      back [f'{n}'] (and merges banks whose numbers differ by leading
      zeros).
    - Regular expressions: the backtracking matcher for
      [RndCnst( .* )Init] equals a one-pass characterisation (up to the
      last ["Init"] before a newline).
    - Rendering: [add_pair] quotes non-empty values and skips empty
      ones; the OTP section holds each non-empty OTP value, quoted, under
      its indented key; the LifeCycle section holds each non-empty token,
      else the range bound of that name (tokens are added after the
      bounds); with a SoC identifier and several instances every
      (instance, bank) pair has a section of its own, so the parser has
      [n * banks + 2] sections, while without one a count of [n] writes
      the same file as a count of 1, and a negative count writes no ROM
      section at all.  Every section the parser holds is named
      [ot_device "<name>"], no name occurs twice, and every option is an
      indented key with a quoted value.
    - OTP constants: the SRAM pair wins over the digest pair, which wins
      over the previous value.

    Each property with a hypothesis is applied at a concrete input by a
    witness lemma at the end of its file, evaluated by [vm_compute]; the
    LifeCycle witnesses include the specification's scenario.  The
    library lemmas behind them ([py_sorted] is the unique sorted
    permutation, the dict invariant [dict_wf] is kept by every loader,
    [Ini.read_options_ok] says when a section assignment succeeds) are
    proved in their files.

    ** Bounds and fuel

    The only loop of the script that is not over a finite collection is
    the [while cur_dir] search of [main]; [RootSearch.search_root] runs it
    with fuel, and [main] returns [None] when the fuel runs out.
    [RootSearch.search_root_exec] shows that the fuel is only a bound: a
    result reached with some fuel is the loop's big-step result, and
    every big-step result is reached with enough fuel.
    [Main.main_terminates] shows that [length topcfg + 1] steps suffice
    when the path is relative (each [dirname] shortens it);
    [Main.main_search_diverges] shows that no fuel suffices on an
    absolute path with no matching ancestor.  [Ini.keycre_sub] runs with
    fuel equal to the length of its input, and [PyStr.dec_digits] with
    fuel [n + 1] for the number [n]; each step consumes a character or a
    decimal digit, so the fuel never runs out ([PyStr.dec_digits_spec]).
    Integers are Python integers (unbounded): [Z] with no wrap-around.

    ** Not modelled

    Logging output, [--verbose], the text of the traceback,
    [argparse] beyond the [choices] of [--top], the file system beyond
    [isfile]/[isdir]/[abspath] and the readers' results, writing the
    output file, the HJSON and RTL parsers (their results are inputs),
    Unicode beyond ASCII (Python's [\d], [int] and [str.lower] also accept
    other Unicode digits and letters).  Where a Python error would leave
    a loader's state half updated, the model returns the error alone: the
    state is then discarded by [main]'s handler.
*)

From Stdlib Require Import String Ascii List ZArith Lia Bool.
Import ListNotations.

(** ** Python exceptions and results *)

(** The exceptions the modelled code can raise.  [main] catches
    [OSError] (Python's [IOError]), [ValueError] and [ImportError], and
    turns [KeyboardInterrupt] into exit status 2; the others escape as an
    uncaught traceback.  [SystemExit] is what [argparser.error] raises
    (exit status 2). *)
Inductive exn : Type :=
| ValueError (msg : string)
| IndexError
| KeyError (key : string)
| TypeError
| AttributeError
| AssertionError
| OSError (path : string)
| ImportError (msg : string)
| KeyboardInterrupt
| DuplicateOptionError (section option : string)
| SystemExit (code : Z) (msg : string).

(** A Python computation that returns a value or raises. *)
Inductive res (A : Type) : Type :=
| Ok (a : A)
| Raise (e : exn).
Arguments Ok {A} a.
Arguments Raise {A} e.

Definition bind {A B : Type} (r : res A) (f : A -> res B) : res B :=
  match r with
  | Ok a => f a
  | Raise e => Raise e
  end.

Declare Scope py_scope.
Delimit Scope py_scope with py.
Notation "x <- c ;; k" := (bind c (fun x => k))
  (at level 61, c at next level, right associativity) : py_scope.
Notation "' p <- c ;; k" := (bind c (fun x => match x with p => k end))
  (at level 61, p pattern, c at next level, right associativity) : py_scope.
Open Scope py_scope.

(** [if cond: raise e] *)
Definition raise_if (b : bool) (e : exn) : res unit :=
  if b then Raise e else Ok tt.

(** A [for] loop whose body may raise, threading an accumulator. *)
Fixpoint foldM {A B : Type} (f : B -> A -> res B) (l : list A) (acc : B)
  : res B :=
  match l with
  | [] => Ok acc
  | x :: l' => acc' <- f acc x ;; foldM f l' acc'
  end.

(** A list comprehension whose element expression may raise. *)
Fixpoint mapM {A B : Type} (f : A -> res B) (l : list A) : res (list B) :=
  match l with
  | [] => Ok []
  | x :: l' => y <- f x ;; ys <- mapM f l' ;; Ok (y :: ys)
  end.

(** ** Decidable equality *)

Class EqB (A : Type) := {
  eqb : A -> A -> bool;
  eqb_spec : forall x y, reflect (x = y) (eqb x y)
}.

(** [eqb] stays folded under [simpl], so the lemmas below apply. *)
Arguments eqb {A _} : simpl never.

#[export] Instance EqB_string : EqB string :=
  {| eqb := String.eqb; eqb_spec := String.eqb_spec |}.

#[export] Instance EqB_Z : EqB Z :=
  {| eqb := Z.eqb; eqb_spec := Z.eqb_spec |}.

Definition option_eqb {A} `{EqB A} (x y : option A) : bool :=
  match x, y with
  | Some a, Some b => eqb a b
  | None, None => true
  | _, _ => false
  end.

Lemma option_eqb_spec {A} `{EqB A} (x y : option A) :
  reflect (x = y) (option_eqb x y).
Proof.
  destruct x as [a|], y as [b|]; simpl;
    try (constructor; congruence).
  destruct (eqb_spec a b); constructor; congruence.
Qed.

#[export] Instance EqB_option {A} `{EqB A} : EqB (option A) :=
  {| eqb := option_eqb; eqb_spec := option_eqb_spec |}.

Create HintDb cfggen discriminated.
Create Rewrite HintDb cfgsimpl.

(** ** Lemmas on results *)

Lemma bind_ok_inv {A B} (r : res A) (f : A -> res B) b :
  bind r f = Ok b -> exists a, r = Ok a /\ f a = Ok b.
Proof. destruct r; simpl; [eauto | discriminate]. Qed.

Lemma bind_raise_inv {A B} (r : res A) (f : A -> res B) e :
  bind r f = Raise e -> r = Raise e \/ exists a, r = Ok a /\ f a = Raise e.
Proof. destruct r; simpl; [eauto | injection 1 as ->; auto]. Qed.

Lemma bind_ok {A B} (a : A) (f : A -> res B) : bind (Ok a) f = f a.
Proof. reflexivity. Qed.

Lemma bind_raise {A B} e (f : A -> res B) : bind (Raise e) f = Raise e.
Proof. reflexivity. Qed.

#[export] Hint Rewrite @bind_ok @bind_raise : cfgsimpl.

Lemma eqb_refl {A} `{EqB A} (x : A) : eqb x x = true.
Proof. destruct (eqb_spec x x); congruence. Qed.

Lemma eqb_true {A} `{EqB A} (x y : A) : eqb x y = true -> x = y.
Proof. destruct (eqb_spec x y); congruence. Qed.

Lemma eqb_false {A} `{EqB A} (x y : A) : x <> y -> eqb x y = false.
Proof. destruct (eqb_spec x y); congruence. Qed.

#[export] Hint Resolve eqb_true : cfggen.
#[export] Hint Rewrite @eqb_refl : cfgsimpl.

(** Invert the binds of a hypothesis [bind .. = Ok _]. *)
Ltac inv_bind :=
  repeat match goal with
  | H : bind ?r ?f = Ok _ |- _ =>
      let a := fresh "a" in let Ha := fresh "Ha" in
      apply bind_ok_inv in H; destruct H as (a & Ha & H)
  | H : Ok _ = Ok _ |- _ => injection H as H
  | H : Raise _ = Ok _ |- _ => discriminate H
  end.

Lemma raise_if_ok b e u : raise_if b e = Ok u -> b = false.
Proof. destruct b; simpl; [discriminate | reflexivity]. Qed.

(** Invert a successful run: binds, pair patterns and [raise_if] guards. *)
Ltac inv_run :=
  repeat match goal with
  | H : bind ?r ?f = Ok _ |- _ =>
      let a := fresh "a" in let Ha := fresh "Ha" in
      apply bind_ok_inv in H; destruct H as (a & Ha & H)
  | H : Ok _ = Ok _ |- _ => injection H as H
  | H : Raise _ = Ok _ |- _ => discriminate H
  | H : (_, _) = (_, _) |- _ => injection H as H; subst
  | H : match ?p with pair _ _ => _ end = Ok _ |- _ => destruct p
  | H : raise_if _ _ = Ok _ |- _ => apply raise_if_ok in H
  end.

(** Case analysis on [eqb x y] in the goal. *)
Ltac case_eqb :=
  match goal with
  | |- context [eqb ?x ?y] => destruct (eqb_spec x y); subst
  end.

(** ** Lemmas on lists *)

Lemma mapM_ok_length {A B} (f : A -> res B) l l' :
  mapM f l = Ok l' -> length l' = length l.
Proof.
  revert l'; induction l as [|x l IH]; simpl; intros l' H; inv_bind.
  - subst; reflexivity.
  - subst; simpl; f_equal; auto.
Qed.

Lemma mapM_ok_iff {A B} (f : A -> res B) l :
  (exists l', mapM f l = Ok l') <-> (forall x, In x l -> exists y, f x = Ok y).
Proof.
  induction l as [|x l IH]; simpl.
  - split; eauto; contradiction.
  - split.
    + intros [l' H]; inv_bind. intros z [<-|Hz]; eauto.
      apply IH; eauto.
    + intros Hall. destruct (Hall x (or_introl eq_refl)) as [y Hy].
      destruct (proj2 IH (fun z Hz => Hall z (or_intror Hz))) as [l' Hl'].
      rewrite Hy; simpl; rewrite Hl'; simpl; eauto.
Qed.

(** An invariant of the accumulator survives a [for] loop whose body
    preserves it. *)
Lemma foldM_invariant {A B} (P : B -> Prop) (f : B -> A -> res B) l acc r :
  (forall b x b', P b -> f b x = Ok b' -> P b') ->
  P acc -> foldM f l acc = Ok r -> P r.
Proof.
  intros Hstep. revert acc; induction l as [|x l IH]; simpl; intros acc Hacc H.
  - injection H as <-. exact Hacc.
  - inv_bind. eauto.
Qed.

Lemma mapM_ok_map {A B C} (f : A -> res B) (p : B -> C) (h : A -> C) l l' :
  (forall x y, f x = Ok y -> p y = h x) -> mapM f l = Ok l' -> map p l' = map h l.
Proof.
  intros Hf. revert l'. induction l as [|x l IH]; cbn; intros l' Hm; inv_run; subst; [reflexivity|].
  cbn. f_equal; eauto.
Qed.

(** A loop body that computes a value with [g] and stores it with [upd]
    is [g] mapped over the list, then the stores. *)
Lemma foldM_mapM {A B C} (f : B -> A -> res B) (g : A -> res C) (upd : B -> C -> B) l acc :
  (forall b x, f b x = (y <- g x ;; Ok (upd b y))) ->
  foldM f l acc = match mapM g l with Ok ys => Ok (fold_left upd ys acc) | Raise e => Raise e end.
Proof.
  intros Hf. revert acc. induction l as [|x l IH]; intros acc; [reflexivity|].
  cbn [foldM mapM]. rewrite Hf. destruct (g x) as [y|e]; cbn [bind]; [|reflexivity].
  rewrite IH. destruct (mapM g l); reflexivity.
Qed.

Lemma foldM_ext {A B} (f g : B -> A -> res B) l acc :
  (forall b x, f b x = g b x) -> foldM f l acc = foldM g l acc.
Proof.
  intros H. revert acc. induction l as [|x l IH]; intros acc; [reflexivity|].
  cbn [foldM]. rewrite H. destruct (g acc x); cbn [bind]; auto.
Qed.

(** A loop whose body is the same idempotent update at every step does it
    once. *)
Lemma foldM_idem {A B} (u : B -> B) (x : A) l acc :
  (forall b, u (u b) = u b) -> foldM (fun b _ => Ok (u b)) (x :: l) acc = Ok (u acc).
Proof.
  intros Hu. cbn [foldM bind].
  assert (Hb : forall b, u b = b -> foldM (fun b _ => Ok (u b)) l b = Ok b).
  { induction l as [|y l IH]; intros b Hb; [reflexivity|]. cbn [foldM bind]. rewrite Hb. auto. }
  apply Hb, Hu.
Qed.

(** The first and the last element of a list, as Python's [l[0], l[-1]]. *)
Definition first_last {A} (l : list A) : option (A * A) :=
  match l with
  | [] => None
  | x :: l' => Some (x, last l' x)
  end.

Lemma last_in {A} (l : list A) (d : A) : l <> [] -> In (last l d) l.
Proof.
  induction l as [|y l IH]; intros Hne; [congruence|].
  destruct l as [|z l]; [now left|].
  right. apply IH. discriminate.
Qed.

Lemma last_in_cons {A} (l : list A) (x : A) : In (last l x) (x :: l).
Proof.
  destruct l as [|y l]; [now left|]. right. apply last_in. discriminate.
Qed.

Lemma first_last_in {A} (l : list A) a b :
  first_last l = Some (a, b) -> In a l /\ In b l.
Proof.
  destruct l as [|x l]; simpl; [discriminate|].
  intros H; injection H as <- <-. split; [now left | apply last_in_cons].
Qed.
