(* ===== verification/PyStr.v ===== *)
(** * Python string and integer primitives used by cfggen.py

    [int(s, base)] as CPython's [PyLong_FromString] parses an ASCII
    string (surrounding whitespace, a sign, the base prefix with one
    optional underscore, digits separated by single underscores);
    [str(n)] of a non-negative integer; [str.startswith]; [s[n:]];
    [str.lower]; ['.'.join]; and [camel_to_snake_case] of
    [python/qemu/ot/util/misc.py] (outside src/, modelled from the spec). *)

From Stdlib Require Import String Ascii List ZArith Lia Bool.
From S2P Require Import Prelude.
Import ListNotations.

Module PyStr.

(** ** Character classes *)

(** [str.isspace] on ASCII: HT, LF, VT, FF, CR, the separators FS, GS, RS,
    US and the space. *)
Definition is_py_space (c : ascii) : bool :=
  let n := nat_of_ascii c in
  ((9 <=? n) && (n <=? 13)) || ((28 <=? n) && (n <=? 32)).

Definition is_digit (c : ascii) : bool :=
  let n := nat_of_ascii c in (48 <=? n) && (n <=? 57).

Definition is_upper (c : ascii) : bool :=
  let n := nat_of_ascii c in (65 <=? n) && (n <=? 90).

Definition is_lower (c : ascii) : bool :=
  let n := nat_of_ascii c in (97 <=? n) && (n <=? 122).

(** The value of a digit character in bases up to 36, as CPython's
    [_PyLong_DigitValue] table. *)
Definition char_value (c : ascii) : option Z :=
  let n := Z.of_nat (nat_of_ascii c) in
  if ((48 <=? n) && (n <=? 57))%Z then Some (n - 48)%Z
  else if ((65 <=? n) && (n <=? 90))%Z then Some (n - 55)%Z
  else if ((97 <=? n) && (n <=? 122))%Z then Some (n - 87)%Z
  else None.

Definition digit_value (base : Z) (c : ascii) : option Z :=
  match char_value c with
  | Some v => if (v <? base)%Z then Some v else None
  | None => None
  end.

(** ** [int(s, base)] *)

Fixpoint skip_space (l : list ascii) : list ascii :=
  match l with
  | c :: l' => if is_py_space c then skip_space l' else l
  | [] => []
  end.

Definition parse_sign (l : list ascii) : Z * list ascii :=
  match l with
  | c :: l' =>
      if (c =? "+")%char then (1%Z, l')
      else if (c =? "-")%char then ((-1)%Z, l')
      else (1%Z, l)
  | [] => (1%Z, [])
  end.

(** The prefix letter of an explicit base: [0x] for 16, [0o] for 8,
    [0b] for 2. *)
Definition prefix_letter (base : Z) (c : ascii) : bool :=
  match base with
  | 16%Z => (c =? "x")%char || (c =? "X")%char
  | 8%Z => (c =? "o")%char || (c =? "O")%char
  | 2%Z => (c =? "b")%char || (c =? "B")%char
  | _ => false
  end.

(** Skip the base prefix and the one underscore allowed after it. *)
Definition strip_base_prefix (base : Z) (l : list ascii) : list ascii :=
  match l with
  | c0 :: c :: l' =>
      if (c0 =? "0")%char && prefix_letter base c then
        match l' with
        | c1 :: l'' => if (c1 =? "_")%char then l'' else l'
        | [] => []
        end
      else l
  | _ => l
  end.

Definition head_is_underscore (l : list ascii) : bool :=
  match l with
  | c :: _ => (c =? "_")%char
  | [] => false
  end.

(** The scan of the digit run: [None] on a doubled underscore; otherwise
    the digit values, whether the last character scanned was an
    underscore, and the rest of the input. *)
Fixpoint scan_digits (base : Z) (prev_us : bool) (l : list ascii)
  : option (list Z * bool * list ascii) :=
  match l with
  | [] => Some ([], prev_us, [])
  | c :: l' =>
      if (c =? "_")%char then
        if prev_us then None else scan_digits base true l'
      else
        match digit_value base c with
        | Some v =>
            match scan_digits base false l' with
            | Some (ds, t, r) => Some (v :: ds, t, r)
            | None => None
            end
        | None => Some ([], prev_us, l)
        end
  end.

Definition digits_value (base : Z) (ds : list Z) : Z :=
  fold_left (fun acc d => acc * base + d)%Z ds 0%Z.

Definition int_error (base : Z) : exn :=
  ValueError "invalid literal for int() with base".

(** [int(s, base)] for an explicit [base] (2 to 36). *)
Definition py_int (base : Z) (s : string) : res Z :=
  let l0 := skip_space (list_ascii_of_string s) in
  let '(sign, l1) := parse_sign l0 in
  let l2 := strip_base_prefix base l1 in
  if head_is_underscore l2 then Raise (int_error base)
  else
      match scan_digits base false l2 with
      | None => Raise (int_error base)
      | Some (ds, trailing_us, rest) =>
          if trailing_us then Raise (int_error base)
          else match ds with
               | [] => Raise (int_error base)
               | _ =>
                   match skip_space rest with
                   | [] => Ok (sign * digits_value base ds)%Z
                   | _ => Raise (int_error base)
                   end
               end
      end.

(** ** [str(n)] for a non-negative integer *)

Definition digit_char (d : nat) : ascii := ascii_of_nat (48 + d).

Fixpoint dec_digits (fuel n : nat) : list ascii :=
  match fuel with
  | O => []
  | S fuel' =>
      if n <? 10 then [digit_char n]
      else dec_digits fuel' (n / 10) ++ [digit_char (n mod 10)]
  end%nat.

(** [f'{n}'] *)
Definition str_of_nat (n : nat) : string :=
  string_of_list_ascii (dec_digits (S n) n).

(** [str(z)] for any integer. *)
Definition str_of_Z (z : Z) : string :=
  if (z <? 0)%Z then String "-"%char (str_of_nat (Z.to_nat (- z)))
  else str_of_nat (Z.to_nat z).

(** ** Small string operations *)

Lemma list_ascii_of_string_app s t :
  list_ascii_of_string (s ++ t) = list_ascii_of_string s ++ list_ascii_of_string t.
Proof. induction s as [|c s IH]; cbn; congruence. Qed.

Lemma append_cancel_r s t u : (s ++ u = t ++ u)%string -> s = t.
Proof.
  intros E. apply (f_equal list_ascii_of_string) in E. rewrite !list_ascii_of_string_app in E.
  apply app_inv_tail in E.
  rewrite <- (string_of_list_ascii_of_string s), <- (string_of_list_ascii_of_string t), E.
  reflexivity.
Qed.

(** [s.startswith(p)] *)
Definition startswith (s p : string) : bool := String.prefix p s.

(** [s[n:]] *)
Fixpoint str_drop (n : nat) (s : string) : string :=
  match n, s with
  | O, _ => s
  | S _, EmptyString => EmptyString
  | S n', String _ s' => str_drop n' s'
  end.

Definition lower_char (c : ascii) : ascii :=
  if is_upper c then ascii_of_nat (nat_of_ascii c + 32) else c.

(** [s.lower()] on ASCII. *)
Definition lower (s : string) : string :=
  string_of_list_ascii (map lower_char (list_ascii_of_string s)).

(** ['.'.join(parts)] *)
Definition join_dot (parts : list string) : string := String.concat "." parts.

(** ** [camel_to_snake_case]

    Inserts ['_'] at each position preceded by a lower-case letter and
    followed by an upper-case one, and at each position preceded by an
    upper-case letter and followed by an upper-case then a lower-case one
    (the end of an upper-case run), then lower-cases the whole string. *)
Fixpoint snake_aux (prev : option ascii) (l : list ascii) : list ascii :=
  match l with
  | [] => []
  | c :: l' =>
      let boundary :=
        match prev with
        | Some p =>
            (is_lower p && is_upper c)
            || (is_upper p && is_upper c
                && match l' with
                   | d :: _ => is_lower d
                   | [] => false
                   end)
        | None => false
        end in
      (if boundary then ["_"%char; lower_char c] else [lower_char c])
        ++ snake_aux (Some c) l'
  end.

Definition camel_to_snake_case (camel : string) : string :=
  string_of_list_ascii (snake_aux None (list_ascii_of_string camel)).

(** ** Lemmas *)

Lemma digit_char_facts d :
  (d < 10)%nat ->
  is_py_space (digit_char d) = false /\
  (digit_char d =? "+")%char = false /\ (digit_char d =? "-")%char = false /\
  (digit_char d =? "_")%char = false /\
  digit_value 10 (digit_char d) = Some (Z.of_nat d).
Proof.
  intros H. do 10 (destruct d as [|d]; [repeat split; reflexivity|]). lia.
Qed.

Lemma digit_char_is_digit d : (d < 10)%nat -> is_digit (digit_char d) = true.
Proof. intros H. do 10 (destruct d as [|d]; [reflexivity|]). lia. Qed.

Lemma scan_digits_dec ds :
  Forall (fun d => d < 10)%nat ds ->
  scan_digits 10 false (map digit_char ds) = Some (map Z.of_nat ds, false, []).
Proof.
  induction 1 as [|d ds Hd _ IH]; [reflexivity|].
  destruct (digit_char_facts d Hd) as (_ & _ & _ & Hu & Hv).
  cbn [map scan_digits]. rewrite Hu, Hv, IH. reflexivity.
Qed.

Lemma digits_value_snoc base ds d :
  digits_value base (ds ++ [d]) = (digits_value base ds * base + d)%Z.
Proof. unfold digits_value. rewrite fold_left_app. reflexivity. Qed.

(** [dec_digits] with enough fuel yields the decimal digits of [n]. *)
Lemma dec_digits_spec fuel n :
  (n < fuel)%nat ->
  exists ds, dec_digits fuel n = map digit_char ds /\ ds <> [] /\
    Forall (fun d => d < 10)%nat ds /\
    digits_value 10 (map Z.of_nat ds) = Z.of_nat n.
Proof.
  revert n; induction fuel as [|fuel IH]; intros n Hn; [lia|].
  cbn [dec_digits]. destruct (Nat.ltb_spec n 10) as [Hlt|Hge].
  - exists [n]. split; [reflexivity|]. split; [discriminate|].
    split; [constructor; auto|]. reflexivity.
  - destruct (IH (n / 10)%nat) as (ds & Heq & Hne & Hall & Hval).
    { apply Nat.lt_le_trans with n; [apply Nat.div_lt; lia | lia]. }
    exists (ds ++ [n mod 10])%nat. rewrite Heq, map_app.
    split; [reflexivity|]. split; [destruct ds; cbn; discriminate|].
    split.
    + apply Forall_app; split; auto. constructor; [apply Nat.mod_upper_bound; lia | auto].
    + rewrite map_app. cbn [map]. rewrite digits_value_snoc, Hval.
      rewrite (Nat.div_mod_eq n 10) at 3. lia.
Qed.

Lemma strip_base_prefix_10 l : strip_base_prefix 10 l = l.
Proof.
  destruct l as [|c0 [|c l]]; try reflexivity.
  cbn [strip_base_prefix prefix_letter]. rewrite andb_false_r. reflexivity.
Qed.

(** [int(s)] of a string of decimal digits (leading zeros allowed). *)
Lemma py_int_digits ds :
  Forall (fun d => d < 10)%nat ds -> ds <> [] ->
  py_int 10 (string_of_list_ascii (map digit_char ds)) =
  Ok (digits_value 10 (map Z.of_nat ds)).
Proof.
  intros Hall Hne. unfold py_int. rewrite list_ascii_of_string_of_list_ascii.
  destruct ds as [|d ds']; [congruence|].
  pose proof Hall as Hall0. inversion Hall0 as [|? ? Hd _]; subst.
  destruct (digit_char_facts d Hd) as (Hs & Hp & Hm & Hu & _).
  cbn [map skip_space]. rewrite Hs. cbn [parse_sign]. rewrite Hp, Hm.
  cbv beta iota zeta. rewrite strip_base_prefix_10.
  cbn [head_is_underscore]. rewrite Hu.
  change (digit_char d :: map digit_char ds') with (map digit_char (d :: ds')).
  rewrite scan_digits_dec by exact Hall. cbn [skip_space map].
  f_equal. apply Z.mul_1_l.
Qed.

(** [int(str(n)) == n]: the decimal rendering of a count parses back. *)
Lemma py_int_str_of_nat n : py_int 10 (str_of_nat n) = Ok (Z.of_nat n).
Proof.
  unfold str_of_nat.
  destruct (dec_digits_spec (S n) n) as (ds & -> & Hne & Hall & Hval); [lia|].
  rewrite py_int_digits by assumption. rewrite Hval. reflexivity.
Qed.

(** Every ASCII digit is the [digit_char] of its value. *)
Lemma digit_char_of c :
  is_digit c = true ->
  (nat_of_ascii c - 48 < 10)%nat /\ digit_char (nat_of_ascii c - 48) = c.
Proof.
  unfold is_digit. intros H. apply andb_true_iff in H as [H1 H2].
  apply Nat.leb_le in H1, H2. split; [lia|].
  unfold digit_char. replace (48 + (nat_of_ascii c - 48))%nat with (nat_of_ascii c) by lia.
  apply ascii_nat_embedding.
Qed.

(** A digit string has a non-negative value. *)
Lemma digits_value_nonneg ds : (0 <= digits_value 10 (map Z.of_nat ds))%Z.
Proof.
  unfold digits_value.
  enough (Hacc : forall acc, (0 <= acc)%Z ->
            (0 <= fold_left (fun acc d => acc * 10 + d) (map Z.of_nat ds) acc)%Z)
    by (apply Hacc; lia).
  induction ds as [|d ds IH]; cbn; intros acc Hacc; [exact Hacc|]. apply IH. lia.
Qed.

(** [int()] of a non-empty run of ASCII digits is the value of their
    digits. *)
Lemma py_int_digit_string a :
  Forall (fun c => is_digit c = true) a -> a <> [] ->
  exists ds, py_int 10 (string_of_list_ascii a) = Ok (digits_value 10 (map Z.of_nat ds)).
Proof.
  intros Hall Hne. exists (map (fun c => nat_of_ascii c - 48)%nat a).
  assert (Ha : map digit_char (map (fun c => nat_of_ascii c - 48)%nat a) = a).
  { clear Hne. rewrite map_map. induction Hall as [|c l Hc _ IH]; cbn [map]; [reflexivity|].
    now rewrite (proj2 (digit_char_of c Hc)), IH. }
  rewrite <- Ha at 1. apply py_int_digits.
  - apply Forall_map. eapply Forall_impl; [|exact Hall]. intros c Hc. apply digit_char_of, Hc.
  - destruct a; [congruence | discriminate].
Qed.

(** Leading zeros do not change the value of a digit string. *)
Lemma digits_value_leading_zero base ds :
  digits_value base (0%Z :: ds) = digits_value base ds.
Proof. reflexivity. Qed.

(** [int()] raises nothing but the [ValueError] of an invalid literal. *)
Lemma py_int_raise base s e : py_int base s = Raise e -> e = int_error base.
Proof.
  unfold py_int. destruct (parse_sign _) as [sign l1].
  destruct (head_is_underscore _); [congruence|].
  destruct (scan_digits _ _ _) as [[[ds t] r]|]; [|congruence].
  destruct t; [congruence|]. destruct ds; [congruence|].
  destruct (skip_space r); congruence.
Qed.

Lemma str_of_Z_nonneg z : (0 <= z)%Z -> str_of_Z z = str_of_nat (Z.to_nat z).
Proof. intros H. unfold str_of_Z. destruct (Z.ltb_spec z 0); [lia | reflexivity]. Qed.

(** [str(n)] is injective: distinct instance numbers give distinct names. *)
Lemma str_of_nat_inj n m : str_of_nat n = str_of_nat m -> n = m.
Proof.
  intros H. apply Nat2Z.inj.
  pose proof (py_int_str_of_nat n) as Hn. rewrite H, py_int_str_of_nat in Hn.
  congruence.
Qed.

Lemma str_of_nat_head n : exists d s, str_of_nat n = String (digit_char d) s /\ (d < 10)%nat.
Proof.
  unfold str_of_nat.
  destruct (dec_digits_spec (S n) n) as (ds & -> & Hne & Hall & _); [lia|].
  destruct ds as [|d ds]; [congruence|]. inversion Hall; subst. cbn. eauto.
Qed.

(** [str(z)] is injective on all integers: a negative number's ['-']
    never starts the decimal digits of another. *)
Lemma str_of_Z_inj a b : str_of_Z a = str_of_Z b -> a = b.
Proof.
  assert (Hneg : forall n m, String "-"%char (str_of_nat n) <> str_of_nat m).
  { intros n m E. destruct (str_of_nat_head m) as (d & s & Hm & Hd). rewrite Hm in E.
    injection E as Ec _. destruct (digit_char_facts d Hd) as (_ & _ & Hc & _).
    rewrite <- Ec in Hc. discriminate Hc. }
  unfold str_of_Z. destruct (Z.ltb_spec a 0), (Z.ltb_spec b 0); intros E.
  - injection E as E. apply str_of_nat_inj in E. lia.
  - destruct (Hneg _ _ E).
  - destruct (Hneg _ _ (eq_sym E)).
  - apply str_of_nat_inj in E. lia.
Qed.

(** ** Splitting a name at its first dot *)

Definition no_dot (s : string) : Prop := ~ In "."%char (list_ascii_of_string s).

Definition dot_head (s : string) : Prop := s = EmptyString \/ exists t, s = String "."%char t.

Lemma digit_char_not_dot d : (d < 10)%nat -> digit_char d <> "."%char.
Proof. intros H. do 10 (destruct d as [|d]; [discriminate|]). lia. Qed.

Lemma no_dot_str_of_Z z : no_dot (str_of_Z z).
Proof.
  assert (Hn : forall n, no_dot (str_of_nat n)).
  { intros n Hin. unfold str_of_nat in Hin.
    destruct (dec_digits_spec (S n) n) as (ds & Eds & _ & Hall & _); [lia|].
    rewrite Eds, list_ascii_of_string_of_list_ascii in Hin.
    apply in_map_iff in Hin as (d & Hd & Hin).
    rewrite Forall_forall in Hall. exact (digit_char_not_dot d (Hall d Hin) Hd). }
  unfold str_of_Z. destruct (z <? 0)%Z; [|apply Hn].
  intros [E|Hin]; [discriminate E | exact (Hn _ Hin)].
Qed.

Lemma append_cancel_l p s t : (p ++ s = p ++ t)%string -> s = t.
Proof. induction p as [|c p IH]; cbn; intros E; [exact E|]. injection E as E. auto. Qed.

Lemma split_at_dot a a' b b' :
  no_dot a -> no_dot a' -> dot_head b -> dot_head b' ->
  (a ++ b = a' ++ b')%string -> a = a' /\ b = b'.
Proof.
  unfold no_dot. revert a'.
  induction a as [|c a IH]; intros [|c' a'] Ha Ha' Hb Hb' E; cbn in *.
  - auto.
  - exfalso. destruct Hb as [->|(t & ->)]; [discriminate|].
    injection E as <- _. apply Ha'. left. reflexivity.
  - exfalso. destruct Hb' as [->|(t & ->)]; [discriminate|].
    injection E as -> _. apply Ha. left. reflexivity.
  - injection E as <- E.
    destruct (IH a' (fun H => Ha (or_intror H)) (fun H => Ha' (or_intror H)) Hb Hb' E)
      as [-> ->].
    auto.
Qed.

Lemma lower_char_not_upper c : is_upper (lower_char c) = false.
Proof.
  unfold lower_char. destruct (is_upper c) eqn:E; [|exact E].
  unfold is_upper in *. apply andb_true_iff in E as [E1 E2].
  apply Nat.leb_le in E1, E2.
  rewrite nat_ascii_embedding by lia.
  apply andb_false_iff. right. apply Nat.leb_gt. lia.
Qed.

Lemma snake_aux_no_upper prev l :
  Forall (fun c => is_upper c = false) (snake_aux prev l).
Proof.
  revert prev; induction l as [|c l IH]; intros prev; simpl; [constructor|].
  apply Forall_app; split; [|apply IH].
  destruct (match prev with Some _ => _ | None => false end);
    repeat constructor; apply lower_char_not_upper.
Qed.

(** The field names produced by [camel_to_snake_case] contain no
    upper-case letter. *)
Lemma camel_to_snake_case_no_upper s :
  Forall (fun c => is_upper c = false)
    (list_ascii_of_string (camel_to_snake_case s)).
Proof.
  unfold camel_to_snake_case. rewrite list_ascii_of_string_of_list_ascii.
  apply snake_aux_no_upper.
Qed.

Lemma lower_no_upper_id l :
  Forall (fun c => is_upper c = false) l -> map lower_char l = l.
Proof.
  induction 1 as [|c l Hc _ IH]; simpl; [reflexivity|].
  unfold lower_char at 1. rewrite Hc, IH. reflexivity.
Qed.

(** [camel_to_snake_case(s).lower() == camel_to_snake_case(s)]. *)
Lemma lower_camel_to_snake_case s :
  lower (camel_to_snake_case s) = camel_to_snake_case s.
Proof.
  unfold lower. rewrite lower_no_upper_id by apply camel_to_snake_case_no_upper.
  apply string_of_list_ascii_of_string.
Qed.

(** [s.startswith('0x')] splits [s] into the prefix and [s[2:]]. *)
Lemma startswith_0x s :
  startswith s "0x" = true -> s = ("0x" ++ str_drop 2 s)%string.
Proof.
  intros H. destruct s as [|a [|b s]]; cbv [startswith String.prefix] in H;
    try discriminate H.
  - destruct (ascii_dec "0" a); discriminate H.
  - destruct (ascii_dec "0" a) as [<-|]; [|discriminate H].
    destruct (ascii_dec "x" b) as [<-|]; [reflexivity|discriminate H].
Qed.

Lemma str_drop_0x s : str_drop 2 ("0x" ++ s) = s.
Proof. reflexivity. Qed.

End PyStr.
