(* ===== verification/PyDict.v ===== *)
(** * Insertion-ordered Python dictionaries

    A Python [dict] remembers the order in which its keys were first
    inserted; [list(d)] and iteration follow it, and cfggen.py relies on it
    ([ostates[0]], [ostates[-1]] take the first and the last key).  A dict
    is modelled as an association list in that order, with the invariant
    that no key occurs twice.  Operations: [d.get(k)] ([dget]),
    [d[k] = v] ([dset]: in place when [k] is present, appended otherwise),
    [del d[k]] ([ddel], [None] standing for the [KeyError]),
    [d.update(e)] ([dupdate]) and [list(d)] ([dkeys]). *)

From Stdlib Require Import String List Bool Permutation.
From S2P Require Import Prelude.
Import ListNotations.

Module PyDict.

Section Dict.
Context {K V : Type} `{EqB K}.

Definition dict := list (K * V).

Definition dkeys (d : dict) : list K := map fst d.

(** The well-formedness invariant: no duplicate key. *)
Definition dict_wf (d : dict) : Prop := NoDup (dkeys d).

Fixpoint dget (d : dict) (k : K) : option V :=
  match d with
  | [] => None
  | (k', v) :: d' => if eqb k k' then Some v else dget d' k
  end.

Fixpoint dset (d : dict) (k : K) (v : V) : dict :=
  match d with
  | [] => [(k, v)]
  | (k', v') :: d' =>
      if eqb k k' then (k', v) :: d' else (k', v') :: dset d' k v
  end.

Fixpoint ddel (d : dict) (k : K) : option dict :=
  match d with
  | [] => None
  | (k', v') :: d' =>
      if eqb k k' then Some d'
      else option_map (cons (k', v')) (ddel d' k)
  end.

Definition dupdate (d e : dict) : dict :=
  fold_left (fun acc kv => dset acc (fst kv) (snd kv)) e d.

(** Well-formedness as a check that runs. *)
Fixpoint nodupb (l : list K) : bool :=
  match l with
  | [] => true
  | x :: l' => negb (existsb (eqb x) l') && nodupb l'
  end.

Definition dmem (d : dict) (k : K) : bool :=
  match dget d k with Some _ => true | None => false end.

(** ** Lookups *)

Lemma dget_dset_eq d k v : dget (dset d k v) k = Some v.
Proof.
  induction d as [|[k' v'] d IH]; simpl; rewrite ?eqb_refl; [reflexivity|].
  destruct (eqb_spec k k'); simpl; [subst; rewrite eqb_refl; reflexivity|].
  rewrite eqb_false by assumption. exact IH.
Qed.

Lemma dget_dset_ne d k k0 v : k0 <> k -> dget (dset d k v) k0 = dget d k0.
Proof.
  intros Hne. induction d as [|[k' v'] d IH]; simpl.
  - rewrite eqb_false by assumption. reflexivity.
  - destruct (eqb_spec k k'); simpl; [subst|].
    + rewrite eqb_false by assumption. reflexivity.
    + rewrite IH. reflexivity.
Qed.

Lemma dget_in d k v : dget d k = Some v -> In k (dkeys d).
Proof.
  induction d as [|[k' v'] d IH]; simpl; [discriminate|].
  destruct (eqb_spec k k'); auto.
Qed.

Lemma dget_some d k : In k (dkeys d) -> exists v, dget d k = Some v.
Proof.
  induction d as [|[k' v'] d IH]; simpl; [contradiction|].
  intros Hin. destruct (eqb_spec k k'); [eauto|].
  apply IH. destruct Hin; [congruence|assumption].
Qed.

Lemma in_dkeys_filter (p : K * V -> bool) d k :
  In k (dkeys (filter p d)) <-> exists v, In (k, v) d /\ p (k, v) = true.
Proof.
  unfold dkeys. rewrite in_map_iff. split.
  - intros [[k' v] [Hk Hin]]. simpl in Hk. subst k'.
    apply filter_In in Hin. eauto.
  - intros [v [Hin Hp]]. exists (k, v). split; [reflexivity|].
    apply filter_In. auto.
Qed.

Lemma filter_wf (p : K * V -> bool) d : dict_wf d -> dict_wf (filter p d).
Proof.
  unfold dict_wf, dkeys. induction d as [|[k v] d IH]; simpl; [auto|].
  intros Hwf. inversion Hwf as [|? ? Hn Hwf']; subst.
  destruct (p (k, v)); simpl; [|auto].
  constructor; [|auto]. intros Hin. apply Hn.
  apply in_map_iff in Hin as [[k' v'] [Hk Hin]]. simpl in Hk. subst k'.
  apply filter_In in Hin as [Hin _]. apply (in_map fst) in Hin. exact Hin.
Qed.

Lemma dget_none d k : ~ In k (dkeys d) -> dget d k = None.
Proof.
  induction d as [|[k' v'] d IH]; simpl; [reflexivity|].
  intros Hn. rewrite eqb_false by (intros ->; auto). auto.
Qed.

(** ** Key order *)

(** Assigning to a present key keeps the keys and their order. *)
Lemma dkeys_dset_in d k v : In k (dkeys d) -> dkeys (dset d k v) = dkeys d.
Proof.
  induction d as [|[k' v'] d IH]; simpl; [contradiction|].
  intros Hin. destruct (eqb_spec k k'); simpl; [reflexivity|].
  rewrite IH; [reflexivity|]. destruct Hin; [congruence|assumption].
Qed.

(** Assigning to a new key appends it. *)
Lemma dkeys_dset_notin d k v :
  ~ In k (dkeys d) -> dkeys (dset d k v) = dkeys d ++ [k].
Proof.
  induction d as [|[k' v'] d IH]; simpl; [reflexivity|].
  intros Hn. rewrite eqb_false by (intros ->; auto). simpl.
  rewrite IH by auto. reflexivity.
Qed.

(** ** The invariant *)

Lemma dset_wf d k v : dict_wf d -> dict_wf (dset d k v).
Proof.
  unfold dict_wf. intros Hwf.
  destruct (List.In_dec (fun x y => Bool.reflect_dec _ _ (eqb_spec x y)) k (dkeys d))
    as [Hin|Hn].
  - rewrite dkeys_dset_in; assumption.
  - rewrite dkeys_dset_notin by assumption.
    apply NoDup_app; auto using NoDup_cons, NoDup_nil.
    intros x Hx [<-|[]]. contradiction.
Qed.

Lemma dset_values (P : V -> Prop) d k v :
  Forall (fun kv => P (snd kv)) d -> P v ->
  Forall (fun kv => P (snd kv)) (dset d k v).
Proof.
  induction 1 as [|[k' v'] d Hkv Hd IH]; simpl; intros Hv; [auto|].
  destruct (eqb k k'); constructor; auto.
Qed.

(** A property of every entry survives [d[k] = v] when the new entry has
    it. *)
Lemma dset_forall (P : K * V -> Prop) d k v :
  Forall P d -> P (k, v) -> Forall P (dset d k v).
Proof.
  induction 1 as [|[k' v'] d Hkv Hd IH]; simpl; intros Hv; [auto|].
  destruct (eqb_spec k k'); [subst|]; constructor; auto.
Qed.

Lemma dget_values (P : V -> Prop) d k v :
  Forall (fun kv => P (snd kv)) d -> dget d k = Some v -> P v.
Proof.
  induction 1 as [|[k' v'] d Hkv _ IH]; simpl; [discriminate|].
  destruct (eqb k k'); [intros H'; injection H' as <-; exact Hkv | exact IH].
Qed.

Lemma fold_dset_wf (ws : list (K * V)) d :
  dict_wf d -> dict_wf (fold_left (fun d kv => dset d (fst kv) (snd kv)) ws d).
Proof.
  revert d; induction ws as [|[k v] ws IH]; simpl; intros d Hwf; auto using dset_wf.
Qed.

Lemma ddel_keys d k d' :
  ddel d k = Some d' -> exists pre post,
    dkeys d = pre ++ k :: post /\ dkeys d' = pre ++ post.
Proof.
  revert d'. induction d as [|[k1 v1] d IH]; simpl; intros d'; [discriminate|].
  destruct (eqb_spec k k1) as [<-|Hne].
  - intros Heq. injection Heq as <-. exists [], (dkeys d). auto.
  - destruct (ddel d k) as [d1|] eqn:E; simpl; [|discriminate].
    intros Heq. injection Heq as <-.
    destruct (IH d1 eq_refl) as (pre & post & H1 & H2).
    exists (k1 :: pre), post. simpl. rewrite H1, H2. auto.
Qed.

Lemma ddel_wf d k d' : dict_wf d -> ddel d k = Some d' -> dict_wf d'.
Proof.
  unfold dict_wf. intros Hwf Hdel.
  destruct (ddel_keys d k d' Hdel) as (pre & post & H1 & H2).
  rewrite H2. rewrite H1 in Hwf. eapply NoDup_remove_1. exact Hwf.
Qed.

Lemma dupdate_wf d e : dict_wf d -> dict_wf (dupdate d e).
Proof.
  unfold dupdate. revert d.
  induction e as [|[k v] e IH]; simpl; intros d Hwf; auto using dset_wf.
Qed.

Lemma ddel_some d k : In k (dkeys d) -> exists d', ddel d k = Some d'.
Proof.
  induction d as [|[k1 v1] d IH]; simpl; [contradiction|].
  intros Hin. destruct (eqb_spec k k1); [eauto|].
  destruct IH as [d' ->]; [destruct Hin; [congruence|assumption]|].
  simpl. eauto.
Qed.

Lemma filter_key_notin d k :
  ~ In k (dkeys d) -> filter (fun kv => negb (eqb k (fst kv))) d = d.
Proof.
  induction d as [|[k1 v1] d IH]; simpl; intros Hn; [reflexivity|].
  rewrite eqb_false by (intros ->; auto). simpl. rewrite IH; auto.
Qed.

(** On a well-formed dict, [del d[k]] of a present key is a filter. *)
Lemma ddel_filter d k :
  dict_wf d -> In k (dkeys d) ->
  ddel d k = Some (filter (fun kv => negb (eqb k (fst kv))) d).
Proof.
  unfold dict_wf. induction d as [|[k1 v1] d IH]; simpl; [contradiction|].
  intros Hwf Hin. inversion Hwf as [|? ? Hn Hwf']; subst.
  destruct (eqb_spec k k1) as [<-|Hne]; simpl.
  - rewrite filter_key_notin by exact Hn. reflexivity.
  - rewrite IH; [reflexivity | exact Hwf' | destruct Hin; [congruence|assumption]].
Qed.

(** [d.update(e)] for a well-formed [e]: the keys of [e] take [e]'s
    values, the others keep [d]'s. *)
Lemma dget_dupdate d e k :
  dict_wf e ->
  dget (dupdate d e) k = match dget e k with Some v => Some v | None => dget d k end.
Proof.
  unfold dict_wf, dupdate. revert d.
  induction e as [|[k1 v1] e IH]; simpl; intros d Hwf; [reflexivity|].
  inversion Hwf as [|? ? Hn Hwf']; subst. rewrite IH by exact Hwf'.
  destruct (eqb_spec k k1) as [->|Hne].
  - rewrite dget_none by exact Hn. apply dget_dset_eq.
  - destruct (dget e k); [reflexivity|]. apply dget_dset_ne. exact Hne.
Qed.

Lemma nodupb_NoDup l : nodupb l = true -> NoDup l.
Proof.
  induction l as [|x l IH]; cbn; intros Hb; [constructor|].
  apply andb_prop in Hb as [Hn Hb]. constructor; [|auto].
  intros Hin. apply negb_true_iff in Hn.
  assert (He : existsb (eqb x) l = true) by (apply existsb_exists; eauto using eqb_refl).
  congruence.
Qed.

(** Setting a key to the value it already has changes nothing. *)
Lemma dset_same d k v : dget d k = Some v -> dset d k v = d.
Proof.
  induction d as [|[k' v'] d IH]; cbn; [discriminate|].
  destruct (eqb_spec k k') as [->|Hne]; intros Hg;
    [injection Hg as ->; reflexivity | rewrite IH by exact Hg; reflexivity].
Qed.

Lemma dget_in_wf d k v : dict_wf d -> In (k, v) d -> dget d k = Some v.
Proof.
  unfold dict_wf. induction d as [|[k' v'] d IH]; cbn; intros Hwf Hin; [contradiction|].
  inversion Hwf as [|? ? Hn Hwf']; subst.
  destruct Hin as [E|Hin]; [injection E as -> ->; rewrite eqb_refl; reflexivity|].
  rewrite eqb_false by (intros ->; apply Hn, in_map_iff; exists (k', v); auto).
  auto.
Qed.

Lemma dupdate_fixed d e : (forall k v, In (k, v) e -> dget d k = Some v) -> dupdate d e = d.
Proof.
  unfold dupdate. induction e as [|[k v] e IH]; cbn; intros Hin; [reflexivity|].
  rewrite dset_same by (apply Hin; left; reflexivity).
  apply IH. intros k' v' Hkv. apply Hin. right. exact Hkv.
Qed.

Lemma dget_some_in d k v : dget d k = Some v -> In (k, v) d.
Proof.
  induction d as [|[k' v'] d IH]; cbn; [discriminate|].
  destruct (eqb_spec k k') as [->|_]; [intros E; injection E as ->; auto | auto].
Qed.

(** Two orderings of the same entries, keys unique, answer every lookup
    alike. *)
Lemma dget_perm d d' k : Permutation d d' -> dict_wf d -> dget d k = dget d' k.
Proof.
  intros Hp Hwf.
  assert (Hwf' : dict_wf d') by exact (Permutation_NoDup (Permutation_map fst Hp) Hwf).
  destruct (dget d k) as [v|] eqn:E.
  - symmetry. apply dget_in_wf; [exact Hwf'|]. apply (Permutation_in _ Hp), dget_some_in, E.
  - destruct (dget d' k) as [v|] eqn:E'; [|reflexivity].
    apply dget_some_in, (Permutation_in _ (Permutation_sym Hp)), (dget_in_wf _ _ _ Hwf) in E'.
    congruence.
Qed.

(** [for k, v in items: d[k] = v] with unique keys: each key ends with
    its item's value, the others keep theirs. *)
Lemma fold_dset_lookup (items : dict) d0 k :
  dict_wf items ->
  dget (fold_left (fun d kv => dset d (fst kv) (snd kv)) items d0) k =
  match dget items k with Some v => Some v | None => dget d0 k end.
Proof.
  unfold dict_wf. revert d0. induction items as [|[k' v'] items IH]; intros d0 Hwf; [reflexivity|].
  inversion Hwf as [|? ? Hn Hwf']; subst. cbn [fold_left fst snd dget]. rewrite IH by exact Hwf'.
  destruct (eqb_spec k k') as [->|Hne].
  - rewrite dget_none by exact Hn. apply dget_dset_eq.
  - destruct (dget items k); [reflexivity|]. apply dget_dset_ne, Hne.
Qed.

Lemma dset_notin_app d k v : ~ In k (dkeys d) -> dset d k v = d ++ [(k, v)].
Proof.
  induction d as [|[k' v'] d IH]; cbn; intros Hn; [reflexivity|].
  rewrite eqb_false by (intros ->; auto). rewrite IH by auto. reflexivity.
Qed.

(** Updating with fresh keys appends the entries in order. *)
Lemma dupdate_fresh d e : NoDup (dkeys d ++ dkeys e) -> dupdate d e = d ++ e.
Proof.
  unfold dupdate. revert d. induction e as [|[k v] e IH]; cbn; intros d Hnd.
  - symmetry. apply app_nil_r.
  - assert (Hk : ~ In k (dkeys d)).
    { intros Hin. apply NoDup_remove_2 in Hnd. apply Hnd, in_or_app. left. exact Hin. }
    rewrite dset_notin_app by exact Hk. rewrite IH.
    + rewrite <- app_assoc. reflexivity.
    + unfold dkeys in *. rewrite map_app, <- app_assoc. exact Hnd.
Qed.

(** [d.update(e); d.update(e)] is [d.update(e)]. *)
Lemma dupdate_idem d e : dict_wf e -> dupdate (dupdate d e) e = dupdate d e.
Proof.
  intros Hwf. apply dupdate_fixed. intros k v Hin.
  rewrite dget_dupdate, (dget_in_wf e k v) by assumption. reflexivity.
Qed.

End Dict.

Arguments dict K V : clear implicits.

(** [d[k]] on a string-keyed dict: [KeyError] when [k] is absent. *)
Definition getitem {V} (d : dict string V) (k : string) : res V :=
  match dget d k with
  | Some v => Ok v
  | None => Raise (KeyError k)
  end.

End PyDict.
