(* ===== verification/PosixPath.v ===== *)
(** * [os.path.dirname] and [os.path.join] on POSIX

    [main] (cfggen.py lines 288-313) builds its default paths with
    [joinpath] and looks for the OpenTitan root with a loop on [dirname].
    Both come from CPython's [posixpath.py], modelled here on the
    characters of the path:
    - [dirname(p)]: [head = p[:p.rfind('/') + 1]], and unless [head] is
      empty or only slashes, [head.rstrip('/')];
    - [join(a, b)]: [b] when it is absolute, [a + b] when [a] is empty or
      ends with a slash, [a + '/' + b] otherwise.
    The lemmas show that [dirname] returns a prefix of its argument, that
    it strictly shortens a non-empty relative path and keeps it relative,
    and that it never empties an absolute path ([dirname('/') = '/']). *)

From Stdlib Require Import String Ascii List Bool Lia.
From S2P Require Import Prelude PyStr.
Import ListNotations.

Module PosixPath.

Definition slash : ascii := "/"%char.

Definition is_slash (c : ascii) : bool := (c =? slash)%char.

Fixpoint dropwhile {A} (f : A -> bool) (l : list A) : list A :=
  match l with
  | x :: l' => if f x then dropwhile f l' else l
  | [] => []
  end.

Fixpoint takewhile {A} (f : A -> bool) (l : list A) : list A :=
  match l with
  | x :: l' => if f x then x :: takewhile f l' else []
  | [] => []
  end.

(** [l.rstrip(chars)] for the characters [f] accepts. *)
Definition strip_end {A} (f : A -> bool) (l : list A) : list A :=
  rev (dropwhile f (rev l)).

(** [posixpath.dirname] on the characters of the path. *)
Definition dirname_l (l : list ascii) : list ascii :=
  let head := strip_end (fun c => negb (is_slash c)) l in
  match head with
  | [] => head
  | _ => if forallb is_slash head then head else strip_end is_slash head
  end.

Definition dirname (p : string) : string :=
  string_of_list_ascii (dirname_l (list_ascii_of_string p)).

(** [p.startswith('/')] *)
Definition is_abs (p : string) : bool :=
  match p with String c _ => is_slash c | EmptyString => false end.

(** [p.endswith('/')] *)
Definition ends_slash (p : string) : bool :=
  match rev (list_ascii_of_string p) with c :: _ => is_slash c | [] => false end.

(** [posixpath.join(a, b)] *)
Definition joinpath (a b : string) : string :=
  if is_abs b then b
  else if String.eqb a "" || ends_slash a then a ++ b
  else a ++ "/" ++ b.

(** ** Prefixes *)

Lemma take_drop_while {A} (f : A -> bool) l :
  takewhile f l ++ dropwhile f l = l.
Proof. induction l as [|x l IH]; cbn; [reflexivity|]. destruct (f x); cbn; congruence. Qed.

Lemma takewhile_all {A} (f : A -> bool) l : forallb f (takewhile f l) = true.
Proof.
  induction l as [|x l IH]; cbn; [reflexivity|].
  destruct (f x) eqn:E; cbn; [rewrite E; exact IH | reflexivity].
Qed.

Lemma strip_end_prefix {A} (f : A -> bool) l :
  l = strip_end f l ++ rev (takewhile f (rev l)).
Proof.
  unfold strip_end. rewrite <- rev_app_distr, take_drop_while, rev_involutive.
  reflexivity.
Qed.

Definition prefix {A} (a b : list A) : Prop := exists r, b = a ++ r.

Lemma prefix_trans {A} (a b c : list A) : prefix a b -> prefix b c -> prefix a c.
Proof. intros [r1 ->] [r2 ->]. exists (r1 ++ r2). symmetry. apply app_assoc. Qed.

Lemma strip_end_is_prefix {A} (f : A -> bool) l : prefix (strip_end f l) l.
Proof. eexists. apply strip_end_prefix. Qed.

Lemma strip_end_nil {A} (f : A -> bool) l : strip_end f l = [] -> forallb f l = true.
Proof.
  intros E. rewrite (strip_end_prefix f l), E. cbn.
  rewrite forallb_forall. intros x Hx. apply in_rev in Hx.
  pose proof (takewhile_all f (rev l)) as Hall. rewrite forallb_forall in Hall. auto.
Qed.

Lemma strip_end_shorter {A} (f : A -> bool) l x :
  f x = true -> length (strip_end f (l ++ [x])) < length (l ++ [x]).
Proof.
  intros Hx. pose proof (strip_end_prefix f (l ++ [x])) as E.
  rewrite rev_app_distr in E. cbn in E. rewrite Hx in E. cbn in E.
  apply (f_equal (@length A)) in E. rewrite !length_app in *. cbn in *. lia.
Qed.

Lemma strip_end_keep {A} (f : A -> bool) l x :
  f x = false -> strip_end f (l ++ [x]) = l ++ [x].
Proof.
  intros Hx. unfold strip_end. rewrite rev_app_distr. cbn. rewrite Hx.
  cbn [rev]. rewrite rev_involutive. reflexivity.
Qed.

Lemma prefix_length {A} (a b : list A) : prefix a b -> length a <= length b.
Proof. intros [r ->]. rewrite length_app. lia. Qed.

(** A prefix of [c :: r] is empty or starts with [c]. *)
Lemma prefix_cons {A} (a : list A) c r :
  prefix a (c :: r) -> a = [] \/ exists a', a = c :: a'.
Proof. intros [s E]. destruct a as [|x a']; [auto|]. injection E as -> _. eauto. Qed.

Lemma dirname_l_prefix l : prefix (dirname_l l) l.
Proof.
  unfold dirname_l.
  destruct (strip_end (fun c => negb (is_slash c)) l) as [|h t] eqn:E;
    rewrite <- E; [apply strip_end_is_prefix|].
  destruct (forallb is_slash _); [apply strip_end_is_prefix|].
  eapply prefix_trans; apply strip_end_is_prefix.
Qed.

(** ** Relative and absolute paths *)

Lemma dirname_l_relative_shorter c r :
  is_slash c = false ->
  length (dirname_l (c :: r)) < length (c :: r) /\
  (dirname_l (c :: r) = [] \/ exists a, dirname_l (c :: r) = c :: a).
Proof.
  intros Hc. split; [|exact (prefix_cons _ _ _ (dirname_l_prefix (c :: r)))].
  destruct (@exists_last _ (c :: r) ltac:(discriminate)) as (l & x & E).
  rewrite E. unfold dirname_l.
  destruct (is_slash x) eqn:Hx.
  - rewrite strip_end_keep by (rewrite Hx; reflexivity).
    rewrite <- E. cbn [forallb]. rewrite Hc. cbn [andb].
    rewrite E. apply strip_end_shorter, Hx.
  - pose proof (strip_end_shorter (fun c => negb (is_slash c)) l x) as Hs.
    cbn beta in Hs. rewrite Hx in Hs. specialize (Hs eq_refl).
    destruct (strip_end _ (l ++ [x])) as [|h t] eqn:Eh; [cbn in *; lia|].
    destruct (forallb is_slash _); [exact Hs|].
    pose proof (prefix_length _ _ (strip_end_is_prefix is_slash (h :: t))). lia.
Qed.

Lemma dirname_l_abs r :
  exists a, dirname_l (slash :: r) = slash :: a.
Proof.
  destruct (prefix_cons _ _ _ (dirname_l_prefix (slash :: r))) as [E|E]; [|exact E].
  exfalso. revert E. unfold dirname_l.
  destruct (strip_end (fun c => negb (is_slash c)) (slash :: r)) as [|h t] eqn:Eh.
  - apply strip_end_nil in Eh. discriminate Eh.
  - destruct (forallb is_slash (h :: t)) eqn:Ha; [discriminate|].
    intros Hn. apply strip_end_nil in Hn. congruence.
Qed.

(** ** The same facts on strings *)

Lemma length_list_ascii s : length (list_ascii_of_string s) = String.length s.
Proof. induction s; cbn; auto. Qed.

Lemma dirname_relative p :
  is_abs p = false -> p <> EmptyString ->
  String.length (dirname p) < String.length p /\ is_abs (dirname p) = false.
Proof.
  destruct p as [|c r]; [congruence|]. cbn [is_abs]. intros Hc _.
  destruct (dirname_l_relative_shorter c (list_ascii_of_string r) Hc) as [Hl Hr].
  unfold dirname. cbn [list_ascii_of_string].
  rewrite <- !length_list_ascii, list_ascii_of_string_of_list_ascii.
  split; [exact Hl|]. destruct Hr as [-> | (a & ->)]; cbn; auto.
Qed.

Lemma dirname_abs p :
  is_abs p = true -> is_abs (dirname p) = true.
Proof.
  destruct p as [|c r]; [discriminate|]. cbn [is_abs]. unfold is_slash.
  intros Hc. apply Ascii.eqb_eq in Hc. subst c.
  unfold dirname. cbn [list_ascii_of_string].
  destruct (dirname_l_abs (list_ascii_of_string r)) as (a & ->). reflexivity.
Qed.

Lemma is_abs_nonempty p : is_abs p = true -> p <> EmptyString.
Proof. destruct p; cbn; congruence. Qed.

End PosixPath.
