(* ===== verification/RootSearch.v ===== *)
(** * The search for the OpenTitan root (cfggen.py lines 309-314)

    With [--topcfg] and no [OTDIR], [main] walks up from the top file's
    directory:
<<
    cur_dir = dirname(topcfg)
    while cur_dir:
        check_path = joinpath(cur_dir, check_dir)
        if isdir(check_path):
            ot_dir = cur_dir
            break
        cur_dir = dirname(cur_dir)
>>
    [search_root] runs the loop with fuel: [None] when the fuel runs out,
    [Some None] when the loop ends without a match, [Some (Some d)] on
    [break].  [search_exec] is the big-step semantics of the same loop, an
    inductive relation with one rule per way round the loop; a run that
    does not end has no final state in it.  The lemmas show that more
    fuel never changes a defined result, that the fuelled loop computes
    exactly the relation, that the root found is the nearest matching
    ancestor (the [break]), that [length path + 1] steps suffice on a
    relative path and that no fuel suffices on an absolute path with no
    matching ancestor. *)

From Stdlib Require Import String List Bool Arith Lia.
From S2P Require Import Prelude PosixPath.
Import ListNotations.

Module RootSearch.
Import PosixPath.
Local Open Scope string_scope.

Fixpoint search_root (fuel : nat) (isdir : string -> bool) (check_dir cur_dir : string)
  : option (option string) :=
  match fuel with
  | O => None
  | S fuel' =>
      if String.eqb cur_dir "" then Some None
      else if isdir (joinpath cur_dir check_dir) then Some (Some cur_dir)
      else search_root fuel' isdir check_dir (dirname cur_dir)
  end.

Section Exec.
Variable isdir : string -> bool.
Variable check_dir : string.

(** The loop's big-step semantics: [search_exec cur r] when the loop
    started at [cur_dir = cur] ends with [r]. *)
Inductive search_exec : string -> option string -> Prop :=
| search_done : search_exec "" None
| search_found cur :
    cur <> "" -> isdir (joinpath cur check_dir) = true -> search_exec cur (Some cur)
| search_next cur r :
    cur <> "" -> isdir (joinpath cur check_dir) = false ->
    search_exec (dirname cur) r -> search_exec cur r.

#[local] Hint Constructors search_exec : core.

(** More fuel gives the same defined result. *)
Lemma search_root_mono i j cur r :
  search_root i isdir check_dir cur = Some r -> i <= j ->
  search_root j isdir check_dir cur = Some r.
Proof.
  revert j cur. induction i as [|i IH]; intros j cur H Hij; [discriminate|].
  destruct j as [|j]; [lia|]. cbn [search_root] in *.
  destruct (String.eqb cur ""); [exact H|].
  destruct (isdir _); [exact H|]. apply IH; [exact H | lia].
Qed.

Lemma search_root_sound fuel cur r :
  search_root fuel isdir check_dir cur = Some r -> search_exec cur r.
Proof.
  revert cur. induction fuel as [|fuel IH]; intros cur H; [discriminate|].
  cbn [search_root] in H. destruct (String.eqb_spec cur "") as [E|Hne].
  - injection H as <-. rewrite E. constructor.
  - destruct (isdir _) eqn:Hd; [injection H as <-; auto|]. eauto.
Qed.

Lemma search_root_complete c res :
  search_exec c res -> exists fuel, search_root fuel isdir check_dir c = Some res.
Proof.
  induction 1 as [|cur Hne Hd|cur r Hne Hd _ (fuel & IH)].
  - exists 1. reflexivity.
  - exists 1. cbn. destruct (String.eqb_spec cur ""); [contradiction|]. rewrite Hd. reflexivity.
  - exists (S fuel). cbn [search_root].
    destruct (String.eqb_spec cur ""); [contradiction|]. rewrite Hd. exact IH.
Qed.

Lemma search_exec_det cur r1 r2 : search_exec cur r1 -> search_exec cur r2 -> r1 = r2.
Proof.
  intros H1 H2. destruct (search_root_complete _ _ H1) as (f1 & E1).
  destruct (search_root_complete _ _ H2) as (f2 & E2).
  apply (search_root_mono _ (f1 + f2)) in E1; [|lia].
  apply (search_root_mono _ (f1 + f2)) in E2; [|lia]. congruence.
Qed.

(** On a relative path each step shortens the path, so [length p + 1]
    iterations suffice. *)
Lemma search_root_relative fuel p :
  is_abs p = false -> String.length p < fuel -> search_root fuel isdir check_dir p <> None.
Proof.
  revert p. induction fuel as [|fuel IH]; intros p Ha Hl; [lia|].
  cbn [search_root]. destruct (String.eqb_spec p "") as [->|Hne]; [discriminate|].
  destruct (isdir _); [discriminate|].
  destruct (dirname_relative p Ha Hne) as [Hl' Ha'].
  apply IH; [exact Ha' | lia].
Qed.

(** On an absolute path [dirname] never yields [""]: without a match the
    loop runs for ever. *)
Lemma search_root_abs p :
  is_abs p = true -> (forall n, isdir (joinpath (Nat.iter n dirname p) check_dir) = false) ->
  forall fuel, search_root fuel isdir check_dir p = None.
Proof.
  intros Ha Hn fuel. revert p Ha Hn.
  induction fuel as [|fuel IH]; intros p Ha Hn; [reflexivity|].
  cbn [search_root]. destruct (String.eqb_spec p "") as [->|_]; [discriminate|].
  rewrite (Hn 0 : isdir (joinpath p check_dir) = false). apply IH; [apply dirname_abs, Ha|].
  intros n. rewrite <- Nat.iter_succ_r. apply Hn.
Qed.

(** The fuelled loop computes exactly the loop's big-step semantics: it
    ends with [r] for some fuel if and only if the [while] loop started at
    [cur] ends with [r]. *)
Lemma search_root_exec cur r :
  (exists fuel, search_root fuel isdir check_dir cur = Some r) <-> search_exec cur r.
Proof.
  split; [intros (fuel & H); exact (search_root_sound _ _ _ H) | apply search_root_complete].
Qed.

(** C12: The [break] stops the walk at the first match: the root found is
    the nearest ancestor [dirname^n(cur)] holding [check_dir], and none
    of the [n] directories visited before it holds it. *)
Theorem search_root_nearest fuel cur d :
  search_root fuel isdir check_dir cur = Some (Some d) ->
  exists n, d = Nat.iter n dirname cur /\ isdir (joinpath d check_dir) = true /\
    forall m, m < n -> isdir (joinpath (Nat.iter m dirname cur) check_dir) = false.
Proof.
  revert cur. induction fuel as [|fuel IH]; intros cur H; [discriminate|].
  cbn [search_root] in H. destruct (String.eqb cur ""); [discriminate|].
  destruct (isdir (joinpath cur check_dir)) eqn:Hd.
  - injection H as <-. exists 0. split; [reflexivity|]. split; [exact Hd | intros m Hm; lia].
  - destruct (IH _ H) as (n & -> & Hf & Hb). exists (S n).
    rewrite Nat.iter_succ_r. split; [reflexivity|]. split; [exact Hf|].
    intros [|m] Hm; [exact Hd|]. rewrite Nat.iter_succ_r. apply Hb. lia.
Qed.
End Exec.

(** ** Witness *)

Definition ex_isdir (d : string) : bool :=
  String.eqb d "/ot/hw/top_earlgrey/data" || String.eqb d "/hw/top_earlgrey/data".

Lemma search_root_nearest_witness :
  exists n, "/ot" = Nat.iter n dirname "/ot/hw/top_earlgrey/data/autogen" /\
    ex_isdir (joinpath "/ot" "hw/top_earlgrey/data") = true /\
    forall m, m < n ->
      ex_isdir (joinpath (Nat.iter m dirname "/ot/hw/top_earlgrey/data/autogen")
                  "hw/top_earlgrey/data") = false.
Proof.
  apply (search_root_nearest ex_isdir "hw/top_earlgrey/data" 10). vm_compute. reflexivity.
Defined.

End RootSearch.
