(* ===== verification/Regex.v ===== *)
(** * The fragment of Python's [re] used by cfggen.py

    Three patterns occur in the script:
    - [re.match(r'RndCnstScr( .* )', name)] in [load_top_config] for ROM
      parameters (line 73),
    - [re.match(r'RndCnst( .* )Init', name)] for OTP parameters (line 77),
    - [re.search(r'(\d+)$', modname)] in [_load_top_values] (line 172).
    A pattern is a list of pieces: a literal, a capturing greedy [.*]
    (any character but a newline), a capturing greedy [\d+] (ASCII
    digits), and the anchor [$] (the end of the string, or just before a
    newline that ends it).  [rmatch] is the backtracking matcher of [sre]:
    a greedy piece tries its longest span first and gives back one
    character at a time.  [re.match] anchors at the start only;
    [re.search] tries each start position from the left. *)

From Stdlib Require Import String Ascii List Bool Lia.
From S2P Require Import Prelude PyStr.
Import ListNotations.

Module Regex.

Inductive piece : Type :=
| PLit (l : list ascii)
| PAnyGroup
| PDigitsGroup
| PEnd.

Definition newline : ascii := ascii_of_nat 10.

Definition not_newline (c : ascii) : bool := negb (c =? newline)%char.

(** The longest prefix whose characters satisfy [p], and the rest. *)
Fixpoint span (p : ascii -> bool) (l : list ascii) : list ascii * list ascii :=
  match l with
  | c :: l' =>
      if p c then let '(a, b) := span p l' in (c :: a, b) else ([], l)
  | [] => ([], [])
  end.

Fixpoint lit_prefix (lit l : list ascii) : option (list ascii) :=
  match lit, l with
  | [], _ => Some l
  | c :: lit', d :: l' => if (c =? d)%char then lit_prefix lit' l' else None
  | _ :: _, [] => None
  end.

(** Greedy backtracking over a span given reversed: try the whole span,
    then give back its last character, and so on down to the empty
    span. *)
Fixpoint greedy {R} (k : list ascii -> list ascii -> option R)
  (rspan after : list ascii) : option R :=
  match k (rev rspan) after with
  | Some r => Some r
  | None =>
      match rspan with
      | [] => None
      | c :: rs => greedy k rs (c :: after)
      end
  end.

(** The captured groups of a successful match, in order. *)
Fixpoint rmatch (ps : list piece) (l : list ascii) : option (list (list ascii)) :=
  match ps with
  | [] => Some []
  | PLit lit :: ps' =>
      match lit_prefix lit l with
      | Some l' => rmatch ps' l'
      | None => None
      end
  | PAnyGroup :: ps' =>
      let '(a, b) := span not_newline l in
      greedy (fun g r => option_map (cons g) (rmatch ps' r)) (rev a) b
  | PDigitsGroup :: ps' =>
      let '(a, b) := span PyStr.is_digit l in
      greedy (fun g r => match g with
                         | [] => None
                         | _ => option_map (cons g) (rmatch ps' r)
                         end) (rev a) b
  | PEnd :: ps' =>
      match l with
      | [] => rmatch ps' l
      | [c] => if (c =? newline)%char then rmatch ps' l else None
      | _ => None
      end
  end.

(** [re.search]: the leftmost start position where the pattern matches. *)
Fixpoint rsearch (ps : list piece) (l : list ascii) : option (list (list ascii)) :=
  match rmatch ps l with
  | Some gs => Some gs
  | None =>
      match l with
      | [] => None
      | _ :: l' => rsearch ps l'
      end
  end.

(** [m.group(1)] of [re.match(pattern, s)] / [re.search(pattern, s)]. *)
Definition group1 (r : option (list (list ascii))) : option string :=
  match r with
  | Some (g :: _) => Some (string_of_list_ascii g)
  | _ => None
  end.

Definition re_match (ps : list piece) (s : string) : option string :=
  group1 (rmatch ps (list_ascii_of_string s)).

Definition re_search (ps : list piece) (s : string) : option string :=
  group1 (rsearch ps (list_ascii_of_string s)).

(** The three patterns of the script. *)
Definition rom_regex : list piece :=
  [PLit (list_ascii_of_string "RndCnstScr"); PAnyGroup].

Definition otp_regex : list piece :=
  [PLit (list_ascii_of_string "RndCnst"); PAnyGroup;
   PLit (list_ascii_of_string "Init")].

Definition idx_regex : list piece := [PDigitsGroup; PEnd].

(** ** Greedy backtracking as a search from the longest split down *)

(** [first_down n f] is the first [Some] among [f n], [f (n-1)], ..., [f 0]. *)
Fixpoint first_down {R} (n : nat) (f : nat -> option R) : option R :=
  match f n with
  | Some r => Some r
  | None =>
      match n with
      | O => None
      | S n' => first_down n' f
      end
  end.

Lemma first_down_S {R} n (f : nat -> option R) :
  first_down (S n) f =
  match first_down n (fun i => f (S i)) with Some r => Some r | None => f 0 end.
Proof.
  revert f; induction n as [|n IH]; intros f; simpl.
  - destruct (f 1); [reflexivity|]. destruct (f 0); reflexivity.
  - destruct (f (S (S n))); [reflexivity|]. apply IH.
Qed.

Lemma first_down_ext {R} n (f g : nat -> option R) :
  (forall i, i <= n -> f i = g i) -> first_down n f = first_down n g.
Proof.
  revert f g; induction n as [|n IH]; intros f g Hfg; simpl;
    rewrite Hfg by lia; [reflexivity|].
  destruct (g (S n)); [reflexivity|]. apply IH. intros; apply Hfg; lia.
Qed.

Lemma first_down_map {R S} (h : R -> S) n (f : nat -> option R) :
  option_map h (first_down n f) = first_down n (fun i => option_map h (f i)).
Proof.
  induction n as [|n IH]; simpl; destruct (f _); simpl; auto.
Qed.

Lemma firstn_length_app {A} (x y : list A) n : n = length x -> firstn n (x ++ y) = x.
Proof. intros ->. induction x as [|a x IH]; simpl; [reflexivity|]. rewrite IH. reflexivity. Qed.

Lemma skipn_length_app {A} (x y : list A) n : n = length x -> skipn n (x ++ y) = y.
Proof. intros ->. induction x as [|a x IH]; simpl; [reflexivity|]. exact IH. Qed.

(** The greedy loop tries the split of [rev rspan ++ after] at
    [length rspan], then at each shorter length. *)
Lemma greedy_first_down {R} (k : list ascii -> list ascii -> option R) rspan after :
  greedy k rspan after =
  first_down (length rspan)
    (fun i => k (firstn i (rev rspan ++ after)) (skipn i (rev rspan ++ after))).
Proof.
  revert after; induction rspan as [|c rs IH]; intros after; [reflexivity|].
  assert (E : rev (c :: rs) ++ after = rev rs ++ c :: after)
    by (simpl; rewrite <- app_assoc; reflexivity).
  rewrite E. cbn [greedy first_down length].
  rewrite <- E, firstn_length_app, skipn_length_app
    by (rewrite length_rev; reflexivity).
  destruct (k (rev (c :: rs)) after); [reflexivity|]. rewrite E. apply IH.
Qed.

(** ** Spans *)

Lemma span_app p l : fst (span p l) ++ snd (span p l) = l.
Proof.
  induction l as [|c l IH]; simpl; [reflexivity|].
  destruct (p c); [|reflexivity]. destruct (span p l) as [a b]. simpl in *.
  rewrite IH. reflexivity.
Qed.

Lemma span_fst p l : Forall (fun c => p c = true) (fst (span p l)).
Proof.
  induction l as [|c l IH]; simpl; [constructor|].
  destruct (p c) eqn:E; [|constructor]. destruct (span p l) as [a b].
  constructor; assumption.
Qed.

Lemma span_snd p l :
  match snd (span p l) with c :: _ => p c = false | [] => True end.
Proof.
  induction l as [|c l IH]; simpl; [exact I|].
  destruct (p c) eqn:E; [|exact E]. destruct (span p l) as [a b]. exact IH.
Qed.

Lemma first_down_top {R} n (f : nat -> option R) r :
  f n = Some r -> first_down n f = Some r.
Proof. destruct n; simpl; intros ->; reflexivity. Qed.

Lemma first_down_only {R} n (f : nat -> option R) :
  (forall i, i < n -> f i = None) -> first_down n f = f n.
Proof.
  induction n as [|n IH]; intros Hlow; simpl; [destruct (f 0); reflexivity|].
  destruct (f (S n)); [reflexivity|]. rewrite IH by (intros; apply Hlow; lia).
  apply Hlow. lia.
Qed.

Lemma span_all_app p d e :
  Forall (fun c => p c = true) d ->
  match e with c :: _ => p c = false | [] => True end ->
  span p (d ++ e) = (d, e).
Proof.
  intros Hd He. induction Hd as [|c d Hc _ IH]; simpl.
  - destruct e as [|c e]; [reflexivity|]. simpl. rewrite He. reflexivity.
  - rewrite Hc, IH. reflexivity.
Qed.

Lemma option_match_id {A} (o : option A) :
  match o with Some r => Some r | None => None end = o.
Proof. destruct o; reflexivity. Qed.

(** ** [re.match(r'RndCnstScr( .* )', name)] *)

Definition rom_prefix : list ascii := list_ascii_of_string "RndCnstScr".

(** The group is the longest newline-free tail after the prefix: the
    backtracking matcher succeeds at its first try. *)
Lemma rom_regex_match l :
  rmatch rom_regex l =
  match lit_prefix rom_prefix l with
  | Some rest => Some [fst (span not_newline rest)]
  | None => None
  end.
Proof.
  unfold rom_regex. cbn [rmatch]. fold rom_prefix.
  destruct (lit_prefix rom_prefix l) as [rest|]; [|reflexivity].
  destruct (span not_newline rest) as [a b] eqn:E. simpl fst.
  rewrite greedy_first_down. apply first_down_top.
  rewrite rev_involutive, length_rev, firstn_length_app by reflexivity.
  reflexivity.
Qed.

(** ** [re.match(r'RndCnst( .* )Init', name)] *)

Definition otp_prefix : list ascii := list_ascii_of_string "RndCnst".
Definition init_lit : list ascii := list_ascii_of_string "Init".

(** A reference for the OTP pattern, computed in one left-to-right pass:
    the text before the last occurrence of ["Init"] that starts before
    the first newline. *)
Fixpoint last_init (acc l : list ascii) (best : option (list ascii))
  : option (list ascii) :=
  let best' :=
    match lit_prefix init_lit l with
    | Some _ => Some (rev acc)
    | None => best
    end in
  match l with
  | c :: l' => if not_newline c then last_init (c :: acc) l' best' else best'
  | [] => best'
  end.

Lemma last_init_first_down acc l best :
  last_init acc l best =
  match first_down (length (fst (span not_newline l)))
          (fun i => match lit_prefix init_lit (skipn i l) with
                    | Some _ => Some (rev acc ++ firstn i l)
                    | None => None
                    end) with
  | Some r => Some r
  | None => best
  end.
Proof.
  revert acc best; induction l as [|c l IH]; intros acc best.
  - reflexivity.
  - cbn [last_init span]. destruct (not_newline c) eqn:Hc.
    + rewrite IH. destruct (span not_newline l) as [a b]. cbn [fst length].
      rewrite first_down_S. cbn [skipn firstn].
      rewrite (first_down_ext _
        (fun i => match lit_prefix init_lit (skipn i l) with
                  | Some _ => Some (rev acc ++ c :: firstn i l) | None => None end)
        (fun i => match lit_prefix init_lit (skipn i l) with
                  | Some _ => Some (rev (c :: acc) ++ firstn i l) | None => None end)).
      * destruct (first_down _ _); [reflexivity|].
        rewrite app_nil_r. destruct (lit_prefix init_lit (c :: l)); reflexivity.
      * intros i _. destruct (lit_prefix init_lit (skipn i l)); [|reflexivity].
        simpl. rewrite <- app_assoc. reflexivity.
    + cbn [fst length first_down skipn firstn]. rewrite app_nil_r.
      destruct (lit_prefix init_lit (c :: l)); reflexivity.
Qed.

(** C21: The backtracking matcher of [RndCnst( .* )Init] equals the one-pass
    reference: it captures up to the last ["Init"] found before a
    newline, not the first one, and does not require ["Init"] to end the
    name. *)
Theorem otp_regex_match l :
  rmatch otp_regex l =
  match lit_prefix otp_prefix l with
  | Some rest => option_map (fun g => [g]) (last_init [] rest None)
  | None => None
  end.
Proof.
  unfold otp_regex. cbn [rmatch]. fold otp_prefix init_lit.
  destruct (lit_prefix otp_prefix l) as [rest|]; [|reflexivity].
  rewrite last_init_first_down.
  pose proof (span_app not_newline rest) as Hsp.
  destruct (span not_newline rest) as [a b] eqn:E. cbn [fst snd] in Hsp |- *.
  rewrite greedy_first_down, length_rev, rev_involutive, Hsp.
  rewrite option_match_id, first_down_map. apply first_down_ext. intros i _.
  destruct (lit_prefix init_lit (skipn i rest)); reflexivity.
Qed.

(** ** [re.search(r'(\d+)$', modname)] *)

(** What the anchor [$] accepts after the digits. *)
Definition end_ok (b : list ascii) : bool :=
  match b with
  | [] => true
  | [c] => (c =? newline)%char
  | _ => false
  end.

Lemma rmatch_end b : rmatch [PEnd] b = if end_ok b then Some [] else None.
Proof.
  destruct b as [|c [|d b]]; cbn [rmatch end_ok]; try reflexivity.
Qed.

Lemma digit_not_newline c : PyStr.is_digit c = true -> (c =? newline)%char = false.
Proof.
  intros H. destruct (Ascii.eqb_spec c newline) as [->|]; [|reflexivity].
  vm_compute in H. discriminate H.
Qed.

Lemma end_ok_head e :
  end_ok e = true -> match e with c :: _ => PyStr.is_digit c = false | [] => True end.
Proof.
  destruct e as [|c [|]]; cbn [end_ok]; intros He; try discriminate He; [exact I|].
  apply Ascii.eqb_eq in He. subst. reflexivity.
Qed.

Lemma in_skipn_in {A} (x : A) n l : In x (skipn n l) -> In x l.
Proof.
  intros H. rewrite <- (firstn_skipn n l). apply in_or_app. right. exact H.
Qed.

(** The pattern [(\d+)$] anchored at a position: the whole digit run,
    provided that only the end of the string, or a final newline,
    follows it; giving back digits never helps. *)
Theorem idx_regex_match l :
  rmatch idx_regex l =
  let '(a, b) := span PyStr.is_digit l in
  match a with
  | [] => None
  | _ => if end_ok b then Some [a] else None
  end.
Proof.
  change (rmatch idx_regex l) with
    (let '(a, b) := span PyStr.is_digit l in
     greedy (fun g r => match g with
                        | [] => None
                        | _ => option_map (cons g) (rmatch [PEnd] r)
                        end) (rev a) b).
  pose proof (span_fst PyStr.is_digit l) as Hall.
  destruct (span PyStr.is_digit l) as [a b]. cbn [fst] in Hall.
  rewrite greedy_first_down, length_rev, rev_involutive.
  rewrite first_down_only.
  - rewrite firstn_length_app, skipn_length_app by reflexivity.
    destruct a as [|c a]; [reflexivity|]. rewrite rmatch_end.
    destruct (end_ok b); reflexivity.
  - intros i Hi.
    destruct (firstn i (a ++ b)) as [|g gs]; [reflexivity|].
    rewrite rmatch_end, skipn_app.
    replace (i - length a) with 0 by lia. rewrite skipn_0.
    destruct (skipn i a) as [|x y] eqn:Hs.
    + apply (f_equal (@length ascii)) in Hs. rewrite length_skipn in Hs.
      simpl in Hs. lia.
    + assert (Hx : PyStr.is_digit x = true).
      { rewrite Forall_forall in Hall. apply Hall. apply (in_skipn_in x i).
        rewrite Hs. now left. }
      destruct y as [|y0 y], b as [|b0 b]; cbn [app end_ok]; try reflexivity.
      rewrite digit_not_newline by exact Hx. reflexivity.
Qed.

(** [re.search] returns the groups of a match at some suffix. *)
Lemma rsearch_sound ps l gs :
  rsearch ps l = Some gs -> exists p s, l = p ++ s /\ rmatch ps s = Some gs.
Proof.
  induction l as [|c l IH]; simpl.
  - destruct (rmatch ps []) eqn:E; [|discriminate]. intros H.
    exists [], []. rewrite E. auto.
  - destruct (rmatch ps (c :: l)) eqn:E.
    + intros H. exists [], (c :: l). rewrite E. auto.
    + intros H. destruct (IH H) as (p & s & -> & Hm). exists (c :: p), s. auto.
Qed.

(** The group [(\d+)$] captures is a non-empty run of digits. *)
Lemma idx_search_digits s g :
  re_search idx_regex s = Some g ->
  exists a, g = string_of_list_ascii a /\ a <> [] /\ Forall (fun c => PyStr.is_digit c = true) a.
Proof.
  unfold re_search, group1.
  destruct (rsearch idx_regex _) as [[|g0 gs]|] eqn:E; try discriminate.
  intros H. injection H as <-. apply rsearch_sound in E as (p & r & _ & Hm).
  rewrite idx_regex_match in Hm. pose proof (span_fst PyStr.is_digit r) as Hall.
  destruct (span PyStr.is_digit r) as [[|c a] b]; [discriminate|].
  destruct (end_ok b); [|discriminate]. injection Hm as <- _.
  exists (c :: a). split; [reflexivity|]. split; [discriminate | exact Hall].
Qed.

Lemma rsearch_here ps l gs : rmatch ps l = Some gs -> rsearch ps l = Some gs.
Proof. destruct l; simpl; intros ->; reflexivity. Qed.

Lemma rsearch_next ps c l :
  rmatch ps (c :: l) = None -> rsearch ps (c :: l) = rsearch ps l.
Proof. simpl. intros ->. reflexivity. Qed.

(** A digit run followed by at most one character is matched whole; a
    non-digit before the end is not. *)
Lemma digits_end_inv a b q x y :
  Forall (fun c => PyStr.is_digit c = true) a -> end_ok b = true ->
  a ++ b = q ++ x :: y -> y <> [] -> PyStr.is_digit x = true.
Proof.
  revert a. induction q as [|q0 q IH]; intros a Ha Hb Heq Hy.
  - destruct a as [|a0 a]; simpl in Heq.
    + subst b. destruct y; [congruence|]. discriminate Hb.
    + injection Heq as -> _. inversion Ha; assumption.
  - destruct a as [|a0 a]; simpl in Heq.
    + subst b. destruct q; discriminate Hb.
    + injection Heq as _ Heq. inversion Ha; subst. eapply IH; eauto.
Qed.

Definition ends_nondigit (p : list ascii) : Prop :=
  match rev p with
  | x :: _ => PyStr.is_digit x = false
  | [] => True
  end.

(** [re.search(r'(\d+)$', p + d + e)] captures [d], the trailing digit
    run of the name (before an optional final newline). *)
Theorem idx_search_trailing p d e :
  Forall (fun c => PyStr.is_digit c = true) d -> d <> [] -> end_ok e = true ->
  ends_nondigit p -> rsearch idx_regex (p ++ d ++ e) = Some [d].
Proof.
  intros Hd Hne He. induction p as [|c p IH]; intros Hp; cbn [app].
  - apply rsearch_here.
    rewrite idx_regex_match, span_all_app by (exact Hd || exact (end_ok_head e He)).
    destruct d; [congruence|]. rewrite He. reflexivity.
  - assert (Hnone : rmatch idx_regex (c :: p ++ d ++ e) = None).
    { rewrite idx_regex_match.
      pose proof (span_app PyStr.is_digit (c :: p ++ d ++ e)) as Hsp.
      pose proof (span_fst PyStr.is_digit (c :: p ++ d ++ e)) as Hall.
      destruct (span PyStr.is_digit (c :: p ++ d ++ e)) as [a b].
      cbn [fst snd] in Hsp, Hall.
      destruct a; [reflexivity|].
      destruct (end_ok b) eqn:Hb; [|reflexivity]. exfalso.
      unfold ends_nondigit in Hp. destruct (rev (c :: p)) as [|x q] eqn:Hr.
      - apply (f_equal (@length ascii)) in Hr. rewrite length_rev in Hr.
        discriminate Hr.
      - assert (Hcp : c :: p = rev q ++ [x])
          by (rewrite <- (rev_involutive (c :: p)), Hr; reflexivity).
        rewrite app_comm_cons, Hcp, <- app_assoc in Hsp. simpl in Hsp.
        assert (Hx : PyStr.is_digit x = true).
        { eapply digits_end_inv; eauto. destruct d; [congruence|discriminate]. }
        congruence. }
    rewrite rsearch_next by exact Hnone. apply IH.
    unfold ends_nondigit in *. simpl in Hp.
    destruct (rev p) as [|x q]; [exact I|exact Hp].
Qed.

(** ** Witnesses *)

Lemma otp_regex_match_witness :
  rmatch otp_regex (list_ascii_of_string "RndCnstDigestInit") =
  match lit_prefix otp_prefix (list_ascii_of_string "RndCnstDigestInit") with
  | Some rest => option_map (fun g => [g]) (last_init [] rest None)
  | None => None
  end.
Proof. exact (otp_regex_match (list_ascii_of_string "RndCnstDigestInit")). Defined.

Lemma idx_search_trailing_witness :
  rsearch idx_regex (list_ascii_of_string "rom_ctrl" ++ list_ascii_of_string "12" ++ [])
  = Some [list_ascii_of_string "12"].
Proof. apply idx_search_trailing; vm_compute; first [discriminate | repeat constructor]. Defined.

End Regex.
