(* ===== verification/Hjson.v ===== *)
(** * HJSON values as [hjson.load] returns them

    The top configuration is read by [hjson.load] (cfggen.py line 67),
    outside the script; its result is the input of [load_top_config].
    An HJSON document is a tree of objects (ordered dicts), arrays,
    strings, numbers, booleans and [null].  This file holds that data
    type, Python's truthiness of each value ([if not x], [x or []]) and
    [obj.get(key)]. *)

From Stdlib Require Import String List ZArith Bool.
From S2P Require Import Prelude PyDict.
Import ListNotations.

Module Hjson.

#[warnings="-register-all"]
Inductive json : Type :=
| JNull
| JBool (b : bool)
| JNum (z : Z)
| JStr (s : string)
| JList (items : list json)
| JObj (fields : list (string * json)).

(** [bool(v)]: [None], [False], [0], empty strings, lists and dicts are
    false. *)
Definition truthy (v : json) : bool :=
  match v with
  | JNull => false
  | JBool b => b
  | JNum z => negb (z =? 0)%Z
  | JStr s => negb (String.eqb s "")
  | JList l => match l with [] => false | _ => true end
  | JObj f => match f with [] => false | _ => true end
  end.

(** [obj.get(key)] on an object; [None] is Python's [None] result.  The
    object is an ordered dict, so the first binding is the one. *)
Definition jget (fields : list (string * json)) (key : string) : option json :=
  PyDict.dget fields key.

(** [v.get(key)] on any value: only objects have [.get]. *)
Definition get (v : json) (key : string) : res (option json) :=
  match v with
  | JObj f => Ok (jget f key)
  | _ => Raise AttributeError
  end.

(** [x.get(key)] as a JSON value, [None] becoming [JNull]. *)
Definition get_or_null (v : json) (key : string) : res json :=
  o <- get v key ;; Ok (match o with Some x => x | None => JNull end).

End Hjson.
