(* ===== verification/Config.v ===== *)
(** * The [OtConfiguration] state (cfggen.py lines 44-61)

    The object that every loader mutates and [save] reads: four (first,
    last) key ranges, initially [('', '')]; the ROM values per bank index
    ([dict[Optional[int], dict[str, str]]]); the OTP and LifeCycle value
    maps; and the top name read from the HJSON file.  Each mutation of the
    source becomes a record update. *)

From Stdlib Require Import String List ZArith.
From S2P Require Import Prelude PyDict Hjson.
Import ListNotations.

Module Config.
Import PyDict Hjson.

Record OtConfiguration : Type := mkConfig {
  lc_states : string * string;
  lc_transitions : string * string;
  socdbg : string * string;
  ownership : string * string;
  roms : dict (option Z) (dict string string);
  otp : dict string string;
  lc : dict string string;
  top_name : option json
}.

(** [OtConfiguration.__init__] *)
Definition init_config : OtConfiguration :=
  {| lc_states := (""%string, ""%string);
     lc_transitions := (""%string, ""%string);
     socdbg := (""%string, ""%string);
     ownership := (""%string, ""%string);
     roms := [];
     otp := [];
     lc := [];
     top_name := None |}.

(** Every map of the state is a well-formed dict. *)
Definition config_wf (c : OtConfiguration) : Prop :=
  dict_wf (roms c) /\ Forall (fun kv => dict_wf (snd kv)) (roms c) /\
  dict_wf (otp c) /\ dict_wf (lc c).

Lemma init_config_wf : config_wf init_config.
Proof. repeat split; constructor. Qed.

End Config.
