(* ===== verification/Lifecycle.v ===== *)
(** * The range extractor and [load_lifecycle] (cfggen.py lines 80-121)

    [OtpLifecycle], which reads the LifeCycle RTL package, is an external
    collaborator: the class [LcProvider] states what the script uses of
    it, [get_configuration(name)] (a keyed table, empty when absent) and
    [get_tokens(False, False)].  The range extractor is the code the
    script repeats four times: collect the keys whose [int(key, 16)] is
    zero, [del] them, then take [list(d)[0]] and [list(d)[-1]].
    [load_lifecycle] runs it on the LC_STATE, LC_TRANSITION_CNT, SOCDBG
    and OWNERSHIP tables, with the two emptiness checks and the log calls
    whose arguments are evaluated (the transition values go through
    [int()]).  An exception aborts the whole run, so the partial updates
    the method makes before raising are not observable and the model
    returns the new state only on success. *)

From Stdlib Require Import String List ZArith Bool Lia Permutation.
From S2P Require Import Prelude PyStr PyDict Config.
Import ListNotations.

Module Lifecycle.
Import PyDict Config.

(** The interface of [OtpLifecycle] the script relies on. *)
Class LcProvider (T : Type) := {
  get_configuration : T -> string -> dict string string;
  get_tokens : T -> bool -> bool -> dict string string
}.

(** ** The range extractor *)

(** [int(s, 16) == 0] *)
Definition is_zero_key (s : string) : res bool :=
  z <- PyStr.py_int 16 s ;; Ok (z =? 0)%Z.

(** [{s for s in states if int(s, 16) == 0}], iterated in key order. *)
Definition zero_keys (d : dict string string) : res (list string) :=
  foldM (fun acc k => b <- is_zero_key k ;; Ok (if b then acc ++ [k] else acc))
    (dkeys d) [].

(** [for raw in ...: del states[raw]] *)
Definition del_keys (d : dict string string) (ks : list string)
  : res (dict string string) :=
  foldM (fun d k => match ddel d k with
                    | Some d' => Ok d'
                    | None => Raise (KeyError k)
                    end) ks d.

Definition strip_zero_keys (d : dict string string) : res (dict string string) :=
  ks <- zero_keys d ;; del_keys d ks.

(** [ostates = list(states); ostates[0], ostates[-1]] *)
Definition first_last_keys (d : dict string string) : res (string * string) :=
  match first_last (dkeys d) with
  | Some p => Ok p
  | None => Raise IndexError
  end.

Definition extract_range (d : dict string string)
  : res ((string * string) * dict string string) :=
  d' <- strip_zero_keys d ;; r <- first_last_keys d' ;; Ok (r, d').

(** The arguments of the [_log.info] call: [d[first]], [d[last]]. *)
Definition log_range (d : dict string string) (r : string * string) : res unit :=
  _ <- getitem d (fst r) ;; _ <- getitem d (snd r) ;; Ok tt.

(** [int(trans[first])], [int(trans[last])] of the transitions log. *)
Definition log_transitions (d : dict string string) (r : string * string)
  : res unit :=
  v0 <- getitem d (fst r) ;; _ <- PyStr.py_int 10 v0 ;;
  v1 <- getitem d (snd r) ;; _ <- PyStr.py_int 10 v1 ;; Ok tt.

Definition is_empty {A} (l : list A) : bool :=
  match l with [] => true | _ => false end.

(** [if socdbg: ...] for the optional SOCDBG and OWNERSHIP tables. *)
Definition optional_range (d : dict string string) (old : string * string)
  : res (string * string) :=
  if is_empty d then Ok old
  else '(r, d') <- extract_range d ;; _ <- log_range d' r ;; Ok r.

Section Load.
Context {T : Type} `{LcProvider T}.

(** [OtConfiguration.load_lifecycle], after [lcext.load(lfp)]. *)
Definition load_lifecycle (lcext : T) (cfg : OtConfiguration)
  : res OtConfiguration :=
  let states := get_configuration lcext "LC_STATE" in
  _ <- raise_if (is_empty states) (ValueError "Cannot obtain LifeCycle states") ;;
  '(st, states') <- extract_range states ;;
  _ <- log_range states' st ;;
  let trans := get_configuration lcext "LC_TRANSITION_CNT" in
  _ <- raise_if (is_empty trans)
         (ValueError "Cannot obtain LifeCycle transitions") ;;
  '(tr, trans') <- extract_range trans ;;
  _ <- log_transitions trans' tr ;;
  let lc' := dupdate (lc cfg) (get_tokens lcext false false) in
  soc <- optional_range (get_configuration lcext "SOCDBG") (socdbg cfg) ;;
  own <- optional_range (get_configuration lcext "OWNERSHIP") (ownership cfg) ;;
  Ok {| lc_states := st; lc_transitions := tr; socdbg := soc;
        ownership := own; roms := roms cfg; otp := otp cfg; lc := lc';
        top_name := top_name cfg |}.
End Load.

(** ** A one-pass reference for the zero-key filter *)

(** [{k: v for k, v in d.items() if int(k, 16) != 0}] *)
Fixpoint filter_nonzero (d : dict string string) : res (dict string string) :=
  match d with
  | [] => Ok []
  | (k, v) :: d' =>
      b <- is_zero_key k ;; r <- filter_nonzero d' ;;
      Ok (if b then r else (k, v) :: r)
  end.

(** The zero keys of a key list, in order. *)
Fixpoint zero_list (l : list string) : res (list string) :=
  match l with
  | [] => Ok []
  | k :: l' =>
      b <- is_zero_key k ;; zs <- zero_list l' ;; Ok (if b then k :: zs else zs)
  end.

Lemma zero_keys_fold l acc :
  foldM (fun acc k => b <- is_zero_key k ;; Ok (if b then acc ++ [k] else acc)) l acc
  = (zs <- zero_list l ;; Ok (acc ++ zs)).
Proof.
  revert acc; induction l as [|k l IH]; intros acc; simpl.
  - rewrite app_nil_r. reflexivity.
  - destruct (is_zero_key k) as [b|e]; simpl; [|reflexivity].
    rewrite IH. destruct (zero_list l) as [zs|e]; simpl; [|reflexivity].
    destruct b; rewrite <- ?app_assoc; reflexivity.
Qed.

Lemma zero_list_incl l zs : zero_list l = Ok zs -> incl zs l.
Proof.
  revert zs; induction l as [|k l IH]; simpl; intros zs H; inv_bind.
  - subst. apply incl_nil_l.
  - subst. destruct a; [apply incl_cons; [now left|]|]; apply incl_tl; auto.
Qed.

Lemma del_keys_cons k v d ks :
  ~ In k ks ->
  del_keys ((k, v) :: d) ks = (r <- del_keys d ks ;; Ok ((k, v) :: r)).
Proof.
  unfold del_keys. revert d; induction ks as [|k1 ks IH]; intros d Hn; simpl; [reflexivity|].
  rewrite eqb_false by (intros ->; apply Hn; now left).
  destruct (ddel d k1) as [d1|]; simpl; [|reflexivity].
  apply IH. intros Hin; apply Hn; now right.
Qed.

(** Collecting the zero keys and deleting them equals the one-pass
    filter, errors included (the first key that [int(k, 16)] rejects). *)
Theorem strip_zero_keys_filter d :
  dict_wf d -> strip_zero_keys d = filter_nonzero d.
Proof.
  unfold strip_zero_keys, zero_keys. rewrite zero_keys_fold. simpl.
  unfold dict_wf. induction d as [|[k v] d IH]; intros Hwf; [reflexivity|].
  inversion Hwf as [|? ? Hn Hwf']; subst. specialize (IH Hwf').
  change (dkeys ((k, v) :: d)) with (k :: dkeys d).
  cbn [zero_list filter_nonzero].
  destruct (is_zero_key k) as [b|e]; simpl; [|reflexivity].
  destruct (zero_list (dkeys d)) as [zs|e] eqn:Z; simpl in IH |- *.
  - assert (Hk : ~ In k zs) by (intros Hin; apply Hn, (zero_list_incl _ _ Z), Hin).
    destruct b.
    + unfold del_keys. simpl. rewrite eqb_refl. simpl. fold (del_keys d zs).
      rewrite IH. destruct (filter_nonzero d); reflexivity.
    + rewrite del_keys_cons by exact Hk. rewrite IH.
      destruct (filter_nonzero d); reflexivity.
  - rewrite <- IH. reflexivity.
Qed.

(** ** Deleting a set of keys does not depend on the iteration order *)

Definition inb (k : string) (ks : list string) : bool := existsb (String.eqb k) ks.

Lemma inb_In k ks : inb k ks = true <-> In k ks.
Proof.
  unfold inb. rewrite existsb_exists. split.
  - intros [x [Hx E]]. apply String.eqb_eq in E. subst. exact Hx.
  - intros Hin. exists k. split; [exact Hin | apply String.eqb_refl].
Qed.

Lemma filter_filter_and {A} (p q : A -> bool) l :
  filter q (filter p l) = filter (fun x => p x && q x) l.
Proof.
  induction l as [|x l IH]; simpl; [reflexivity|].
  destruct (p x); simpl; [destruct (q x)|]; simpl; rewrite ?IH; reflexivity.
Qed.

(** Deleting distinct present keys in any order leaves the entries whose
    key is not among them. *)
Lemma del_keys_filter d ks :
  dict_wf d -> NoDup ks -> incl ks (dkeys d) ->
  del_keys d ks = Ok (filter (fun kv => negb (inb (fst kv) ks)) d).
Proof.
  revert d; induction ks as [|k ks IH]; intros d Hwf Hnd Hincl.
  - cbn. f_equal. symmetry. apply forallb_filter_id, forallb_forall. reflexivity.
  - inversion Hnd as [|? ? Hk Hnd']; subst.
    unfold del_keys. cbn [foldM].
    rewrite ddel_filter by (auto; apply Hincl; now left). cbn [bind].
    fold (del_keys (filter (fun kv => negb (eqb k (fst kv))) d) ks).
    rewrite IH.
    + f_equal. rewrite filter_filter_and. apply filter_ext. intros [k' v].
      cbn [fst inb existsb]. change (eqb k k') with (String.eqb k k').
      rewrite String.eqb_sym. destruct (String.eqb k' k); reflexivity.
    + apply filter_wf. exact Hwf.
    + exact Hnd'.
    + intros k' Hin. apply in_dkeys_filter.
      assert (Hd : In k' (dkeys d)) by (apply Hincl; now right).
      unfold dkeys in Hd. apply in_map_iff in Hd as [[k'' v] [Hkv Hin']].
      cbn in Hkv. subst k''. exists v. split; [exact Hin'|].
      cbn [fst]. rewrite eqb_false; [reflexivity|]. intros ->. contradiction.
Qed.

(** Python iterates the set of zero keys in hash order; any order of the
    same keys deletes the same entries. *)
Lemma del_keys_order_irrelevant d ks ks' :
  dict_wf d -> NoDup ks -> incl ks (dkeys d) -> Permutation.Permutation ks ks' ->
  del_keys d ks = del_keys d ks'.
Proof.
  intros Hwf Hnd Hincl Hperm.
  rewrite (del_keys_filter d ks), (del_keys_filter d ks'); auto.
  - f_equal. apply filter_ext. intros [k v]. cbn [fst].
    destruct (inb k ks) eqn:E1, (inb k ks') eqn:E2; try reflexivity.
    + apply inb_In in E1. apply (Permutation.Permutation_in _ Hperm) in E1.
      apply inb_In in E1. congruence.
    + apply inb_In in E2. apply (Permutation.Permutation_in _ (Permutation.Permutation_sym Hperm)) in E2.
      apply inb_In in E2. congruence.
  - eapply Permutation.Permutation_NoDup; eauto.
  - intros x Hx. apply Hincl.
    exact (Permutation.Permutation_in _ (Permutation.Permutation_sym Hperm) Hx).
Qed.

(** ** The range extractor *)

Definition nonzero_entry (kv : string * string) : bool :=
  match is_zero_key (fst kv) with Ok b => negb b | Raise _ => true end.

Lemma filter_nonzero_ok d d' :
  filter_nonzero d = Ok d' ->
  d' = filter nonzero_entry d /\
  (forall k, In k (dkeys d) -> exists b, is_zero_key k = Ok b).
Proof.
  revert d'; induction d as [|[k v] d IH]; simpl; intros d' H.
  - injection H as <-. split; [reflexivity | contradiction].
  - inv_run. destruct (IH a0 Ha0) as [-> Hall]. unfold nonzero_entry at 1.
    cbn [fst]. rewrite Ha. subst d'. split.
    + destruct a; reflexivity.
    + intros k' [<-|Hk']; eauto.
Qed.

Lemma filter_nonzero_raise d e :
  filter_nonzero d = Raise e -> e = PyStr.int_error 16.
Proof.
  induction d as [|[k v] d IH]; simpl; [discriminate|].
  unfold is_zero_key. destruct (PyStr.py_int 16 k) eqn:E; simpl.
  - destruct (filter_nonzero d); simpl; [discriminate | intros H; injection H as <-; auto].
  - intros H. injection H as <-. eapply PyStr.py_int_raise; eauto.
Qed.

(** C29: The first and the last key of the range are the first and the last
    non-zero keys of the table, in table order: keys of the table whose
    [int(key, 16)] is not zero. *)
Theorem extract_range_ok d d' a b :
  dict_wf d -> filter_nonzero d = Ok d' -> first_last (dkeys d') = Some (a, b) ->
  extract_range d = Ok ((a, b), d') /\
  In a (dkeys d) /\ In b (dkeys d) /\
  is_zero_key a = Ok false /\ is_zero_key b = Ok false.
Proof.
  intros Hwf Hf Hfl.
  unfold extract_range. rewrite strip_zero_keys_filter, Hf by exact Hwf. cbn [bind].
  unfold first_last_keys. rewrite Hfl. split; [reflexivity|].
  destruct (filter_nonzero_ok d d' Hf) as [-> Hall].
  apply first_last_in in Hfl as [Ha Hb].
  apply in_dkeys_filter in Ha as [va [Ha Hza]], Hb as [vb [Hb Hzb]].
  unfold nonzero_entry in Hza, Hzb. cbn [fst] in Hza, Hzb.
  apply (in_map fst) in Ha, Hb. cbn [fst] in Ha, Hb.
  destruct (Hall a Ha) as [[|] Ea], (Hall b Hb) as [[|] Eb];
    rewrite ?Ea, ?Eb in *; try discriminate; auto.
Qed.

(** A table whose keys are all zero makes [ostates[0]] raise
    [IndexError]: not the [ValueError] of the emptiness check, and not an
    exception [main] catches. *)
Theorem extract_range_all_zero d :
  dict_wf d -> filter_nonzero d = Ok [] -> extract_range d = Raise IndexError.
Proof.
  intros Hwf Hf. unfold extract_range. rewrite strip_zero_keys_filter, Hf by exact Hwf.
  reflexivity.
Qed.

(** C30: A key that is not a hexadecimal literal raises [int()]'s
    [ValueError]. *)
Theorem extract_range_bad_key d e :
  dict_wf d -> filter_nonzero d = Raise e ->
  extract_range d = Raise e /\ e = PyStr.int_error 16.
Proof.
  intros Hwf Hf. split; [|eapply filter_nonzero_raise; eauto].
  unfold extract_range. rewrite strip_zero_keys_filter, Hf by exact Hwf. reflexivity.
Qed.

(** A key kept by the filter parsed as a hexadecimal number: it is not
    empty. *)
Lemma filter_nonzero_key d d' k :
  filter_nonzero d = Ok d' -> In k (dkeys d') -> k <> EmptyString.
Proof.
  intros Hf Hk ->. destruct (filter_nonzero_ok d d' Hf) as [-> Hall].
  apply in_dkeys_filter in Hk as (v & Hin & _).
  destruct (Hall EmptyString (in_map fst _ _ Hin)) as (b & Hb). discriminate Hb.
Qed.

Lemma first_last_keys_ok d r : first_last_keys d = Ok r -> first_last (dkeys d) = Some r.
Proof.
  unfold first_last_keys. destruct (first_last (dkeys d)); [|discriminate].
  intros H. injection H as ->. reflexivity.
Qed.

Lemma first_last_in_ok d r : first_last (dkeys d) = Some r -> log_range d r = Ok tt.
Proof.
  intros F. destruct r as [a b]. apply first_last_in in F as [Ha Hb].
  destruct (dget_some d a Ha) as [va Ea], (dget_some d b Hb) as [vb Eb].
  unfold log_range, getitem. cbn [fst snd]. rewrite Ea, Eb. reflexivity.
Qed.

(** ** [load_lifecycle] *)

(** [if table: ...]: an empty table keeps the previous range, another
    gives its first and last non-zero keys. *)
Lemma optional_range_spec d old r :
  dict_wf d -> optional_range d old = Ok r ->
  (d = [] /\ r = old) \/
  (d <> [] /\ exists d', filter_nonzero d = Ok d' /\ first_last (dkeys d') = Some r).
Proof.
  intros Hwf. unfold optional_range.
  destruct d as [|kv d0] eqn:Ed; cbn [is_empty]; intros H; [inv_run; auto|].
  right. split; [discriminate|]. rewrite <- Ed in *. unfold extract_range in H.
  rewrite strip_zero_keys_filter in H by exact Hwf. inv_run. subst.
  eauto using first_last_keys_ok.
Qed.

Section LoadProps.
Context {T : Type} `{LcProvider T}.

(** [load_lifecycle] writes the four ranges and merges the tokens into
    the LifeCycle map; the ROM and OTP maps and the top name are left
    as they were. *)
Theorem load_lifecycle_frame (t : T) cfg cfg' :
  load_lifecycle t cfg = Ok cfg' ->
  roms cfg' = roms cfg /\ otp cfg' = otp cfg /\ top_name cfg' = top_name cfg /\
  lc cfg' = dupdate (lc cfg) (get_tokens t false false).
Proof. unfold load_lifecycle. intros Hrun. inv_run. subst. auto. Qed.

(** C6: The state and transition ranges are the first and last non-zero
    keys of their tables. *)
Theorem load_lifecycle_ranges (t : T) cfg cfg' :
  dict_wf (get_configuration t "LC_STATE") ->
  dict_wf (get_configuration t "LC_TRANSITION_CNT") ->
  load_lifecycle t cfg = Ok cfg' ->
  (exists d, filter_nonzero (get_configuration t "LC_STATE") = Ok d /\
             first_last (dkeys d) = Some (lc_states cfg')) /\
  (exists d, filter_nonzero (get_configuration t "LC_TRANSITION_CNT") = Ok d /\
             first_last (dkeys d) = Some (lc_transitions cfg')).
Proof.
  unfold load_lifecycle, extract_range. intros Hs Ht Hrun.
  rewrite !strip_zero_keys_filter in Hrun by assumption.
  inv_run. subst. cbn [lc_states lc_transitions].
  split; eexists; split; eauto using first_last_keys_ok.
Qed.

(** C31: An empty [LC_STATE] table aborts the load with [ValueError]. *)
Theorem load_lifecycle_no_states (t : T) cfg :
  get_configuration t "LC_STATE" = [] ->
  load_lifecycle t cfg = Raise (ValueError "Cannot obtain LifeCycle states").
Proof. unfold load_lifecycle. intros ->. reflexivity. Qed.

(** C7: The log call of the transitions evaluates [int()] on the value of
    the first transition key: a value that is not a decimal literal
    aborts the load with [ValueError]. *)
Theorem load_lifecycle_transition_value (t : T) cfg st sd tr td v e :
  is_empty (get_configuration t "LC_STATE") = false ->
  extract_range (get_configuration t "LC_STATE") = Ok (st, sd) ->
  is_empty (get_configuration t "LC_TRANSITION_CNT") = false ->
  extract_range (get_configuration t "LC_TRANSITION_CNT") = Ok (tr, td) ->
  dget td (fst tr) = Some v -> PyStr.py_int 10 v = Raise e ->
  load_lifecycle t cfg = Raise e.
Proof.
  intros Hs Es Ht Et Hv Hi. unfold load_lifecycle.
  rewrite Hs, Es. cbn [raise_if bind].
  assert (Hlog : log_range sd st = Ok tt).
  { apply first_last_in_ok. unfold extract_range in Es. inv_run.
    subst. auto using first_last_keys_ok. }
  rewrite Hlog. cbn [bind]. rewrite Ht, Et. cbn [raise_if bind].
  unfold log_transitions, getitem. rewrite Hv. cbn [bind]. rewrite Hi. reflexivity.
Qed.

(** The state range [load_lifecycle] stores comes from the table with
    its zero keys removed. *)
Lemma load_lifecycle_states (t : T) cfg cfg' :
  dict_wf (get_configuration t "LC_STATE") -> load_lifecycle t cfg = Ok cfg' ->
  exists d, filter_nonzero (get_configuration t "LC_STATE") = Ok d /\
            first_last (dkeys d) = Some (lc_states cfg').
Proof.
  unfold load_lifecycle, extract_range. intros Hs Hrun.
  rewrite strip_zero_keys_filter in Hrun by exact Hs.
  inv_run. subst. cbn [lc_states]. eauto using first_last_keys_ok.
Qed.

(** A state table whose keys are all zero makes [ostates[0]] raise. *)
Lemma load_lifecycle_all_zero (t : T) cfg :
  get_configuration t "LC_STATE" <> [] -> dict_wf (get_configuration t "LC_STATE") ->
  filter_nonzero (get_configuration t "LC_STATE") = Ok [] ->
  load_lifecycle t cfg = Raise IndexError.
Proof.
  intros Hne Hwf Hf. unfold load_lifecycle.
  destruct (get_configuration t "LC_STATE") as [|kv l] eqn:E; [congruence|].
  cbn [is_empty raise_if bind]. rewrite <- E, extract_range_all_zero by (rewrite ?E; auto).
  reflexivity.
Qed.

(** C32: The SOCDBG and OWNERSHIP tables are optional: an empty table keeps
    the range the configuration had, a non-empty one gives its first and
    last non-zero keys, as for the two required tables. *)
Theorem load_lifecycle_optional (t : T) cfg cfg' :
  dict_wf (get_configuration t "SOCDBG") -> dict_wf (get_configuration t "OWNERSHIP") ->
  load_lifecycle t cfg = Ok cfg' ->
  ((get_configuration t "SOCDBG" = [] /\ socdbg cfg' = socdbg cfg) \/
   (get_configuration t "SOCDBG" <> [] /\
    exists d, filter_nonzero (get_configuration t "SOCDBG") = Ok d /\
              first_last (dkeys d) = Some (socdbg cfg'))) /\
  ((get_configuration t "OWNERSHIP" = [] /\ ownership cfg' = ownership cfg) \/
   (get_configuration t "OWNERSHIP" <> [] /\
    exists d, filter_nonzero (get_configuration t "OWNERSHIP") = Ok d /\
              first_last (dkeys d) = Some (ownership cfg'))).
Proof.
  intros Hs Ho Hrun. unfold load_lifecycle in Hrun. inv_run. subst. cbn [socdbg ownership].
  split; eapply optional_range_spec; eassumption.
Qed.

(** [load_lifecycle] keeps every map of the state a well-formed dict. *)
Lemma load_lifecycle_wf (t : T) cfg cfg' :
  config_wf cfg -> dict_wf (get_tokens t false false) ->
  load_lifecycle t cfg = Ok cfg' -> config_wf cfg'.
Proof.
  unfold config_wf. intros (Hr & Hrs & Ho & Hl) Htok Hrun.
  destruct (load_lifecycle_frame t cfg cfg' Hrun) as (-> & -> & _ & ->).
  repeat split; auto using dupdate_wf.
Qed.
End LoadProps.

(** ** A concrete provider: tables given as an association list *)

Record LcTables : Type := mkLcTables {
  lct_tables : dict string (dict string string);
  lct_tokens : dict string string
}.

#[export] Instance LcTables_provider : LcProvider LcTables := {
  get_configuration t n := match dget (lct_tables t) n with Some d => d | None => [] end;
  get_tokens t _ _ := lct_tokens t
}.

(** ** Witnesses *)

Local Open Scope string_scope.

Definition ex_tables : LcTables :=
  mkLcTables
    [("LC_STATE", [("0", "RAW"); ("1", "TEST_UNLOCKED0"); ("2", "PROD")]);
     ("LC_TRANSITION_CNT", [("0", "0"); ("1", "1"); ("18", "24")])]
    [("lc_raw_unlock_token", "0x1234")].

(** The scenario of the specification: transition values that are not
    decimal literals. *)
Definition ex_spec_tables : LcTables :=
  mkLcTables
    [("LC_STATE", [("0", "x"); ("1", "FIRST"); ("2", "MID"); ("3", "LAST")]);
     ("LC_TRANSITION_CNT", [("0", "y"); ("5", "T5"); ("9", "T9")])]
    [].

Definition ex_loaded : OtConfiguration :=
  match load_lifecycle ex_tables init_config with Ok c => c | Raise _ => init_config end.

Lemma load_lifecycle_ranges_witness :
  (exists d, filter_nonzero (get_configuration ex_tables "LC_STATE") = Ok d /\
             first_last (dkeys d) = Some (lc_states ex_loaded)) /\
  (exists d, filter_nonzero (get_configuration ex_tables "LC_TRANSITION_CNT") = Ok d /\
             first_last (dkeys d) = Some (lc_transitions ex_loaded)).
Proof.
  apply (load_lifecycle_ranges ex_tables init_config ex_loaded);
    [apply nodupb_NoDup; vm_compute; reflexivity
    | apply nodupb_NoDup; vm_compute; reflexivity
    | vm_compute; reflexivity].
Defined.

Definition ex_opt_tables : LcTables :=
  mkLcTables
    [("LC_STATE", [("0", "RAW"); ("1", "TEST_UNLOCKED0")]);
     ("LC_TRANSITION_CNT", [("0", "0"); ("1", "1")]);
     ("OWNERSHIP", [("0", "UNOWNED"); ("2", "LOCKED"); ("3", "RELEASED")])]
    [].

Definition ex_opt_loaded : OtConfiguration :=
  match load_lifecycle ex_opt_tables init_config with Ok c => c | Raise _ => init_config end.

Lemma load_lifecycle_optional_witness :
  ((get_configuration ex_opt_tables "SOCDBG" = [] /\
    socdbg ex_opt_loaded = socdbg init_config) \/
   (get_configuration ex_opt_tables "SOCDBG" <> [] /\
    exists d, filter_nonzero (get_configuration ex_opt_tables "SOCDBG") = Ok d /\
              first_last (dkeys d) = Some (socdbg ex_opt_loaded))) /\
  ((get_configuration ex_opt_tables "OWNERSHIP" = [] /\
    ownership ex_opt_loaded = ownership init_config) \/
   (get_configuration ex_opt_tables "OWNERSHIP" <> [] /\
    exists d, filter_nonzero (get_configuration ex_opt_tables "OWNERSHIP") = Ok d /\
              first_last (dkeys d) = Some (ownership ex_opt_loaded))).
Proof.
  apply (load_lifecycle_optional ex_opt_tables init_config ex_opt_loaded);
    [apply nodupb_NoDup | apply nodupb_NoDup | ]; vm_compute; reflexivity.
Defined.

Lemma load_lifecycle_transition_value_witness :
  load_lifecycle ex_spec_tables init_config = Raise (PyStr.int_error 10).
Proof.
  apply (load_lifecycle_transition_value ex_spec_tables init_config ("1", "3")
           [("1", "FIRST"); ("2", "MID"); ("3", "LAST")] ("5", "9")
           [("5", "T5"); ("9", "T9")] "T5");
    vm_compute; reflexivity.
Defined.

Lemma load_lifecycle_no_states_witness :
  load_lifecycle (mkLcTables [] []) init_config =
  Raise (ValueError "Cannot obtain LifeCycle states").
Proof. apply load_lifecycle_no_states. vm_compute. reflexivity. Defined.

Lemma extract_range_ok_witness :
  extract_range [("0", "RAW"); ("1", "A"); ("00", "Z"); ("2", "B")] =
    Ok (("1", "2"), [("1", "A"); ("2", "B")]) /\
  In "1" (dkeys [("0", "RAW"); ("1", "A"); ("00", "Z"); ("2", "B")]) /\
  In "2" (dkeys [("0", "RAW"); ("1", "A"); ("00", "Z"); ("2", "B")]) /\
  is_zero_key "1" = Ok false /\ is_zero_key "2" = Ok false.
Proof.
  apply (extract_range_ok _ [("1", "A"); ("2", "B")]);
    [apply nodupb_NoDup | |]; vm_compute; reflexivity.
Defined.

Lemma extract_range_bad_key_witness :
  extract_range [("0", "RAW"); ("zz", "A")] = Raise (PyStr.int_error 16) /\
  PyStr.int_error 16 = PyStr.int_error 16.
Proof.
  apply extract_range_bad_key; [apply nodupb_NoDup|]; vm_compute; reflexivity.
Defined.

End Lifecycle.
