(* ===== verification/OtpConst.v ===== *)
(** * [load_otp_constants] (cfggen.py lines 123-129)

    [OtpConstants], which reads the OTP RTL package, is an external
    collaborator; the class [OtpProvider] states the one query the script
    makes, [get_digest_pair(name, prefix)], a dict with the pair's
    entries (empty when the package does not define the pair).  The
    method merges the content-integrity digest pair, then the SRAM data
    key pair, into the OTP map with [dict.update].  It commutes with
    [load_lifecycle]: the two loaders touch disjoint parts of the
    configuration. *)

From Stdlib Require Import String List.
From S2P Require Import Prelude PyDict Config Lifecycle.
Import ListNotations.

Module OtpConst.
Import PyDict Config Lifecycle.

Class OtpProvider (T : Type) := {
  get_digest_pair : T -> string -> string -> dict string string
}.

Section Load.
Context {T : Type} `{OtpProvider T}.

Definition load_otp_constants (otpconst : T) (cfg : OtConfiguration)
  : OtConfiguration :=
  let otp1 := dupdate (otp cfg) (get_digest_pair otpconst "cnsty_digest" "digest") in
  let otp2 := dupdate otp1 (get_digest_pair otpconst "sram_data_key" "sram") in
  {| lc_states := lc_states cfg; lc_transitions := lc_transitions cfg;
     socdbg := socdbg cfg; ownership := ownership cfg; roms := roms cfg;
     otp := otp2; lc := lc cfg; top_name := top_name cfg |}.

(** C28: The value of an OTP key after the load: the SRAM pair wins over the
    digest pair, which wins over what the map held before (the
    structural values of [load_top_config] included). *)
Theorem load_otp_constants_lookup (c : T) cfg k :
  dict_wf (get_digest_pair c "cnsty_digest" "digest") ->
  dict_wf (get_digest_pair c "sram_data_key" "sram") ->
  dget (otp (load_otp_constants c cfg)) k =
  match dget (get_digest_pair c "sram_data_key" "sram") k with
  | Some v => Some v
  | None =>
      match dget (get_digest_pair c "cnsty_digest" "digest") k with
      | Some v => Some v
      | None => dget (otp cfg) k
      end
  end.
Proof.
  intros Hd Hs. cbn [otp load_otp_constants].
  rewrite dget_dupdate by exact Hs. rewrite dget_dupdate by exact Hd.
  reflexivity.
Qed.

(** Case analysis on the first step of a chain of binds in the goal. *)
Ltac step_binds :=
  repeat (cbn [bind];
          match goal with
          | |- context [match ?p with pair _ _ => _ end] => destruct p
          | |- context [bind ?c _] => destruct c
          end).

(** C33: [load_otp_constants] and [load_lifecycle] act on disjoint parts
    of the configuration: loading the OTP constants before or after the
    LifeCycle package gives the same configuration, and the same error
    when the LifeCycle load fails. *)
Theorem load_otp_lifecycle_commute {LT : Type} `{LcProvider LT} (t : LT) (c : T) cfg :
  load_lifecycle t (load_otp_constants c cfg) =
  (cfg' <- load_lifecycle t cfg ;; Ok (load_otp_constants c cfg')).
Proof.
  unfold load_lifecycle. cbn [socdbg ownership lc roms otp top_name load_otp_constants].
  step_binds; reflexivity.
Qed.
End Load.

(** A concrete provider: the pairs as an association list keyed by the
    pair's name. *)
Record OtpTables : Type := mkOtpTables {
  otpt_pairs : dict string (dict string string)
}.

#[export] Instance OtpTables_provider : OtpProvider OtpTables := {
  get_digest_pair t name _ :=
    match dget (otpt_pairs t) name with Some d => d | None => [] end
}.

(** ** Witnesses *)

Local Open Scope string_scope.

Definition ex_consts : OtpTables :=
  mkOtpTables [("cnsty_digest", [("digest_iv", "AB"); ("shared", "1")]);
               ("sram_data_key", [("shared", "2")])].

Definition ex_cfg : OtConfiguration :=
  {| lc_states := ("", ""); lc_transitions := ("", ""); socdbg := ("", "");
     ownership := ("", ""); roms := []; otp := [("shared", "0"); ("digest", "CAFE")];
     lc := []; top_name := None |}.

Lemma load_otp_constants_lookup_witness :
  dget (otp (load_otp_constants ex_consts ex_cfg)) "shared" =
  match dget (get_digest_pair ex_consts "sram_data_key" "sram") "shared" with
  | Some v => Some v
  | None =>
      match dget (get_digest_pair ex_consts "cnsty_digest" "digest") "shared" with
      | Some v => Some v
      | None => dget (otp ex_cfg) "shared"
      end
  end.
Proof. apply load_otp_constants_lookup; apply nodupb_NoDup; vm_compute; reflexivity. Defined.

End OtpConst.
