(* ===== verification/TopConfig.v ===== *)
(** * The parameter correlator: [_load_top_values] and [load_top_config]
      (cfggen.py lines 63-78 and 153-178)

    [load_top_config] walks the [module] list of the HJSON document and,
    for each [rom_ctrl] and [otp_ctrl] module, calls [_load_top_values],
    which matches every parameter name against the patterns, strips a
    [0x] prefix from the default value, shortens the captured group with
    [camel_to_snake_case], and writes the value, into a flat map (OTP) or
    into the map of the bank whose index ends the module name (ROM).

    The Python code is duck-typed; the model keeps the exceptions it
    raises on documents of another shape: [.get] on a non-dict
    ([AttributeError]), [params['name']] missing ([KeyError]), a name
    that is not a string ([TypeError] from [re.match]), a truthy default
    that is not a string ([AttributeError] from [.startswith]), a
    [param_list] or [module] value that cannot be iterated ([TypeError]).
    Iterating a string yields its characters and iterating a dict its
    keys, which the loops skip as non-dicts.  The writes of one
    parameter record are computed in order and then applied (for a ROM
    module the bank index is computed at the first of them, as the
    source does), which is the same as the source's in-place
    assignments since an exception aborts the run. *)

From Stdlib Require Import String Ascii List ZArith Bool Lia.
From S2P Require Import Prelude PyStr PyDict Regex Hjson Config.
Import ListNotations.

Module TopConfig.
Import PyDict Hjson Config.

(** [for x in v] *)
Definition iter_items (v : json) : res (list json) :=
  match v with
  | JList l => Ok l
  | JStr s => Ok (map (fun c => JStr (String c EmptyString)) (list_ascii_of_string s))
  | JObj f => Ok (map (fun kv => JStr (fst kv)) f)
  | _ => Raise TypeError
  end.

(** [params['name']], the string [re.match] needs. *)
Definition param_name (params : list (string * json)) : res string :=
  match jget params "name" with
  | None => Raise (KeyError "name")
  | Some (JStr s) => Ok s
  | Some _ => Raise TypeError
  end.

(** [value = params.get('default'); if not value: continue]; [None]
    stands for the [continue]. *)
Definition param_default (params : list (string * json)) : res (option string) :=
  let v := match jget params "default" with Some v => v | None => JNull end in
  if negb (truthy v) then Ok None
  else match v with
       | JStr s => Ok (Some s)
       | _ => Raise AttributeError
       end.

(** [if value.startswith('0x'): value = value[2:]] *)
Definition strip_hex (value : string) : string :=
  if PyStr.startswith value "0x" then PyStr.str_drop 2 value else value.

(** [for regex in regexes: ...] over one parameter record: the
    [(kname, value)] writes, in order. *)
Fixpoint regex_writes (params : list (string * json)) (regexes : list (list Regex.piece))
  : res (list (string * string)) :=
  match regexes with
  | [] => Ok []
  | rx :: rxs =>
      name <- param_name params ;;
      match Regex.re_match rx name with
      | None => regex_writes params rxs
      | Some g =>
          dv <- param_default params ;;
          rest <- regex_writes params rxs ;;
          Ok (match dv with
              | None => rest
              | Some v => (PyStr.camel_to_snake_case g, strip_hex v) :: rest
              end)
      end
  end.

(** [for params in module.get('param_list', []): if not isinstance(params,
    dict): continue; ...] *)
Fixpoint param_writes (items : list json) (regexes : list (list Regex.piece))
  : res (list (string * string)) :=
  match items with
  | [] => Ok []
  | JObj params :: items' =>
      w <- regex_writes params regexes ;; ws <- param_writes items' regexes ;;
      Ok (w ++ ws)
  | _ :: items' => param_writes items' regexes
  end.

(** [imo = re.search(r'(\d+)$', modname); int(imo.group(1)) if imo else
    None] *)
Definition module_index (modname : json) : res (option Z) :=
  match modname with
  | JStr s =>
      match Regex.re_search Regex.idx_regex s with
      | Some g => z <- PyStr.py_int 10 g ;; Ok (Some z)
      | None => Ok None
      end
  | _ => Raise TypeError
  end.

(** The part of [_load_top_values] before the writes: the module name
    guard and the parameter list.  [None] is the early [return]. *)
Definition module_writes (module : json) (regexes : list (list Regex.piece))
  : res (option (json * list (string * string))) :=
  modname <- get_or_null module "name" ;;
  if negb (truthy modname) then Ok None
  else
    plist <- get module "param_list" ;;
    items <- iter_items (match plist with Some v => v | None => JList [] end) ;;
    ws <- param_writes items regexes ;;
    Ok (Some (modname, ws)).

(** [_load_top_values(module, odict, False, ...)]: [odict[kname] = value]. *)
Definition load_top_values_flat (module : json) (odict : dict string string)
  (regexes : list (list Regex.piece)) : res (dict string string) :=
  mw <- module_writes module regexes ;;
  match mw with
  | None => Ok odict
  | Some (_, ws) => Ok (fold_left (fun d kv => dset d (fst kv) (snd kv)) ws odict)
  end.

(** [odict[idx][kname] = value], creating [odict[idx]] when absent. *)
Definition set_partition (odict : dict (option Z) (dict string string))
  (idx : option Z) (kv : string * string) : dict (option Z) (dict string string) :=
  let inner := match dget odict idx with Some m => m | None => [] end in
  dset odict idx (dset inner (fst kv) (snd kv)).

(** One parameter record of [_load_top_values(module, odict, True, ...)]:
    its writes [odict[idx][kname] = value], the bank index computed (from
    the same module name) at the first of them. *)
Definition multi_step (modname : json) (regexes : list (list Regex.piece))
  (odict : dict (option Z) (dict string string)) (item : json)
  : res (dict (option Z) (dict string string)) :=
  match item with
  | JObj params =>
      ws <- regex_writes params regexes ;;
      match ws with
      | [] => Ok odict
      | _ => idx <- module_index modname ;;
             Ok (fold_left (fun d kv => set_partition d idx kv) ws odict)
      end
  | _ => Ok odict
  end.

(** [_load_top_values(module, odict, True, ...)] *)
Definition load_top_values_multi (module : json)
  (odict : dict (option Z) (dict string string))
  (regexes : list (list Regex.piece)) : res (dict (option Z) (dict string string)) :=
  modname <- get_or_null module "name" ;;
  if negb (truthy modname) then Ok odict
  else
    plist <- get module "param_list" ;;
    items <- iter_items (match plist with Some v => v | None => JList [] end) ;;
    foldM (multi_step modname regexes) items odict.

(** One iteration of the [for module in ...] loop. *)
Definition load_module (c : OtConfiguration) (module : json) : res OtConfiguration :=
  modtype <- get_or_null module "type" ;;
  match modtype with
  | JStr "rom_ctrl" =>
      roms' <- load_top_values_multi module (roms c) [Regex.rom_regex] ;;
      Ok {| lc_states := lc_states c; lc_transitions := lc_transitions c;
            socdbg := socdbg c; ownership := ownership c; roms := roms';
            otp := otp c; lc := lc c; top_name := top_name c |}
  | JStr "otp_ctrl" =>
      otp' <- load_top_values_flat module (otp c) [Regex.otp_regex] ;;
      Ok {| lc_states := lc_states c; lc_transitions := lc_transitions c;
            socdbg := socdbg c; ownership := ownership c; roms := roms c;
            otp := otp'; lc := lc c; top_name := top_name c |}
  | _ => Ok c
  end%string.

(** [load_top_config], after [cfg = hjload(tfp)]. *)
Definition load_top_config (doc : json) (c : OtConfiguration) : res OtConfiguration :=
  name <- get_or_null doc "name" ;;
  let c1 := {| lc_states := lc_states c; lc_transitions := lc_transitions c;
               socdbg := socdbg c; ownership := ownership c; roms := roms c;
               otp := otp c; lc := lc c;
               top_name := match name with JNull => None | v => Some v end |} in
  mods <- get_or_null doc "module" ;;
  items <- iter_items (if truthy mods then mods else JList []) ;;
  foldM load_module items c1.

(** ** Bank partitioning *)

(** A module name ending in a decimal run is put in the bank of that
    number ([rom_ctrl3] in bank 3). *)
Theorem module_index_trailing p ds :
  Regex.ends_nondigit p -> Forall (fun d => d < 10)%nat ds -> ds <> [] ->
  module_index (JStr (string_of_list_ascii (p ++ map PyStr.digit_char ds))) =
  Ok (Some (PyStr.digits_value 10 (map Z.of_nat ds))).
Proof.
  intros Hp Hall Hne. unfold module_index, Regex.re_search.
  rewrite list_ascii_of_string_of_list_ascii.
  rewrite <- (app_nil_r (map PyStr.digit_char ds)).
  rewrite Regex.idx_search_trailing; [|
    | destruct ds; [congruence|discriminate] | reflexivity | exact Hp].
  - cbn [Regex.group1]. rewrite PyStr.py_int_digits by assumption.
    reflexivity.
  - apply Forall_map. eapply Forall_impl; [|exact Hall].
    intros d Hd. apply PyStr.digit_char_is_digit. exact Hd.
Qed.

(** C23: Leading zeros of the bank number are dropped: [rom_ctrl01] and
    [rom_ctrl1] write into the same bank. *)
Theorem module_index_leading_zero p ds :
  Regex.ends_nondigit p -> Forall (fun d => d < 10)%nat ds -> ds <> [] ->
  module_index (JStr (string_of_list_ascii (p ++ map PyStr.digit_char (0%nat :: ds)))) =
  module_index (JStr (string_of_list_ascii (p ++ map PyStr.digit_char ds))).
Proof.
  intros Hp Hall Hne.
  rewrite (module_index_trailing p (0%nat :: ds)), (module_index_trailing p ds);
    try assumption; [reflexivity | constructor; [lia | exact Hall] | discriminate].
Qed.

Lemma string_of_list_ascii_app p q :
  string_of_list_ascii (p ++ q) = (string_of_list_ascii p ++ string_of_list_ascii q)%string.
Proof. induction p as [|c p IH]; cbn; congruence. Qed.

(** C24: The bank of a module named [p] followed by [f'{n}'], where [p] does
    not end in a digit, is [n]: [int()] reads back the number the name
    was written with. *)
Theorem module_index_str_of_nat p n :
  Regex.ends_nondigit p ->
  module_index (JStr (string_of_list_ascii p ++ PyStr.str_of_nat n)) = Ok (Some (Z.of_nat n)).
Proof.
  intros Hp. unfold PyStr.str_of_nat.
  destruct (PyStr.dec_digits_spec (S n) n) as (ds & -> & Hne & Hall & Hval); [lia|].
  rewrite <- string_of_list_ascii_app, module_index_trailing by assumption.
  rewrite Hval. reflexivity.
Qed.

(** The bank index taken from a module name is never negative: the
    [(\d+)$] group holds digits only, so [int()] sees no sign. *)
Lemma module_index_nonneg m z :
  module_index m = Ok (Some z) -> (0 <= z)%Z.
Proof.
  unfold module_index. destruct m as [| | |s| |]; try discriminate.
  destruct (Regex.re_search Regex.idx_regex s) as [g|] eqn:E; [|discriminate].
  destruct (Regex.idx_search_digits _ _ E) as (a & -> & Hne & Hall).
  destruct (PyStr.py_int_digit_string a Hall Hne) as (ds & ->).
  cbn [bind]. intros H. injection H as <-. apply PyStr.digits_value_nonneg.
Qed.

(** ** The pattern loop *)

(** C22: Every pattern that matches the parameter name writes the value: the
    loop does not stop at the first matching pattern. *)
Theorem regex_writes_every_match params rxs name v :
  param_name params = Ok name -> param_default params = Ok (Some v) ->
  regex_writes params rxs =
  Ok (map (fun g => (PyStr.camel_to_snake_case g, strip_hex v))
          (flat_map (fun rx => match Regex.re_match rx name with
                               | Some g => [g] | None => [] end) rxs)).
Proof.
  intros Hn Hd. induction rxs as [|rx rxs IH]; [reflexivity|].
  cbn [regex_writes flat_map]. rewrite Hn. cbn [bind].
  destruct (Regex.re_match rx name) as [g|]; [|exact IH].
  rewrite Hd, IH. reflexivity.
Qed.

(** A parameter with an empty default writes nothing, whatever the
    patterns: the loop goes on to the next pattern instead of stopping. *)
Lemma regex_writes_no_default params rxs name :
  param_name params = Ok name -> param_default params = Ok None ->
  regex_writes params rxs = Ok [].
Proof.
  intros Hn Hd. induction rxs as [|rx rxs IH]; [reflexivity|].
  cbn [regex_writes]. rewrite Hn. cbn [bind].
  destruct (Regex.re_match rx name); [rewrite Hd, IH; reflexivity | exact IH].
Qed.

(** [value[2:]] after [value.startswith('0x')]: the prefix is removed,
    other values are kept as they are. *)
Lemma strip_hex_spec v :
  (PyStr.startswith v "0x" = true -> ("0x" ++ strip_hex v)%string = v) /\
  (PyStr.startswith v "0x" = false -> strip_hex v = v).
Proof.
  unfold strip_hex. split; intros H; rewrite H; [|reflexivity].
  symmetry. apply PyStr.startswith_0x. exact H.
Qed.

(** ** [load_top_config] *)

Lemma load_module_frame c m c' :
  load_module c m = Ok c' ->
  lc c' = lc c /\ lc_states c' = lc_states c /\ lc_transitions c' = lc_transitions c /\
  socdbg c' = socdbg c /\ ownership c' = ownership c /\ top_name c' = top_name c.
Proof.
  unfold load_module. intros H. inv_run.
  repeat match goal with
         | H : match ?x with _ => _ end = Ok _ |- _ => destruct x
         end; inv_run; subst; auto 10.
Qed.

(** [load_top_config] sets the top name and fills the ROM and OTP maps;
    the LifeCycle map and the four ranges are left as they were. *)
Theorem load_top_config_frame doc c c' :
  load_top_config doc c = Ok c' ->
  lc c' = lc c /\ lc_states c' = lc_states c /\ lc_transitions c' = lc_transitions c /\
  socdbg c' = socdbg c /\ ownership c' = ownership c.
Proof.
  unfold load_top_config. intros H. inv_run.
  refine (foldM_invariant (fun c'' => lc c'' = lc c /\ lc_states c'' = lc_states c /\
     lc_transitions c'' = lc_transitions c /\ socdbg c'' = socdbg c /\
     ownership c'' = ownership c) _ _ _ _ _ _ H).
  - intros b x b' (H1 & H2 & H3 & H4 & H5) Hm.
    destruct (load_module_frame b x b' Hm) as (E1 & E2 & E3 & E4 & E5 & _).
    rewrite E1, E2, E3, E4, E5. auto.
  - cbn. auto.
Qed.

Definition banks_wf (d : dict (option Z) (dict string string)) : Prop :=
  dict_wf d /\ Forall (fun kv => dict_wf (snd kv)) d.

Lemma set_partition_wf d i kv : banks_wf d -> banks_wf (set_partition d i kv).
Proof.
  unfold banks_wf, set_partition. intros [Hd Hin].
  assert (Hinner : dict_wf (match dget d i with Some m => m | None => [] end)).
  { destruct (dget d i) as [m|] eqn:E.
    - exact (dget_values (fun m => dict_wf m) d i m Hin E).
    - unfold dict_wf. constructor. }
  split; [apply dset_wf; exact Hd|].
  apply (dset_values (fun m => dict_wf m)); [exact Hin|]. apply dset_wf. exact Hinner.
Qed.

Lemma fold_set_partition_wf ws d i :
  banks_wf d -> banks_wf (fold_left (fun d kv => set_partition d i kv) ws d).
Proof.
  revert d; induction ws as [|kv ws IH]; simpl; intros d Hd; auto using set_partition_wf.
Qed.

Lemma load_top_values_flat_wf m d rxs d' :
  dict_wf d -> load_top_values_flat m d rxs = Ok d' -> dict_wf d'.
Proof.
  unfold load_top_values_flat. intros Hd H. inv_run.
  destruct a as [[? ws]|]; inv_run; subst; auto using fold_dset_wf.
Qed.

Lemma multi_step_wf n rxs d x d' :
  banks_wf d -> multi_step n rxs d x = Ok d' -> banks_wf d'.
Proof.
  unfold multi_step. intros Hd H.
  destruct x; inv_run; subst; auto.
  destruct a as [|kv ws]; inv_run; subst; auto using fold_set_partition_wf, set_partition_wf.
Qed.

Lemma load_top_values_multi_wf m d rxs d' :
  banks_wf d -> load_top_values_multi m d rxs = Ok d' -> banks_wf d'.
Proof.
  unfold load_top_values_multi. intros Hd H. inv_run.
  destruct (negb (truthy a)); inv_run; subst; [exact Hd|].
  eapply foldM_invariant; [exact (multi_step_wf a rxs) | exact Hd | exact H].
Qed.

Lemma load_module_wf c m c' : config_wf c -> load_module c m = Ok c' -> config_wf c'.
Proof.
  unfold config_wf, load_module. intros (Hr & Hrs & Ho & Hl) H. inv_run.
  repeat match goal with
         | H : match ?x with _ => _ end = Ok _ |- _ => destruct x
         end; inv_run; subst; cbn; auto.
  - repeat split; eauto using load_top_values_flat_wf.
  - destruct (load_top_values_multi_wf _ _ _ _ (conj Hr Hrs) Ha0). auto.
Qed.

(** [load_top_config] keeps every map of the state a well-formed dict. *)
Lemma load_top_config_wf doc c c' :
  config_wf c -> load_top_config doc c = Ok c' -> config_wf c'.
Proof.
  unfold load_top_config. intros Hwf H. inv_run.
  eapply foldM_invariant; [exact load_module_wf | | exact H].
  exact Hwf.
Qed.

(** ** Malformed parameter records *)

(** C26: A parameter record without a ["name"] key is not skipped: of an
    [otp_ctrl] or [rom_ctrl] module with a name, [params['name']] raises
    [KeyError] and the whole load fails. *)
Theorem load_module_missing_name c m n params rest :
  get_or_null m "type" = Ok (JStr "otp_ctrl") \/ get_or_null m "type" = Ok (JStr "rom_ctrl") ->
  get_or_null m "name" = Ok n -> truthy n = true ->
  get m "param_list" = Ok (Some (JList (JObj params :: rest))) ->
  jget params "name" = None ->
  load_module c m = Raise (KeyError "name").
Proof.
  intros Ht Hn Htr Hp Hj.
  unfold load_module, load_top_values_flat, load_top_values_multi, module_writes.
  destruct Ht as [Ht|Ht]; rewrite Ht; cbn [bind];
    rewrite Hn; cbn [bind]; rewrite Htr; cbn [negb bind]; rewrite Hp; cbn [bind iter_items];
    cbn [param_writes foldM multi_step regex_writes]; unfold param_name; rewrite Hj; reflexivity.
Qed.

(** ** Witnesses *)

Local Open Scope string_scope.

Definition ex_doc : json :=
  JObj [("name", JStr "earlgrey");
        ("module", JList [
           JObj [("type", JStr "otp_ctrl"); ("name", JStr "otp_ctrl");
                 ("param_list", JList [
                    JObj [("name", JStr "RndCnstDigestInit"); ("default", JStr "0xCAFE")];
                    JObj [("name", JStr "RndCnstSramKeyInit"); ("default", JStr "42")];
                    JStr "junk"])];
           JObj [("type", JStr "rom_ctrl"); ("name", JStr "rom_ctrl0");
                 ("param_list", JList [
                    JObj [("name", JStr "RndCnstScrNonce"); ("default", JStr "0x12")]])];
           JObj [("type", JStr "rom_ctrl"); ("name", JStr "rom_ctrl1");
                 ("param_list", JList [
                    JObj [("name", JStr "RndCnstScrNonce"); ("default", JStr "0x56")]])];
           JObj [("type", JStr "rom_ctrl"); ("name", JStr "rom_ctrl01");
                 ("param_list", JList [
                    JObj [("name", JStr "RndCnstScrKey"); ("default", JStr "0x78")]])]])].

Definition ex_top : OtConfiguration :=
  match load_top_config ex_doc init_config with Ok c => c | Raise _ => init_config end.

Definition ex_param : list (string * json) :=
  [("name", JStr "RndCnstDigestInit"); ("default", JStr "0xCAFE")].

Lemma regex_writes_every_match_witness :
  regex_writes ex_param [Regex.otp_regex; Regex.otp_regex] =
  Ok (map (fun g => (PyStr.camel_to_snake_case g, strip_hex "0xCAFE"))
          (flat_map (fun rx => match Regex.re_match rx "RndCnstDigestInit" with
                               | Some g => [g] | None => [] end)
             [Regex.otp_regex; Regex.otp_regex])).
Proof. apply regex_writes_every_match; vm_compute; reflexivity. Defined.

Lemma regex_writes_no_default_witness :
  regex_writes [("name", JStr "RndCnstDigestInit"); ("default", JStr "")] [Regex.otp_regex] = Ok [].
Proof. apply (regex_writes_no_default _ _ "RndCnstDigestInit"); vm_compute; reflexivity. Defined.

Lemma module_index_leading_zero_witness :
  module_index (JStr (string_of_list_ascii
                        (list_ascii_of_string "rom_ctrl" ++ map PyStr.digit_char [0; 1]%nat))) =
  module_index (JStr (string_of_list_ascii
                        (list_ascii_of_string "rom_ctrl" ++ map PyStr.digit_char [1]%nat))).
Proof.
  apply module_index_leading_zero; [vm_compute; reflexivity | repeat constructor | discriminate].
Defined.

Lemma module_index_str_of_nat_witness :
  module_index (JStr (string_of_list_ascii (list_ascii_of_string "rom_ctrl") ++ PyStr.str_of_nat 12))
  = Ok (Some 12%Z).
Proof. apply module_index_str_of_nat. vm_compute. reflexivity. Defined.

Definition ex_bad_module : json :=
  JObj [("type", JStr "otp_ctrl"); ("name", JStr "otp_ctrl");
        ("param_list", JList [JObj [("default", JStr "0x1")]; JStr "junk"])].

Lemma load_module_missing_name_witness :
  load_module init_config ex_bad_module = Raise (KeyError "name").
Proof.
  apply (load_module_missing_name _ _ (JStr "otp_ctrl") [("default", JStr "0x1")] [JStr "junk"]);
    [left|..]; vm_compute; reflexivity.
Defined.

Lemma strip_hex_spec_witness :
  (PyStr.startswith "0xCAFE" "0x" = true -> ("0x" ++ strip_hex "0xCAFE")%string = "0xCAFE") /\
  (PyStr.startswith "0xCAFE" "0x" = false -> strip_hex "0xCAFE" = "0xCAFE").
Proof. exact (strip_hex_spec "0xCAFE"). Defined.

Lemma load_top_config_frame_witness :
  lc ex_top = lc init_config /\ lc_states ex_top = lc_states init_config /\
  lc_transitions ex_top = lc_transitions init_config /\
  socdbg ex_top = socdbg init_config /\ ownership ex_top = ownership init_config.
Proof. apply (load_top_config_frame ex_doc). vm_compute. reflexivity. Defined.

End TopConfig.
