(* ===== verification/Ini.v ===== *)
(** * The part of [configparser.ConfigParser] that [save] uses

    [save] (cfggen.py lines 131-145) builds a [ConfigParser()], assigns
    each section with [cfg[name] = data] and calls [cfg.write(fp)].  The
    library is an external collaborator; this file models, after
    CPython's [configparser.py] (3.12):
    - [__setitem__]: an existing section is cleared and keeps its place,
      a new one is appended; then [read_dict] folds each option name with
      [optionxform] ([str.lower]) and, in strict mode, raises
      [DuplicateOptionError] when two names of the same dict fold to the
      same option;
    - [BasicInterpolation.before_set]: a non-empty value that still holds
      a ['%'] once ['%%'] and the [%(name)s] references are removed raises
      [ValueError];
    - [write]: [[name]] headers, [key = value] lines with the newlines of
      a value followed by a tab, and a blank line after each section.
    The [DEFAULT] section is not modelled: every name the script assigns
    starts with [ot_device].  [read_options_ok] characterises when an
    assignment succeeds. *)

From Stdlib Require Import String Ascii List Bool Lia.
From S2P Require Import Prelude PyStr PyDict Regex.
Import ListNotations.

Module Ini.
Import PyDict.

(** The sections of a parser, in order, each with its options in order. *)
Definition parser := dict string (dict string string).

Definition empty_parser : parser := [].

Definition percent : ascii := "%"%char.

(** [value.replace('%%', '')] *)
Fixpoint remove_escaped (l : list ascii) : list ascii :=
  match l with
  | c :: ((d :: r) as l') =>
      if (c =? percent)%char && (d =? percent)%char then remove_escaped r
      else c :: remove_escaped l'
  | _ => l
  end.

(** A match of [%\(([^)]+)\)s] at the head of [l]: the rest after it. *)
Definition keycre_at (l : list ascii) : option (list ascii) :=
  match l with
  | c :: o :: rest =>
      if (c =? percent)%char && (o =? "(")%char then
        let '(name, after) := Regex.span (fun x => negb (x =? ")")%char) rest in
        match name, after with
        | _ :: _, p :: s :: after' =>
            if (p =? ")")%char && (s =? "s")%char then Some after' else None
        | _, _ => None
        end
      else None
  | _ => None
  end.

(** [_KEYCRE.sub('', value)]: each step consumes at least one character,
    so [length l] steps suffice. *)
Fixpoint keycre_sub (fuel : nat) (l : list ascii) : list ascii :=
  match fuel with
  | O => l
  | S fuel' =>
      match keycre_at l with
      | Some after => keycre_sub fuel' after
      | None =>
          match l with
          | [] => []
          | c :: l' => c :: keycre_sub fuel' l'
          end
      end
  end.

(** [BasicInterpolation.before_set], under [RawConfigParser.set]'s
    [if value:]. *)
Definition before_set (value : string) : res unit :=
  let l := list_ascii_of_string value in
  match l with
  | [] => Ok tt
  | _ =>
      let t := remove_escaped l in
      if existsb (fun c => (c =? percent)%char) (keycre_sub (length t) t)
      then Raise (ValueError "invalid interpolation syntax")
      else Ok tt
  end.

(** The option loop of [read_dict] for one section: fold the names,
    reject a name seen twice, check each value, [set] it. *)
Fixpoint read_options (section : string) (seen : list string)
  (opts : dict string string) (data : list (string * string))
  : res (dict string string) :=
  match data with
  | [] => Ok opts
  | (k, v) :: data' =>
      let key := PyStr.lower k in
      if existsb (String.eqb key) seen then Raise (DuplicateOptionError section key)
      else
        _ <- before_set v ;;
        read_options section (key :: seen) (dset opts key v) data'
  end.

(** [cfg[name] = data] *)
Definition setitem (cfg : parser) (name : string) (data : list (string * string))
  : res parser :=
  opts <- read_options name [] [] data ;;
  Ok (dset cfg name opts).

(** [cfg.write(fp)] *)
Definition newline_s : string := String (ascii_of_nat 10) EmptyString.
Definition tab_s : string := String (ascii_of_nat 9) EmptyString.

Fixpoint indent_newlines (s : string) : string :=
  match s with
  | EmptyString => EmptyString
  | String c s' =>
      if (c =? ascii_of_nat 10)%char then newline_s ++ tab_s ++ indent_newlines s'
      else String c (indent_newlines s')
  end.

Definition write_option (kv : string * string) : string :=
  fst kv ++ " = " ++ indent_newlines (snd kv) ++ newline_s.

Definition write_section (sec : string * dict string string) : string :=
  "[" ++ fst sec ++ "]" ++ newline_s ++
  String.concat "" (map write_option (snd sec)) ++ newline_s.

Definition write (cfg : parser) : string :=
  String.concat "" (map write_section cfg).

(** ** When [cfg[name] = data] succeeds *)

Lemma existsb_eqb_in k l : existsb (String.eqb k) l = true <-> In k l.
Proof.
  rewrite existsb_exists. split.
  - intros (x & Hx & E). apply String.eqb_eq in E. subst. exact Hx.
  - intros Hk. exists k. split; [exact Hk | apply String.eqb_refl].
Qed.

(** The option loop of [read_dict] stores a section exactly when the
    folded option names are pairwise distinct and new, and every value
    passes the interpolation check: anything else raises
    [DuplicateOptionError] or [ValueError]. *)
Lemma read_options_ok sec seen opts data :
  (exists o, read_options sec seen opts data = Ok o) <->
  NoDup (map (fun kv => PyStr.lower (fst kv)) data) /\
  Forall (fun kv => ~ In (PyStr.lower (fst kv)) seen) data /\
  Forall (fun kv => before_set (snd kv) = Ok tt) data.
Proof.
  revert seen opts. induction data as [|[k v] data IH]; intros seen opts; cbn [read_options].
  - split; [intros _; repeat constructor | eauto].
  - rewrite !Forall_cons_iff. cbn [map fst snd]. rewrite NoDup_cons_iff.
    destruct (existsb (String.eqb (PyStr.lower k)) seen) eqn:Hs.
    + apply existsb_eqb_in in Hs. split; [intros (o & E); discriminate E|].
      intros (_ & (Hn & _) & _). contradiction.
    + assert (Hs' : ~ In (PyStr.lower k) seen) by (rewrite <- existsb_eqb_in, Hs; discriminate).
      destruct (before_set v) as [[]|e]; cbn [bind];
        [|split; [intros (o & E); discriminate E | intros (_ & _ & E & _); discriminate E]].
      rewrite IH. split.
      * intros (Hnd & Hseen & Hb). rewrite Forall_forall in Hseen.
        split; [split; [|exact Hnd] | split; [split; [exact Hs'|] | split; [reflexivity | exact Hb]]].
        -- intros Hin. apply in_map_iff in Hin as (kv & E & Hkv).
           apply (Hseen kv Hkv). left. exact (eq_sym E).
        -- apply Forall_forall. intros kv Hkv Hin. apply (Hseen kv Hkv). right. exact Hin.
      * intros ((Hn & Hnd) & (_ & Hseen) & _ & Hb). split; [exact Hnd|]. split; [|exact Hb].
        rewrite Forall_forall in Hseen |- *. intros kv Hkv [E|Hin]; [|exact (Hseen kv Hkv Hin)].
        apply Hn, in_map_iff. exists kv. auto.
Qed.

End Ini.
