(* ===== verification/Generate.v ===== *)
(** * The renderer: [add_pair], [_generate_roms], [_generate_otp],
      [_generate_life_cycle] and [save] (cfggen.py lines 131-228)

    [save] assigns the ROM sections (one per bank and per SoC instance),
    the OTP section and the LifeCycle section of a fresh [ConfigParser]
    and writes it.  Each section's entries go through [add_pair], which
    drops empty values and quotes the others, and through Python's
    [sorted] on [(key, value)] tuples, modelled by the Standard Library's
    merge sort on the lexicographic order of the tuples (characters
    compared by code, as Python compares [str]); [sorted_unique] shows that
    any sort gives the same list, so the choice of algorithm does not
    matter.  With a SoC identifier and several instances every (instance,
    bank) pair has its own section ([generate_roms_socid]), so the parser
    has [n * banks + 2] sections ([save_parser_socid_sections]); without
    one the instances' sections overwrite each other
    ([save_no_socid_count]); a negative count writes no ROM section
    ([save_parser_negative_count]).  [parser_format] is the shape of every parser
    [save] builds ([save_parser_format]): sections named
    [ot_device "<name>"], options [  key] with quoted values, no name
    twice.  [generate_otp_lookup] and [generate_life_cycle_lookup] give
    the value the written OTP and LifeCycle sections hold under each
    key. *)

From Stdlib Require Import String Ascii List ZArith Bool Lia.
From Stdlib Require Import Sorted Permutation Mergesort Orders OrdersEx.
From Stdlib Require Finite.
From S2P Require Import Prelude PyStr PyDict Config Ini.
Import ListNotations.

Module Generate.
Import PyDict Config.
Local Open Scope string_scope.

(** ** Python's [sorted] on [(str, str)] tuples *)

Definition str_leb (a b : string) : bool :=
  match String_as_OT.compare a b with Gt => false | _ => true end.

Definition pair_leb (x y : string * string) : bool :=
  match String_as_OT.compare (fst x) (fst y) with
  | Lt => true
  | Gt => false
  | Eq => str_leb (snd x) (snd y)
  end.

Lemma str_lt_irrefl a : ~ String_as_OT.lt a a.
Proof. apply (StrictOrder_Irreflexive (R := String_as_OT.lt)). Qed.

Lemma str_lt_trans a b c :
  String_as_OT.lt a b -> String_as_OT.lt b c -> String_as_OT.lt a c.
Proof. apply (StrictOrder_Transitive (R := String_as_OT.lt)). Qed.

Lemma compare_antisym_str a b :
  String_as_OT.compare b a = CompOpp (String_as_OT.compare a b).
Proof.
  destruct (String_as_OT.compare_spec a b) as [E|H|H];
    destruct (String_as_OT.compare_spec b a) as [E'|H'|H']; try reflexivity;
    unfold String_as_OT.eq in *; subst; exfalso;
    solve [ eapply str_lt_irrefl; eassumption
          | eapply str_lt_irrefl; eapply str_lt_trans; eassumption ].
Qed.

Module PairOrder <: Orders.TotalLeBool.
Definition t : Type := (string * string)%type.
Definition leb := pair_leb.
Theorem leb_total : forall a1 a2, leb a1 a2 = true \/ leb a2 a1 = true.
Proof.
  intros [a b] [c d]. unfold leb, pair_leb, str_leb. cbn [fst snd].
  rewrite (compare_antisym_str a c), (compare_antisym_str b d).
  destruct (String_as_OT.compare a c), (String_as_OT.compare b d); cbn; auto.
Qed.
End PairOrder.

Module PairSort := Sort PairOrder.

(** [sorted(d.items())] *)
Definition py_sorted (l : list (string * string)) : list (string * string) :=
  PairSort.sort l.

Lemma str_lt_asym a b : String_as_OT.lt a b -> String_as_OT.lt b a -> False.
Proof. intros H1 H2. exact (str_lt_irrefl a (str_lt_trans _ _ _ H1 H2)). Qed.

Lemma str_leb_spec a b : str_leb a b = true <-> String_as_OT.lt a b \/ a = b.
Proof.
  unfold str_leb. destruct (String_as_OT.compare_spec a b) as [E|L|G];
    unfold String_as_OT.eq in *; split; intros Hx; subst; auto; try discriminate.
  exfalso. destruct Hx as [L|<-]; [exact (str_lt_asym _ _ G L) | exact (str_lt_irrefl _ G)].
Qed.

Lemma pair_leb_spec x y :
  pair_leb x y = true <->
  String_as_OT.lt (fst x) (fst y) \/ (fst x = fst y /\ str_leb (snd x) (snd y) = true).
Proof.
  unfold pair_leb. destruct (String_as_OT.compare_spec (fst x) (fst y)) as [E|L|G];
    unfold String_as_OT.eq in *; split; intros Hx; auto; try discriminate.
  - destruct Hx as [L|[_ Hx]]; [rewrite E in L; destruct (str_lt_irrefl _ L)|exact Hx].
  - exfalso. destruct Hx as [L|[E _]];
      [exact (str_lt_asym _ _ G L) | rewrite E in G; exact (str_lt_irrefl _ G)].
Qed.

Ltac pair_leb_cases :=
  repeat match goal with
  | H : pair_leb _ _ = true |- _ => apply pair_leb_spec in H
  | H : str_leb _ _ = true |- _ => apply str_leb_spec in H
  | |- pair_leb _ _ = true => apply pair_leb_spec
  | |- str_leb _ _ = true => apply str_leb_spec
  end; cbn [fst snd] in *.

Lemma pair_leb_trans : Transitive (fun x y => pair_leb x y = true).
Proof.
  unfold Transitive. intros [a b] [c d] [e f] H1 H2. pair_leb_cases.
  destruct H1 as [H1|[-> H1]], H2 as [H2|[-> H2]];
    [left; eauto using str_lt_trans | left; exact H1 | left; exact H2
    | right; split; [reflexivity|]].
  apply str_leb_spec. apply str_leb_spec in H1, H2.
  destruct H1 as [H1|H1], H2 as [H2|H2]; subst; eauto using str_lt_trans.
Qed.

Lemma pair_leb_antisym x y : pair_leb x y = true -> pair_leb y x = true -> x = y.
Proof.
  destruct x as [a b], y as [c d]. intros H1 H2. pair_leb_cases.
  destruct H1 as [H1|[-> H1]], H2 as [H2|[E H2]];
    try solve [ exfalso; eauto using str_lt_asym
              | exfalso; subst; eapply str_lt_irrefl; eassumption ].
  apply str_leb_spec in H1, H2. destruct H1 as [H1|H1], H2 as [H2|H2]; subst; auto.
  exfalso; eauto using str_lt_asym.
Qed.

(** Two strongly sorted permutations of each other under an antisymmetric
    relation are the same list. *)
Lemma sorted_unique {A} (R : A -> A -> Prop) :
  (forall x y, R x y -> R y x -> x = y) ->
  forall l1 l2, StronglySorted R l1 -> StronglySorted R l2 -> Permutation l1 l2 -> l1 = l2.
Proof.
  intros Hanti l1. induction l1 as [|a l1 IH]; intros l2 S1 S2 P.
  - symmetry. apply Permutation_nil, P.
  - destruct l2 as [|b l2]; [apply Permutation_sym, Permutation_nil in P; discriminate|].
    apply StronglySorted_inv in S1 as [S1 F1]. apply StronglySorted_inv in S2 as [S2 F2].
    assert (a = b) as <-.
    { assert (Ha : In a (b :: l2)) by (eapply Permutation_in; [exact P|left; auto]).
      assert (Hb : In b (a :: l1)) by (eapply Permutation_in; [symmetry; exact P|left; auto]).
      destruct Ha as [|Ha]; [auto|]. destruct Hb as [|Hb]; [auto|].
      rewrite Forall_forall in F1, F2. auto. }
    f_equal. apply IH; auto. eapply Permutation_cons_inv; exact P.
Qed.

(** ** Rendering *)

Definition dq : string := String (ascii_of_nat 34) EmptyString.

(** [OtConfiguration.add_pair]: [if value: data[f'  {kname}'] = f'"{value}"'] *)
Definition add_pair (data : dict string string) (kname value : string)
  : dict string string :=
  if String.eqb value "" then data
  else dset data ("  " ++ kname) (dq ++ value ++ dq).

Definition add_pairs (data : dict string string) (kvs : list (string * string))
  : dict string string :=
  fold_left (fun d kv => add_pair d (fst kv) (snd kv)) kvs data.

Definition section_name (name : string) : string := "ot_device " ++ dq ++ name ++ dq.

(** [if socid:] on an [Optional[str]] *)
Definition socid_part (socid : option string) (suffix : list string) : list string :=
  match socid with
  | Some s => if String.eqb s "" then [] else suffix
  | None => []
  end.

(** The ROM section name of bank [rom] for SoC instance [cnt]. *)
Definition rom_name (socid : option string) (count cnt : Z) (rom : option Z) : string :=
  PyStr.join_dot
    (app ["ot-rom_ctrl"]
     (app (socid_part socid [match socid with
                             | Some s => if (count >? 1)%Z then s ++ PyStr.str_of_Z cnt else s
                             | None => ""
                             end])
      (match rom with Some r => ["rom" ++ PyStr.str_of_Z r] | None => [] end))).

(** [range(count)] *)
Definition py_range (count : Z) : list Z := map Z.of_nat (seq 0 (Z.to_nat count)).

(** One ROM section: [romdata] from the sorted items, then [cfg[...] = romdata]. *)
Definition rom_section (socid : option string) (count cnt : Z) (cfg : Ini.parser)
  (rd : option Z * dict string string) : res Ini.parser :=
  Ini.setitem cfg (section_name (rom_name socid count cnt (fst rd)))
    (add_pairs [] (py_sorted (snd rd))).

(** The name and the options [rom_section] stores. *)
Definition rom_entry (socid : option string) (count cnt : Z)
  (rd : option Z * dict string string) : res (string * dict string string) :=
  let name := section_name (rom_name socid count cnt (fst rd)) in
  opts <- Ini.read_options name [] [] (add_pairs [] (py_sorted (snd rd))) ;;
  Ok (name, opts).

Definition generate_roms (cfg : Ini.parser) (roms : dict (option Z) (dict string string))
  (socid : option string) (count : Z) : res Ini.parser :=
  foldM (fun cfg cnt => foldM (rom_section socid count cnt) roms cfg) (py_range count) cfg.

(** [otpname] *)
Definition otp_name (variant : string) (socid : option string) : string :=
  PyStr.join_dot (("ot-otp-" ++ variant) :: socid_part socid
                   [match socid with Some s => s | None => "" end]).

Definition generate_otp (cfg : Ini.parser) (otp : dict string string)
  (variant : string) (socid : option string) : res Ini.parser :=
  Ini.setitem cfg (section_name (otp_name variant socid)) (py_sorted (add_pairs [] otp)).

(** The eight range entries that precede the tokens. *)
Definition lc_range_pairs (c : OtConfiguration) : list (string * string) :=
  [("lc_state_first", fst (lc_states c)); ("lc_state_last", snd (lc_states c));
   ("lc_trscnt_first", fst (lc_transitions c)); ("lc_trscnt_last", snd (lc_transitions c));
   ("ownership_first", fst (ownership c)); ("ownership_last", snd (ownership c));
   ("socdbg_first", fst (socdbg c)); ("socdbg_last", snd (socdbg c))].

(** [lcname] *)
Definition lc_name (socid : option string) : string :=
  PyStr.join_dot ("ot-lc_ctrl" :: socid_part socid
                   [match socid with Some s => s | None => "" end]).

Definition generate_life_cycle (cfg : Ini.parser) (c : OtConfiguration)
  (socid : option string) : res Ini.parser :=
  let lcdata := add_pairs (add_pairs [] (lc_range_pairs c)) (lc c) in
  Ini.setitem cfg (section_name (lc_name socid)) (py_sorted lcdata).

(** [count or 1] *)
Definition count_or_1 (count : Z) : Z := if (count =? 0)%Z then 1%Z else count.

(** The parser [save] builds. *)
Definition save_parser (c : OtConfiguration) (variant : string)
  (socid : option string) (count : Z) : res Ini.parser :=
  cfg1 <- generate_roms Ini.empty_parser (roms c) socid (count_or_1 count) ;;
  cfg2 <- generate_otp cfg1 (otp c) variant socid ;;
  generate_life_cycle cfg2 c socid.

(** [save]: the text written to [outpath] or to the standard output. *)
Definition save (c : OtConfiguration) (variant : string) (socid : option string)
  (count : Z) : res string :=
  cfg <- save_parser c variant socid count ;; Ok (Ini.write cfg).

(** ** Sections and their entries *)

Lemma dget_add_pair d k v key :
  dget (add_pair d k v) key =
  if String.eqb v "" then dget d key
  else if eqb key ("  " ++ k) then Some (dq ++ v ++ dq) else dget d key.
Proof.
  unfold add_pair. destruct (String.eqb v ""); [reflexivity|].
  destruct (eqb_spec key ("  " ++ k)) as [->|Hne];
    [apply dget_dset_eq | apply dget_dset_ne, Hne].
Qed.

Lemma concat_cons_prefix sep x r : exists t, String.concat sep (x :: r) = x ++ t.
Proof.
  destruct r as [|y r]; cbn; [|eexists; reflexivity].
  exists "". induction x as [|c x IH]; cbn; congruence.
Qed.

Lemma otp_lc_names_differ v s : section_name (lc_name s) <> section_name (otp_name v s).
Proof.
  unfold section_name, lc_name, otp_name, PyStr.join_dot.
  destruct (concat_cons_prefix "." "ot-lc_ctrl" (socid_part s [match s with Some x => x | None => "" end])) as (t & ->).
  destruct (concat_cons_prefix "." ("ot-otp-" ++ v) (socid_part s [match s with Some x => x | None => "" end])) as (t' & ->).
  unfold dq. cbn [append]. congruence.
Qed.

Lemma generate_roms_nil cfg socid n : generate_roms cfg [] socid n = Ok cfg.
Proof. unfold generate_roms. induction (py_range n); cbn; auto. Qed.

Lemma setitem_ok cfg name data cfg' :
  Ini.setitem cfg name data = Ok cfg' -> exists opts, cfg' = dset cfg name opts.
Proof. unfold Ini.setitem. intros Hrun. inv_run. eauto. Qed.

Lemma section_name_inj a b : section_name a = section_name b -> a = b.
Proof.
  unfold section_name, dq. cbn [append]. intros E. injection E as E.
  exact (PyStr.append_cancel_r _ _ _ E).
Qed.

(** Without a SoC identifier, distinct banks have distinct section names
    (and the instance number is not part of the name). *)
Lemma rom_name_no_socid_inj r r' : rom_name None 1 0 r = rom_name None 1 0 r' -> r = r'.
Proof.
  unfold rom_name, PyStr.join_dot.
  destruct r as [r|], r' as [r'|]; cbn; intros E; try discriminate; [|reflexivity].
  injection E as E. f_equal. apply PyStr.str_of_Z_inj, E.
Qed.

(** A pass of the inner loop is the entries' names and options, then the
    stores. *)
Lemma rom_pass socid count cnt roms cfg :
  foldM (rom_section socid count cnt) roms cfg =
  match mapM (rom_entry socid count cnt) roms with
  | Ok ws => Ok (dupdate cfg ws)
  | Raise e => Raise e
  end.
Proof.
  rewrite (foldM_mapM _ (rom_entry socid count cnt) (fun d kv => dset d (fst kv) (snd kv)));
    [reflexivity|].
  intros b [r d]. unfold rom_section, rom_entry, Ini.setitem. cbn [fst snd].
  destruct (Ini.read_options _ _ _ _); reflexivity.
Qed.

Lemma rom_entries_wf roms ws :
  dict_wf roms -> mapM (rom_entry None 1 0) roms = Ok ws -> dict_wf ws.
Proof.
  intros Hwf Hm. unfold dict_wf, dkeys.
  rewrite (mapM_ok_map (rom_entry None 1 0) fst (fun rd => section_name (rom_name None 1 0 (fst rd))) roms ws);
    [|unfold rom_entry; intros x y Hx; inv_run; subst; reflexivity | exact Hm].
  rewrite <- (map_map fst (fun r => section_name (rom_name None 1 0 r))).
  apply Finite.Injective_map_NoDup; [|exact Hwf].
  intros r r' E. apply rom_name_no_socid_inj, section_name_inj, E.
Qed.

Lemma py_range_pos n : (1 <= n)%Z -> exists l, py_range n = 0%Z :: l.
Proof.
  intros Hn. unfold py_range. destruct (Z.to_nat n) as [|m] eqn:E; [lia|].
  cbn. eauto.
Qed.

Lemma generate_roms_no_socid cfg roms n :
  dict_wf roms -> (1 <= n)%Z -> generate_roms cfg roms None n = generate_roms cfg roms None 1.
Proof.
  intros Hwf Hn. unfold generate_roms.
  assert (Hp : forall count l cfg0,
    foldM (fun cfg cnt => foldM (rom_section None count cnt) roms cfg) l cfg0 =
    foldM (fun b _ => match mapM (rom_entry None 1 0) roms with
                      | Ok ws => Ok (dupdate b ws) | Raise e => Raise e end) l cfg0).
  { intros count l cfg0. apply foldM_ext. intros b cnt. rewrite rom_pass. reflexivity. }
  rewrite !Hp. destruct (py_range_pos n Hn) as (l & ->).
  change (py_range 1) with [0%Z].
  destruct (mapM (rom_entry None 1 0) roms) as [ws|e] eqn:Hm; [|reflexivity].
  rewrite !foldM_idem; [reflexivity| |];
    intros b; apply dupdate_idem, (rom_entries_wf roms); assumption.
Qed.

(** ** Several SoC instances *)

Lemma string_app_assoc a b c : ((a ++ b) ++ c = a ++ (b ++ c))%string.
Proof. induction a as [|x a IH]; cbn; congruence. Qed.

Lemma string_app_nil_r a : (a ++ "")%string = a.
Proof. induction a as [|x a IH]; cbn; congruence. Qed.

(** With a SoC identifier and more than one instance, a ROM section name is
    a fixed prefix, the instance number, then the bank suffix. *)
Lemma rom_name_socid s n cnt rom :
  s <> EmptyString -> (1 < n)%Z ->
  rom_name (Some s) n cnt rom =
  (("ot-rom_ctrl" ++ "." ++ s) ++
   (PyStr.str_of_Z cnt ++ match rom with
                          | Some r => "." ++ ("rom" ++ PyStr.str_of_Z r)
                          | None => ""
                          end))%string.
Proof.
  intros Hs Hn. unfold rom_name, socid_part, PyStr.join_dot.
  destruct (String.eqb_spec s "") as [E|_]; [contradiction|].
  replace (n >? 1)%Z with true by lia.
  destruct rom as [r|]; cbn [app String.concat];
    rewrite ?string_app_nil_r, !string_app_assoc; reflexivity.
Qed.

Lemma rom_name_socid_inj s n c c' r r' :
  s <> EmptyString -> (1 < n)%Z ->
  rom_name (Some s) n c r = rom_name (Some s) n c' r' -> c = c' /\ r = r'.
Proof.
  intros Hs Hn. rewrite !rom_name_socid by assumption. intros E.
  apply PyStr.append_cancel_l in E.
  assert (Ht : forall o, PyStr.dot_head
            match o with Some r => "." ++ ("rom" ++ PyStr.str_of_Z r) | None => "" end%string).
  { intros [x|]; [right; eexists; reflexivity | left; reflexivity]. }
  destruct (PyStr.split_at_dot _ _ _ _ (PyStr.no_dot_str_of_Z c) (PyStr.no_dot_str_of_Z c')
              (Ht r) (Ht r') E) as [Ec Er].
  split; [exact (PyStr.str_of_Z_inj _ _ Ec)|].
  destruct r as [x|], r' as [x'|]; cbn in Er; try discriminate; [|reflexivity].
  injection Er as Er. f_equal. exact (PyStr.str_of_Z_inj _ _ Er).
Qed.

(** The instance loop: each pass computes its entries, then stores them. *)
Lemma generate_roms_entries roms socid n l acc p :
  foldM (fun cfg cnt => foldM (rom_section socid n cnt) roms cfg) l acc = Ok p ->
  exists wss, Forall2 (fun cnt ws => mapM (rom_entry socid n cnt) roms = Ok ws) l wss /\
              p = dupdate acc (concat wss).
Proof.
  revert acc. induction l as [|cnt l IH]; cbn [foldM]; intros acc H.
  - injection H as <-. exists []. split; [constructor | reflexivity].
  - rewrite rom_pass in H. destruct (mapM (rom_entry socid n cnt) roms) as [ws|e] eqn:Hm;
      [|discriminate]. cbn [bind] in H.
    destruct (IH _ H) as (wss & HF & ->). exists (ws :: wss).
    split; [constructor; assumption|]. unfold dupdate. cbn [concat].
    rewrite fold_left_app. reflexivity.
Qed.

Lemma NoDup_flat_map {A B} (f : A -> list B) l :
  NoDup l -> (forall x, In x l -> NoDup (f x)) ->
  (forall x y b, In x l -> In y l -> In b (f x) -> In b (f y) -> x = y) ->
  NoDup (flat_map f l).
Proof.
  induction l as [|x l IH]; cbn; intros Hl Hf Hxy; [constructor|].
  inversion Hl as [|? ? Hx Hl']; subst.
  apply NoDup_app; [auto | apply IH; auto; intros y z b Hy Hz; apply Hxy; auto |].
  intros b Hb Hin. apply in_flat_map in Hin as (y & Hy & Hb').
  apply Hx. rewrite (Hxy x y b); auto.
Qed.

(** The names of the entries of every pass of the instance loop. *)
Lemma rom_entries_keys (roms : dict (option Z) (dict string string)) socid n l wss :
  Forall2 (fun cnt ws => mapM (rom_entry socid n cnt) roms = Ok ws) l wss ->
  map fst (concat wss) =
  flat_map (fun cnt => map (fun rd => section_name (rom_name socid n cnt (fst rd))) roms) l.
Proof.
  induction 1 as [|cnt ws l wss Hm _ IH]; [reflexivity|].
  cbn [concat flat_map]. rewrite map_app, IH. f_equal.
  apply (mapM_ok_map (rom_entry socid n cnt)); [|exact Hm].
  unfold rom_entry. intros x y Hx. inv_run. subst. reflexivity.
Qed.

(** With a SoC identifier and [n > 1], the (instance, bank) section names
    are pairwise distinct. *)
Lemma socid_rom_names_nodup (roms : dict (option Z) (dict string string)) s n :
  dict_wf roms -> s <> EmptyString -> (1 < n)%Z ->
  NoDup (flat_map (fun cnt => map (fun rd => section_name (rom_name (Some s) n cnt (fst rd)))
                                  roms) (py_range n)).
Proof.
  intros Hwf Hs Hn. apply NoDup_flat_map.
  - unfold py_range. apply Finite.Injective_map_NoDup; [intros x y; lia | apply seq_NoDup].
  - intros cnt _. rewrite <- (map_map fst (fun r => section_name (rom_name (Some s) n cnt r))).
    apply Finite.Injective_map_NoDup; [|exact Hwf].
    intros r r' E. apply section_name_inj in E.
    exact (proj2 (rom_name_socid_inj _ _ _ _ _ _ Hs Hn E)).
  - intros x y b _ _ Hx Hy. apply in_map_iff in Hx as (rx & <- & _).
    apply in_map_iff in Hy as (ry & E & _). apply section_name_inj in E.
    symmetry. exact (proj1 (rom_name_socid_inj _ _ _ _ _ _ Hs Hn E)).
Qed.

Lemma length_flat_map_const {A B C} (g : A -> B -> C) (l : list A) (m : list B) :
  length (flat_map (fun x => map (g x) m) l) = (length l * length m)%nat.
Proof. induction l as [|x l IH]; cbn; [reflexivity|]. rewrite length_app, length_map, IH. lia. Qed.

Lemma length_py_range n : length (py_range n) = Z.to_nat n.
Proof. unfold py_range. rewrite length_map, length_seq. reflexivity. Qed.

(** Rewrite both sides of a [join_dot] equation to their first part. *)
Ltac concat_heads E :=
  match type of E with
  | String.concat ?sep (?x :: ?r) = String.concat ?sep' (?y :: ?q) =>
      let t1 := fresh "t" in let t2 := fresh "t" in
      let E1 := fresh "E" in let E2 := fresh "E" in
      destruct (concat_cons_prefix sep x r) as (t1 & E1);
      destruct (concat_cons_prefix sep' y q) as (t2 & E2);
      rewrite E1, E2 in E
  end.

(** A ROM section is never named like the OTP or the LifeCycle section:
    the names differ at their fourth character. *)
Lemma rom_name_not_otp socid n cnt rom v socid' : rom_name socid n cnt rom <> otp_name v socid'.
Proof.
  unfold rom_name, otp_name, PyStr.join_dot. cbn [app]. intros E.
  concat_heads E. discriminate E.
Qed.

Lemma rom_name_not_lc socid n cnt rom socid' : rom_name socid n cnt rom <> lc_name socid'.
Proof.
  unfold rom_name, lc_name, PyStr.join_dot. cbn [app]. intros E.
  concat_heads E. discriminate E.
Qed.

Lemma in_rom_names socid n (roms : dict (option Z) (dict string string)) l x :
  In x (flat_map (fun cnt => map (fun rd => section_name (rom_name socid n cnt (fst rd))) roms) l) ->
  exists cnt rom, x = section_name (rom_name socid n cnt rom).
Proof.
  intros Hin. apply in_flat_map in Hin as (cnt & _ & Hin).
  apply in_map_iff in Hin as (rd & <- & _). eauto.
Qed.

(** ** Sorting *)

(** [sorted] on the items of a section: [py_sorted] returns a
    permutation of its argument, sorted by the tuple order, and it is the
    only such list, so that the output does not depend on the sorting
    algorithm. *)
Lemma py_sorted_spec l :
  Permutation l (py_sorted l) /\
  StronglySorted (fun x y => pair_leb x y = true) (py_sorted l) /\
  forall s, Permutation l s -> StronglySorted (fun x y => pair_leb x y = true) s ->
            s = py_sorted l.
Proof.
  assert (Hs : StronglySorted (fun x y => pair_leb x y = true) (py_sorted l))
    by exact (PairSort.StronglySorted_sort l pair_leb_trans).
  split; [apply PairSort.Permuted_sort|]. split; [exact Hs|].
  intros s P S. apply (sorted_unique _ pair_leb_antisym); auto.
  rewrite <- P. apply PairSort.Permuted_sort.
Qed.

(** The entry of key ["  k"] after [add_pair] on every item. *)
Lemma add_pairs_dget d kvs k :
  NoDup (map fst kvs) ->
  dget (add_pairs d kvs) ("  " ++ k) =
  match dget kvs k with
  | Some v => if String.eqb v "" then dget d ("  " ++ k) else Some (dq ++ v ++ dq)
  | None => dget d ("  " ++ k)
  end.
Proof.
  revert d. induction kvs as [|[k' v'] kvs IH]; intros d Hnd; [reflexivity|].
  inversion Hnd as [|? ? Hn Hnd']; subst. cbn [add_pairs fold_left fst snd].
  fold (add_pairs (add_pair d k' v') kvs). rewrite IH by exact Hnd'.
  cbn [dget]. rewrite !dget_add_pair.
  destruct (eqb_spec k k') as [->|Hne].
  - rewrite dget_none by exact Hn. rewrite eqb_refl.
    destruct (String.eqb v' ""); reflexivity.
  - rewrite (eqb_false ("  " ++ k) ("  " ++ k')) by (cbn; congruence).
    destruct (dget kvs k) as [v|]; [|destruct (String.eqb v' ""); reflexivity].
    destruct (String.eqb v ""), (String.eqb v' ""); reflexivity.
Qed.


(** C27: [add_pair] on every item of a dict: the entry of key [k] is
    written under ["  k"], quoted, unless its value is empty, in which
    case the section keeps what it had. *)
Theorem add_pairs_lookup d kvs k :
  NoDup (map fst kvs) ->
  dget (add_pairs d kvs) ("  " ++ k) =
  match dget kvs k with
  | Some v => if String.eqb v "" then dget d ("  " ++ k) else Some (dq ++ v ++ dq)
  | None => dget d ("  " ++ k)
  end.
Proof. apply add_pairs_dget. Qed.

(** C9: Without a SoC identifier, [save] with a count of [n] instances
    writes the same file as with one: the ROM sections of the instances
    share their names, and each instance's sections overwrite the
    previous one's. *)
Theorem save_no_socid_count c variant n :
  dict_wf (roms c) -> (0 <= n)%Z -> save c variant None n = save c variant None 1.
Proof.
  intros Hwf Hn. unfold save, save_parser.
  rewrite (generate_roms_no_socid _ _ (count_or_1 n)); [reflexivity|exact Hwf|].
  unfold count_or_1. destruct (Z.eqb_spec n 0); lia.
Qed.

(** C10: With a SoC identifier and [n > 1] instances, [_generate_roms]
    writes one section per instance and per bank, instance by instance and
    bank by bank, all with distinct names. *)
Theorem generate_roms_socid roms s n p :
  dict_wf roms -> s <> EmptyString -> (1 < n)%Z ->
  generate_roms Ini.empty_parser roms (Some s) n = Ok p ->
  map fst p = flat_map (fun cnt => map (fun rd => section_name (rom_name (Some s) n cnt (fst rd)))
                                       roms) (py_range n) /\
  NoDup (map fst p).
Proof.
  intros Hwf Hs Hn H. destruct (generate_roms_entries _ _ _ _ _ _ H) as (wss & HF & ->).
  pose proof (rom_entries_keys _ _ _ _ _ HF) as Hk.
  pose proof (socid_rom_names_nodup _ _ _ Hwf Hs Hn) as Hnd. rewrite <- Hk in Hnd.
  rewrite dupdate_fresh by exact Hnd. split; assumption.
Qed.

(** C14: With a SoC identifier and [n > 1] instances, the file [save]
    writes has exactly [n] times as many ROM sections as there are ROM
    banks, plus the OTP and the LifeCycle sections. *)
Theorem save_parser_socid_sections c variant s n p :
  dict_wf (roms c) -> s <> EmptyString -> (1 < n)%Z ->
  save_parser c variant (Some s) n = Ok p ->
  length p = (Z.to_nat n * length (roms c) + 2)%nat.
Proof.
  intros Hwf Hs Hn Hrun. unfold save_parser, generate_otp, generate_life_cycle in Hrun.
  replace (count_or_1 n) with n in Hrun by (unfold count_or_1; destruct (Z.eqb_spec n 0); lia).
  inv_run. apply setitem_ok in Ha0 as (o1 & ->). apply setitem_ok in Hrun as (o2 & ->).
  destruct (generate_roms_entries _ _ _ _ _ _ Ha) as (wss & HF & ->).
  pose proof (rom_entries_keys _ _ _ _ _ HF) as Hk.
  pose proof (socid_rom_names_nodup _ _ _ Hwf Hs Hn) as Hnd. rewrite <- Hk in Hnd.
  rewrite dupdate_fresh by exact Hnd. cbn [Ini.empty_parser app].
  assert (Hrom : forall x, In x (dkeys (concat wss)) ->
            x <> section_name (otp_name variant (Some s)) /\ x <> section_name (lc_name (Some s))).
  { unfold dkeys. rewrite Hk. intros x Hin. destruct (in_rom_names _ _ _ _ _ Hin) as (cnt & rom & ->).
    split; intros E; apply section_name_inj in E;
      [exact (rom_name_not_otp _ _ _ _ _ _ E) | exact (rom_name_not_lc _ _ _ _ _ E)]. }
  rewrite (dset_notin_app (concat wss) (section_name (otp_name variant (Some s))))
    by (intros Hin; exact (proj1 (Hrom _ Hin) eq_refl)).
  rewrite dset_notin_app.
  - rewrite !length_app, <- (length_map fst (concat wss)), Hk, length_flat_map_const,
      length_py_range. cbn. lia.
  - unfold dkeys. rewrite map_app, in_app_iff. intros [Hin|[E|[]]].
    + exact (proj2 (Hrom _ Hin) eq_refl).
    + exact (otp_lc_names_differ _ _ (eq_sym E)).
Qed.

Lemma Forall_py_sorted_iff (P : string * string -> Prop) l :
  Forall P (py_sorted l) <-> Forall P l.
Proof.
  rewrite !Forall_forall. pose proof (PairSort.Permuted_sort l) as Hp.
  split; intros H x Hx; apply H; [apply (Permutation_in _ Hp) | apply (Permutation_in _ (Permutation_sym Hp))];
    exact Hx.
Qed.

(** Assigning the OTP section succeeds exactly when no two of its
    option names fold to the same lower-case name and every quoted value
    passes [ConfigParser]'s interpolation check; otherwise [save] raises
    [DuplicateOptionError] or [ValueError]. *)
Lemma generate_otp_ok cfg otp variant socid :
  (exists p, generate_otp cfg otp variant socid = Ok p) <->
  NoDup (map (fun kv => PyStr.lower (fst kv)) (add_pairs [] otp)) /\
  Forall (fun kv => Ini.before_set (snd kv) = Ok tt) (add_pairs [] otp).
Proof.
  unfold generate_otp, Ini.setitem.
  assert (Hp := PairSort.Permuted_sort (add_pairs [] otp)).
  transitivity (exists o, Ini.read_options (section_name (otp_name variant socid)) [] []
                          (py_sorted (add_pairs [] otp)) = Ok o).
  { split; intros (x & Hx); [|exists (dset cfg (section_name (otp_name variant socid)) x)];
      [destruct (Ini.read_options _ _ _ _) as [o|e]; [exists o; reflexivity | discriminate] |].
    rewrite Hx. reflexivity. }
  rewrite Ini.read_options_ok, !Forall_py_sorted_iff.
  split.
  - intros (Hnd & _ & Hb). split; [|exact Hb].
    eapply Permutation_NoDup; [apply Permutation_map, Permutation_sym, Hp | exact Hnd].
  - intros (Hnd & Hb). split; [|split; [apply Forall_forall; intros _ _ [] | exact Hb]].
    eapply Permutation_NoDup; [apply Permutation_map, Hp | exact Hnd].
Qed.

(** When the ROM pass leaves the parser empty, [save] builds exactly two
    sections, the OTP one then the LifeCycle one. *)
Lemma save_parser_rom_free c variant socid count p :
  generate_roms Ini.empty_parser (roms c) socid (count_or_1 count) = Ok Ini.empty_parser ->
  save_parser c variant socid count = Ok p ->
  map fst p = [section_name (otp_name variant socid); section_name (lc_name socid)].
Proof.
  intros Hr Hrun. unfold save_parser in Hrun. rewrite Hr in Hrun.
  cbn [bind] in Hrun. inv_run. unfold generate_otp, generate_life_cycle in *.
  apply setitem_ok in Ha as (o1 & ->). apply setitem_ok in Hrun as (o2 & ->).
  cbn [dset Ini.empty_parser]. rewrite eqb_false by apply otp_lc_names_differ.
  reflexivity.
Qed.

(** The parser [save] builds from a configuration without ROM banks has
    exactly two sections, the OTP one then the LifeCycle one. *)
Lemma save_parser_no_roms c variant socid count p :
  roms c = [] -> save_parser c variant socid count = Ok p ->
  map fst p = [section_name (otp_name variant socid); section_name (lc_name socid)].
Proof. intros Hr. apply save_parser_rom_free. rewrite Hr. apply generate_roms_nil. Qed.

(** [range(n)] is empty when [n <= 0]. *)
Lemma py_range_nonpos n : (n <= 0)%Z -> py_range n = [].
Proof. intros Hn. unfold py_range. replace (Z.to_nat n) with 0%nat by lia. reflexivity. Qed.

Lemma generate_roms_nonpos cfg roms socid n :
  (n <= 0)%Z -> generate_roms cfg roms socid n = Ok cfg.
Proof. intros Hn. unfold generate_roms. rewrite py_range_nonpos by exact Hn. reflexivity. Qed.

(** C20: A negative instance count passes [count or 1] unchanged and
    [range(count)] is empty: [save] writes no ROM section at all, only
    the OTP and LifeCycle sections, whatever the ROM banks. *)
Theorem save_parser_negative_count c variant socid n p :
  (n < 0)%Z -> save_parser c variant socid n = Ok p ->
  map fst p = [section_name (otp_name variant socid); section_name (lc_name socid)].
Proof.
  intros Hn. apply save_parser_rom_free. apply generate_roms_nonpos.
  unfold count_or_1. destruct (Z.eqb_spec n 0); lia.
Qed.

(** ** The shape of the written file

    Every option [save] stores is [add_pair]'s: the key indented by two
    spaces, the value between double quotes; every section is named
    [ot_device "<name>"]. *)

Definition option_format (kv : string * string) : Prop :=
  exists name value, fst kv = "  " ++ name /\ snd kv = dq ++ value ++ dq.

Definition section_format (sec : string * dict string string) : Prop :=
  (exists name, fst sec = section_name name) /\ dict_wf (snd sec) /\
  Forall option_format (snd sec).

Definition parser_format (p : Ini.parser) : Prop := dict_wf p /\ Forall section_format p.

Lemma lower_indented n : PyStr.lower ("  " ++ n) = "  " ++ PyStr.lower n.
Proof. reflexivity. Qed.

(** A property of every entry that [add_pair]'s new entries have. *)
Lemma add_pairs_forall (P : string * string -> Prop) d kvs :
  Forall P d -> (forall k v, P ("  " ++ k, dq ++ v ++ dq)) -> Forall P (add_pairs d kvs).
Proof.
  unfold add_pairs. intros Hd Hnew. revert d Hd.
  induction kvs as [|[k v] kvs IH]; intros d Hd; cbn; [exact Hd|].
  apply IH. unfold add_pair. destruct (String.eqb v ""); [exact Hd|].
  apply dset_forall; [exact Hd | apply Hnew].
Qed.

Lemma add_pairs_format d kvs :
  Forall option_format d -> Forall option_format (add_pairs d kvs).
Proof. intros Hd. apply add_pairs_forall; [exact Hd|]. intros k v. exists k, v. split; reflexivity. Qed.

Lemma add_pairs_wf d kvs : dict_wf d -> dict_wf (add_pairs d kvs).
Proof.
  unfold add_pairs. revert d. induction kvs as [|[k v] kvs IH]; intros d Hd; cbn; [exact Hd|].
  apply IH. unfold add_pair. destruct (String.eqb v ""); [exact Hd | apply dset_wf, Hd].
Qed.

Lemma py_sorted_forall (P : string * string -> Prop) l :
  Forall P l -> Forall P (py_sorted l).
Proof.
  rewrite !Forall_forall. intros Hl x Hx. apply Hl.
  apply (Permutation_in _ (Permutation_sym (PairSort.Permuted_sort l)) Hx).
Qed.

Lemma read_options_format sec seen opts data o :
  Forall option_format data -> Forall option_format opts -> dict_wf opts ->
  Ini.read_options sec seen opts data = Ok o ->
  Forall option_format o /\ dict_wf o.
Proof.
  revert seen opts. induction data as [|[k v] data IH]; intros seen opts Hd Ho Hwf Hrun;
    cbn [Ini.read_options] in Hrun.
  - injection Hrun as <-. auto.
  - destruct (existsb _ seen); [discriminate|]. inv_run.
    inversion Hd as [|? ? (n & value & Hk & Hv) Hd']; subst. cbn in Hk, Hv; subst.
    eapply IH; [exact Hd' | | apply dset_wf, Hwf | exact Hrun].
    apply dset_forall; [exact Ho|]. exists (PyStr.lower n), value. split; reflexivity.
Qed.

Lemma setitem_format cfg n data cfg' :
  parser_format cfg -> Forall option_format data ->
  Ini.setitem cfg (section_name n) data = Ok cfg' -> parser_format cfg'.
Proof.
  intros [Hwf Hf] Hd Hrun. unfold Ini.setitem in Hrun. inv_run. subst.
  destruct (read_options_format _ _ _ _ _ Hd (Forall_nil _) (NoDup_nil _) Ha) as [Ho Hwo].
  split; [apply dset_wf, Hwf|]. apply dset_forall; [exact Hf|].
  split; [exists n; reflexivity | auto].
Qed.

Lemma generate_roms_format cfg roms socid n cfg' :
  parser_format cfg -> generate_roms cfg roms socid n = Ok cfg' -> parser_format cfg'.
Proof.
  unfold generate_roms. apply foldM_invariant. intros b cnt b' Hb.
  apply foldM_invariant; [|exact Hb]. intros b0 rd b0' Hb0.
  apply setitem_format; [exact Hb0|]. apply add_pairs_format. constructor.
Qed.

(** C13: Every section of the parser [save] builds is named
    [ot_device "<name>"], no section and no option occurs twice, and every
    option is a key indented by two spaces with a value between double
    quotes. *)
Theorem save_parser_format c variant socid count p :
  save_parser c variant socid count = Ok p -> parser_format p.
Proof.
  unfold save_parser, generate_otp, generate_life_cycle. intros Hrun. inv_run.
  eapply setitem_format; [| |exact Hrun].
  - eapply setitem_format; [| |exact Ha0].
    + eapply generate_roms_format; [|exact Ha]. split; constructor.
    + apply py_sorted_forall, add_pairs_format. constructor.
  - apply py_sorted_forall, add_pairs_format, add_pairs_format. constructor.
Qed.

(** ** What a section holds

    [cfg[name] = data] with lower-case keys stores the items of [data] as
    they are; after [dict(sorted(...))] the lookups are those of the
    unsorted dict. *)

Definition lower_keys (d : dict string string) : Prop :=
  Forall (fun kv => PyStr.lower (fst kv) = fst kv) d.

Lemma read_options_fold sec seen opts data o :
  Ini.read_options sec seen opts data = Ok o ->
  o = fold_left (fun d kv => dset d (PyStr.lower (fst kv)) (snd kv)) data opts.
Proof.
  revert seen opts. induction data as [|[k v] data IH]; intros seen opts Hrun;
    cbn [Ini.read_options] in Hrun.
  - injection Hrun as <-. reflexivity.
  - destruct (existsb _ seen); [discriminate|]. inv_run. exact (IH _ _ Hrun).
Qed.

Lemma fold_lower_keys data d0 :
  lower_keys data ->
  fold_left (fun d kv => dset d (PyStr.lower (fst kv)) (snd kv)) data d0 =
  fold_left (fun d kv => dset d (fst kv) (snd kv)) data d0.
Proof.
  intros Hl. revert d0. induction Hl as [|[k v] data Hk _ IH]; intros d0; [reflexivity|].
  cbn [fold_left fst snd] in *. rewrite Hk. apply IH.
Qed.

Lemma add_pairs_lower_keys d kvs :
  lower_keys d -> lower_keys kvs -> lower_keys (add_pairs d kvs).
Proof.
  intros Hd Hkv. unfold add_pairs.
  revert d Hd. induction Hkv as [|[k v] kvs Hk _ IH]; intros d Hd; cbn; [exact Hd|].
  apply IH. unfold add_pair. destruct (String.eqb v ""); [exact Hd|].
  apply dset_forall; [exact Hd|]. cbn [fst] in *. rewrite lower_indented, Hk. reflexivity.
Qed.

(** [cfg[name] = dict(sorted(d.items()))]: the section [name] answers
    every lookup as [d] does. *)
Lemma setitem_sorted_lookup cfg name d cfg' :
  dict_wf d -> lower_keys d ->
  Ini.setitem cfg name (py_sorted d) = Ok cfg' ->
  exists opts, dget cfg' name = Some opts /\ forall key, dget opts key = dget d key.
Proof.
  intros Hwf Hl Hrun. unfold Ini.setitem in Hrun. inv_run. subst.
  eexists. split; [apply dget_dset_eq|]. intros key.
  pose proof (PairSort.Permuted_sort d) as Hp.
  rewrite (read_options_fold _ _ _ _ _ Ha), fold_lower_keys by (apply Forall_py_sorted_iff, Hl).
  rewrite fold_dset_lookup by exact (Permutation_NoDup (Permutation_map fst Hp) Hwf).
  rewrite <- (dget_perm _ _ key Hp Hwf). destruct (dget d key); reflexivity.
Qed.

(** C17: The OTP section of the file holds, under ["  k"], the value of
    [k] in the OTP map between double quotes, and nothing for a key whose
    value is empty or absent. *)
Theorem generate_otp_lookup cfg otp variant socid cfg' k :
  dict_wf otp -> lower_keys otp ->
  generate_otp cfg otp variant socid = Ok cfg' ->
  exists opts, dget cfg' (section_name (otp_name variant socid)) = Some opts /\
    dget opts ("  " ++ k) =
      match dget otp k with
      | Some v => if String.eqb v "" then None else Some (dq ++ v ++ dq)
      | None => None
      end.
Proof.
  intros Hwf Hl Hrun. unfold generate_otp in Hrun.
  apply setitem_sorted_lookup in Hrun as (opts & Hs & Ho);
    [|apply add_pairs_wf; constructor | apply add_pairs_lower_keys; [constructor | exact Hl]].
  exists opts. split; [exact Hs|]. rewrite Ho, add_pairs_dget by exact Hwf.
  destruct (dget otp k) as [v|]; [destruct (String.eqb v "")|]; reflexivity.
Qed.

(** The eight bound names are distinct lower-case names. *)
Lemma lc_range_pairs_keys c :
  NoDup (map fst (lc_range_pairs c)) /\ lower_keys (lc_range_pairs c).
Proof.
  split; [apply nodupb_NoDup; reflexivity|].
  repeat constructor.
Qed.

(** The LifeCycle section answers every lookup as [lcdata] does before
    [dict(sorted(...))]: the eight bounds, then the tokens, through
    [add_pair]. *)
Lemma generate_life_cycle_section cfg c socid cfg' :
  dict_wf (lc c) -> lower_keys (lc c) ->
  generate_life_cycle cfg c socid = Ok cfg' ->
  exists opts, dget cfg' (section_name (lc_name socid)) = Some opts /\
    forall key, dget opts key = dget (add_pairs (add_pairs [] (lc_range_pairs c)) (lc c)) key.
Proof.
  intros Hwf Hl Hrun. unfold generate_life_cycle in Hrun.
  destruct (lc_range_pairs_keys c) as [_ Hrl].
  apply setitem_sorted_lookup in Hrun; [exact Hrun | repeat apply add_pairs_wf; constructor |].
  apply add_pairs_lower_keys; [apply add_pairs_lower_keys; [constructor | exact Hrl] | exact Hl].
Qed.

(** C16: The LifeCycle section of the file holds, under ["  k"], the
    LifeCycle token [k] between double quotes when it is not empty, else
    the range bound named [k] ([lc_state_first], ..., [socdbg_last])
    between double quotes when it is not empty: the tokens are added
    after the eight range bounds and win over them. *)
Theorem generate_life_cycle_lookup cfg c socid cfg' k :
  dict_wf (lc c) -> lower_keys (lc c) ->
  generate_life_cycle cfg c socid = Ok cfg' ->
  exists opts, dget cfg' (section_name (lc_name socid)) = Some opts /\
    let bound := match dget (lc_range_pairs c) k with
                 | Some v => if String.eqb v "" then None else Some (dq ++ v ++ dq)
                 | None => None
                 end in
    dget opts ("  " ++ k) =
      match dget (lc c) k with
      | Some v => if String.eqb v "" then bound else Some (dq ++ v ++ dq)
      | None => bound
      end.
Proof.
  intros Hwf Hl Hrun. destruct (generate_life_cycle_section _ _ _ _ Hwf Hl Hrun) as (opts & Hs & Ho).
  exists opts. split; [exact Hs|]. cbv zeta.
  rewrite Ho, add_pairs_dget, add_pairs_dget by (exact Hwf || apply lc_range_pairs_keys).
  reflexivity.
Qed.

(** ** Witnesses *)

Definition ex_roms : dict (option Z) (dict string string) :=
  [(Some 0%Z, [("nonce", "12"); ("key", "34")]); (Some 1%Z, [("nonce", "56")])].

Definition ex_config : OtConfiguration :=
  {| lc_states := ("0x1", "0x3"); lc_transitions := ("0x1", "0x18");
     socdbg := ("", ""); ownership := ("", ""); roms := ex_roms;
     otp := [("digest", "CAFE")]; lc := []; top_name := None |}.

Lemma generate_roms_socid_witness :
  map fst (match generate_roms Ini.empty_parser ex_roms (Some "soc") 2 with
           | Ok p => p | Raise _ => [] end) =
  flat_map (fun cnt => map (fun rd => section_name (rom_name (Some "soc") 2 cnt (fst rd)))
                           ex_roms) (py_range 2) /\
  NoDup (map fst (match generate_roms Ini.empty_parser ex_roms (Some "soc") 2 with
                  | Ok p => p | Raise _ => [] end)).
Proof.
  apply (generate_roms_socid ex_roms "soc" 2);
    [apply nodupb_NoDup; vm_compute; reflexivity | discriminate | lia | vm_compute; reflexivity].
Defined.

Lemma save_no_socid_count_witness :
  save ex_config "eg" None 3 = save ex_config "eg" None 1.
Proof. apply save_no_socid_count; [apply nodupb_NoDup; vm_compute; reflexivity | lia]. Defined.

Lemma add_pairs_lookup_witness :
  dget (add_pairs [] [("nonce", "12"); ("key", "")]) ("  " ++ "nonce") =
  match dget [("nonce", "12"); ("key", "")] "nonce" with
  | Some v => if String.eqb v "" then dget [] ("  " ++ "nonce") else Some (dq ++ v ++ dq)
  | None => dget [] ("  " ++ "nonce")
  end.
Proof. apply add_pairs_lookup. apply nodupb_NoDup. vm_compute. reflexivity. Defined.

Lemma save_parser_format_witness :
  exists p, save_parser ex_config "eg" (Some "ot") 2 = Ok p /\ parser_format p.
Proof.
  eexists. split; [vm_compute; reflexivity|].
  apply (save_parser_format ex_config "eg" (Some "ot") 2). vm_compute. reflexivity.
Defined.

Lemma save_parser_socid_sections_witness :
  exists p, save_parser ex_config "eg" (Some "ot") 3 = Ok p /\
    length p = (Z.to_nat 3 * length (roms ex_config) + 2)%nat.
Proof.
  eexists. split; [vm_compute; reflexivity|].
  apply (save_parser_socid_sections ex_config "eg" "ot" 3);
    [apply nodupb_NoDup; vm_compute; reflexivity | discriminate | lia | vm_compute; reflexivity].
Defined.

Lemma save_parser_negative_count_witness :
  exists p, save_parser ex_config "eg" (Some "ot") (-2) = Ok p /\
    map fst p = [section_name (otp_name "eg" (Some "ot")); section_name (lc_name (Some "ot"))].
Proof.
  eexists. split; [vm_compute; reflexivity|].
  apply (save_parser_negative_count ex_config "eg" (Some "ot") (-2)); [lia | vm_compute; reflexivity].
Defined.

Definition ex_otp_parser : Ini.parser :=
  match generate_otp Ini.empty_parser (otp ex_config) "eg" None with Ok p => p | Raise _ => [] end.

Lemma generate_otp_lookup_witness :
  exists opts, dget ex_otp_parser (section_name (otp_name "eg" None)) = Some opts /\
    dget opts ("  " ++ "digest") =
      match dget (otp ex_config) "digest" with
      | Some v => if String.eqb v "" then None else Some (dq ++ v ++ dq)
      | None => None
      end.
Proof.
  apply (generate_otp_lookup Ini.empty_parser);
    [apply nodupb_NoDup; vm_compute; reflexivity | repeat constructor | vm_compute; reflexivity].
Defined.

Definition ex_lc_config : OtConfiguration :=
  {| lc_states := ("0x1", "0x3"); lc_transitions := ("0x1", "0x18");
     socdbg := ("", ""); ownership := ("", ""); roms := [];
     otp := []; lc := [("lc_state_first", "0xAA"); ("raw_unlock_token", "0x1")];
     top_name := None |}.

Definition ex_lc_parser : Ini.parser :=
  match generate_life_cycle Ini.empty_parser ex_lc_config (Some "ot") with
  | Ok p => p | Raise _ => [] end.

Lemma generate_life_cycle_lookup_witness :
  exists opts, dget ex_lc_parser (section_name (lc_name (Some "ot"))) = Some opts /\
    let bound := match dget (lc_range_pairs ex_lc_config) "lc_state_first" with
                 | Some v => if String.eqb v "" then None else Some (dq ++ v ++ dq)
                 | None => None
                 end in
    dget opts ("  " ++ "lc_state_first") =
      match dget (lc ex_lc_config) "lc_state_first" with
      | Some v => if String.eqb v "" then bound else Some (dq ++ v ++ dq)
      | None => bound
      end.
Proof.
  apply (generate_life_cycle_lookup Ini.empty_parser);
    [apply nodupb_NoDup; vm_compute; reflexivity | repeat constructor | vm_compute; reflexivity].
Defined.

End Generate.
