(* ===== verification/Main.v ===== *)
(** * [main] (cfggen.py lines 231-348)

    The command line is parsed into [Args] (argparse's own checks reduced
    to the [choices] of [--top]); the file system and the loaders are an
    [Env]: which paths are files or directories, [abspath], and the three
    readers ([hjload] of the top file, [OtpLifecycle.load] and
    [OtpConstants.load_sv] of the RTL packages), each of which may raise.
    [argparser.error] raises [SystemExit 2 msg].

    [main] runs in two phases, as the code does: [locate] finds the
    OpenTitan root, the top name and the variant (the [if not topcfg]
    branches, with the [while cur_dir] search of [RootSearch.search_root]),
    and [generate] checks the RTL paths, loads a fresh configuration and
    renders it.  The search loop is the one place that may not end: it
    runs with [fuel], and [main] returns [None] when the fuel runs out;
    more fuel never changes a result ([main_fuel_mono]).  A written file
    implies that every check passed and both RTL files were read
    ([main_ok_reads]), and its LifeCycle section carries the state range
    of the LifeCycle file read ([main_writes_state_range]).  [outcome] is the [try]/[except] around the whole
    ([IOError], [ValueError] and [ImportError] reported, with the
    traceback when [--debug]; [KeyboardInterrupt] exits with 2) and
    [exit_status] the process's status. *)

From Stdlib Require Import String Ascii List ZArith Bool Lia.
From S2P Require Import Prelude PyStr PyDict Hjson Config Lifecycle OtpConst.
From S2P Require Import TopConfig Ini Generate PosixPath RootSearch.
Import ListNotations.

Module Main.
Import PyDict Hjson Config Lifecycle OtpConst TopConfig Generate PosixPath RootSearch.
Local Open Scope string_scope.

Record Args : Type := mkArgs {
  opentitan : option string;
  top : option string;
  out : option string;
  otpconst : option string;
  lifecycle : option string;
  topcfg : option string;
  socid : option string;
  count : Z;
  debug : bool
}.

Record Env (LT OT : Type) : Type := mkEnv {
  hjson_error : option string;
  isfile : string -> bool;
  isdir : string -> bool;
  abspath : string -> string;
  open_top : string -> res json;
  open_lc : string -> res LT;
  open_otp : string -> res OT
}.
Arguments hjson_error {LT OT}.
Arguments isfile {LT OT}.
Arguments isdir {LT OT}.
Arguments abspath {LT OT}.
Arguments open_top {LT OT}.
Arguments open_lc {LT OT}.
Arguments open_otp {LT OT}.

(** [if x:] on an optional string argument: [None] and [''] are false. *)
Definition given (o : option string) : option string :=
  match o with
  | Some s => if String.eqb s "" then None else Some s
  | None => None
  end.

(** [argparser.error(msg)] *)
Definition argerror {A} (msg : string) : res A := Raise (SystemExit 2 msg).

Definition argerror_if (b : bool) (msg : string) : res unit :=
  raise_if b (SystemExit 2 msg).

(** [top_map.get(name)] *)
Definition top_map_get (name : string) : option string :=
  if String.eqb name "darjeeling" then Some "dj"
  else if String.eqb name "earlgrey" then Some "eg"
  else None.

(** argparse's [choices=top_map.keys()] on [--top]. *)
Definition parse_check (a : Args) : res unit :=
  match top a with
  | Some t =>
      match top_map_get t with
      | Some _ => Ok tt
      | None => argerror ("argument -T/--top: invalid choice: '" ++ t ++ "'")
      end
  | None => Ok tt
  end.

Section Main.
Context {LT OT : Type} `{LcProvider LT} `{OtpProvider OT}.
Variable env : Env LT OT.

(** The branch without [--topcfg]: root, top and variant from the
    arguments, then [cfg.load_top_config(topcfg)]. *)
Definition locate_from_root (a : Args) : res (string * string * string) :=
  ot <- match given (opentitan a) with
        | Some d => Ok d
        | None => argerror "OTDIR is required is no top file is specified"
        end ;;
  _ <- argerror_if (negb (isdir env ot)) "Invalid OpenTitan root directory" ;;
  let ot_dir := abspath env ot in
  t <- match given (top a) with
       | Some t => Ok t
       | None => argerror "Top name is required if no top file is specified"
       end ;;
  let topn := "top_" ++ t in
  topvar <- match top_map_get t with Some v => Ok v | None => Raise (KeyError t) end ;;
  let tc := joinpath ot_dir ("hw/" ++ topn ++ "/data/autogen/" ++ topn ++ ".gen.hjson") in
  _ <- argerror_if (negb (isfile env tc)) ("No such file '" ++ tc ++ "'") ;;
  doc <- open_top env tc ;;
  _ <- load_top_config doc init_config ;;
  Ok (ot_dir, topn, topvar).

(** The branch with [--topcfg]: the top name from the file. *)
Definition top_from_file (tc : string) : res (string * string) :=
  _ <- argerror_if (negb (isfile env tc)) ("No such top file: " ++ tc) ;;
  doc <- open_top env tc ;;
  cfg <- load_top_config doc init_config ;;
  ltop <- match top_name cfg with
          | Some v => if truthy v then Ok v else argerror "Unknown top name"
          | None => argerror "Unknown top name"
          end ;;
  s <- match ltop with JStr s => Ok s | _ => Raise AttributeError end ;;
  let l := PyStr.lower s in
  topvar <- match top_map_get l with
            | Some v => Ok v
            | None => argerror ("Unsupported top name: " ++ s)
            end ;;
  Ok ("top_" ++ l, topvar).

Definition locate (fuel : nat) (a : Args) : option (res (string * string * string)) :=
  match given (topcfg a) with
  | None => Some (locate_from_root a)
  | Some tc =>
      match top_from_file tc with
      | Raise e => Some (Raise e)
      | Ok (topn, topvar) =>
          match given (opentitan a) with
          | Some d =>
              Some (if isdir env d then Ok (abspath env d, topn, topvar)
                    else argerror "Invalid OpenTitan root directory")
          | None =>
              match search_root fuel (isdir env) ("hw/" ++ topn ++ "/data") (dirname tc) with
              | None => None
              | Some None => Some (argerror "Cannot find OT root directory")
              | Some (Some d) => Some (Ok (abspath env d, topn, topvar))
              end
          end
      end
  end.

(** The default RTL paths. *)
Definition lc_path (a : Args) (ot_dir : string) : string :=
  match given (lifecycle a) with
  | Some p => p
  | None => joinpath ot_dir "hw/ip/lc_ctrl/rtl/lc_ctrl_state_pkg.sv"
  end.

Definition oc_path (a : Args) (ot_dir topn : string) : string :=
  match given (otpconst a) with
  | Some p => p
  | None => joinpath (joinpath (joinpath ot_dir "hw") topn)
              "ip_autogen/otp_ctrl/rtl/otp_ctrl_part_pkg.sv"
  end.

(** The two [isfile] checks of lines 329-335; the second one tests
    [lcpath] again. *)
Definition rtl_paths (a : Args) (ot_dir topn : string) : res (string * string) :=
  let lcpath := lc_path a ot_dir in
  _ <- argerror_if (negb (isfile env lcpath)) ("No such file '" ++ lcpath ++ "'") ;;
  let ocpath := oc_path a ot_dir topn in
  _ <- argerror_if (negb (isfile env lcpath)) ("No such file '" ++ ocpath ++ "'") ;;
  Ok (lcpath, ocpath).

(** Lines 337-340: a fresh [OtConfiguration], the two RTL loads, [save]. *)
Definition generate (a : Args) (ot_dir topn topvar : string)
  : res (option string * string) :=
  '(lcpath, ocpath) <- rtl_paths a ot_dir topn ;;
  let cfg := init_config in
  lcext <- open_lc env lcpath ;;
  cfg <- load_lifecycle lcext cfg ;;
  otpc <- open_otp env ocpath ;;
  let cfg := load_otp_constants otpc cfg in
  text <- Generate.save cfg topvar (socid a) (count a) ;;
  Ok (out a, text).

Definition main (fuel : nat) (a : Args) : option (res (option string * string)) :=
  match parse_check a with
  | Raise e => Some (Raise e)
  | Ok _ =>
      match given (hjson_error env) with
      | Some _ => Some (argerror "Missing HJSON module: {_HJSON_ERROR}")
      | None =>
          match locate fuel a with
          | None => None
          | Some (Raise e) => Some (Raise e)
          | Some (Ok (ot_dir, topn, topvar)) => Some (generate a ot_dir topn topvar)
          end
      end
  end.
End Main.

(** The [try]/[except (IOError, ValueError, ImportError)] and
    [except KeyboardInterrupt] around [main] (lines 342-348): the output,
    an [argparser.error] (status 2), a reported error (status 1, with the
    [format_exc] traceback when [debug]), an interrupt (status 2) or an
    uncaught traceback (status 1). *)
Inductive outcome : Type :=
| Written (out : option string) (text : string)
| Usage (code : Z) (msg : string)
| Reported (e : exn) (trace : bool)
| Interrupted
| Traceback (e : exn).

Definition caught (e : exn) : bool :=
  match e with OSError _ | ValueError _ | ImportError _ => true | _ => false end.

Definition run_outcome (debug : bool) (r : res (option string * string)) : outcome :=
  match r with
  | Ok (o, text) => Written o text
  | Raise (SystemExit c msg) => Usage c msg
  | Raise KeyboardInterrupt => Interrupted
  | Raise e => if caught e then Reported e debug else Traceback e
  end.

Definition exit_status (o : outcome) : Z :=
  match o with
  | Written _ _ => 0
  | Usage c _ => c
  | Interrupted => 2
  | Reported _ _ | Traceback _ => 1
  end.

(** The same command line with [--count n]. *)
Definition with_count (a : Args) (n : Z) : Args :=
  {| opentitan := opentitan a; top := top a; out := out a; otpconst := otpconst a;
     lifecycle := lifecycle a; topcfg := topcfg a; socid := socid a; count := n;
     debug := debug a |}.

(** The fuel the root search needs: one step per character of the top
    file's path, plus the last test. *)
Definition search_fuel (a : Args) : nat :=
  match given (topcfg a) with Some tc => S (String.length tc) | None => 0 end.

(** [--topcfg] is absent or a relative path. *)
Definition relative_topcfg (a : Args) : bool :=
  match given (topcfg a) with Some tc => negb (is_abs tc) | None => true end.

(** ** The root search *)

(** Case analysis on every [match] of a hypothesis. *)
Ltac case_matches :=
  repeat match goal with
  | H : context [match ?x with _ => _ end] |- _ => destruct x eqn:?
  end.

Lemma given_nonempty o s : given o = Some s -> s <> EmptyString.
Proof.
  destruct o as [s'|]; cbn; [|discriminate].
  destruct (String.eqb_spec s' ""); congruence.
Qed.

(** What the LifeCycle reader is assumed to return: a state table and a
    token map with unique keys (as Python dicts have), lower-case token
    names, and no token named like the two state bounds. *)
Definition lc_package_ok {LT : Type} `{LcProvider LT} (t : LT) : Prop :=
  dict_wf (get_configuration t "LC_STATE") /\ dict_wf (get_tokens t false false) /\
  lower_keys (get_tokens t false false) /\
  dget (get_tokens t false false) "lc_state_first" = None /\
  dget (get_tokens t false false) "lc_state_last" = None.

Section MainProps.
Context {LT OT : Type} `{LcProvider LT} `{OtpProvider OT}.
Variable env : Env LT OT.

Lemma main_ok_inv fuel a o text :
  main env fuel a = Some (Ok (o, text)) ->
  exists ot topn topvar, locate env fuel a = Some (Ok (ot, topn, topvar)) /\
    generate env a ot topn topvar = Ok (o, text).
Proof.
  unfold main. destruct (parse_check a); [|discriminate].
  destruct (given (hjson_error env)); [discriminate|].
  destruct (locate env fuel a) as [[[[ot topn] topvar]|e]|]; try discriminate.
  intros E. injection E. eauto.
Qed.

Lemma rtl_paths_inv a ot topn l o :
  rtl_paths env a ot topn = Ok (l, o) ->
  isfile env (lc_path a ot) = true /\ l = lc_path a ot /\ o = oc_path a ot topn.
Proof.
  unfold rtl_paths, argerror_if, raise_if.
  destruct (isfile env (lc_path a ot)); cbn; [|discriminate].
  intros E. injection E as <- <-. auto.
Qed.

Lemma generate_ok_inv a ot topn topvar o text :
  generate env a ot topn topvar = Ok (o, text) ->
  o = out a /\ exists lcext otpc cfg,
    open_lc env (lc_path a ot) = Ok lcext /\
    open_otp env (oc_path a ot topn) = Ok otpc /\
    load_lifecycle lcext init_config = Ok cfg /\
    Generate.save (load_otp_constants otpc cfg) topvar (socid a) (count a) = Ok text.
Proof.
  unfold generate. intros Hrun. inv_run.
  match goal with H : rtl_paths _ _ _ _ = Ok _ |- _ =>
    destruct (rtl_paths_inv _ _ _ _ _ H) as (_ & -> & ->) end.
  subst. split; eauto 8.
Qed.

(** [main] runs out of fuel only in the root search. *)
Lemma main_none_inv fuel a :
  main env fuel a = None ->
  exists tc topn topvar, given (topcfg a) = Some tc /\ given (opentitan a) = None /\
    top_from_file env tc = Ok (topn, topvar) /\
    search_root fuel (isdir env) ("hw/" ++ topn ++ "/data") (dirname tc) = None.
Proof. unfold main, locate. intros E. case_matches; try discriminate. eauto 7. Qed.

Lemma rtl_paths_isfile a ot topn :
  isfile env (lc_path a ot) = true ->
  rtl_paths env a ot topn = Ok (lc_path a ot, oc_path a ot topn).
Proof. intros Hf. unfold rtl_paths. rewrite Hf. reflexivity. Qed.

(** Once [locate] is done, the run is [generate]. *)
Lemma main_located fuel a ot topn topvar :
  parse_check a = Ok tt -> given (hjson_error env) = None ->
  locate env fuel a = Some (Ok (ot, topn, topvar)) ->
  main env fuel a = Some (generate env a ot topn topvar).
Proof. intros Hp Hh Hl. unfold main. rewrite Hp, Hh, Hl. reflexivity. Qed.

(** C1: Line 337 resets the configuration: whatever the top file holds,
    the text written is the rendering of a fresh configuration into
    which only the LifeCycle and OTP-constant RTL packages were loaded,
    those read from the LifeCycle and OTP paths of the located root and
    top, under the located variant. *)
Theorem main_renders_fresh_config fuel a o text :
  main env fuel a = Some (Ok (o, text)) ->
  o = out a /\ exists ot topn topvar lcext otpc cfg,
    locate env fuel a = Some (Ok (ot, topn, topvar)) /\
    open_lc env (lc_path a ot) = Ok lcext /\
    open_otp env (oc_path a ot topn) = Ok otpc /\
    load_lifecycle lcext init_config = Ok cfg /\
    Generate.save (load_otp_constants otpc cfg) topvar (socid a) (count a) = Ok text.
Proof.
  intros Hm. destruct (main_ok_inv _ _ _ _ Hm) as (ot & topn & topvar & Hl & Hg).
  destruct (generate_ok_inv _ _ _ _ _ _ Hg) as (-> & lcext & otpc & cfg & Hx).
  split; [reflexivity|]. exists ot, topn, topvar, lcext, otpc, cfg. auto.
Qed.

(** C2: The configuration file [main] writes never has a ROM section:
    its sections are the OTP one and the LifeCycle one, in this order. *)
Theorem main_no_rom_sections fuel a o text :
  main env fuel a = Some (Ok (o, text)) ->
  exists variant p, text = Ini.write p /\
    map fst p = [section_name (otp_name variant (socid a)); section_name (lc_name (socid a))].
Proof.
  intros Hm. destruct (main_ok_inv _ _ _ _ Hm) as (ot & topn & topvar & _ & Hg).
  destruct (generate_ok_inv _ _ _ _ _ _ Hg) as (_ & lcext & otpc & cfg & _ & _ & Hl & Hs).
  unfold Generate.save in Hs. inv_run. subst.
  exists topvar, a0. split; [reflexivity|].
  eapply save_parser_no_roms; [|eassumption].
  destruct (load_lifecycle_frame _ _ _ Hl) as (Hr & _). exact Hr.
Qed.

(** C5: The OTP constants file is never checked: the two [isfile] tests
    of lines 329-335 both test the LifeCycle file, so they pass exactly
    when it exists. *)
Theorem rtl_paths_ok a ot topn l o :
  rtl_paths env a ot topn = Ok (l, o) <->
  isfile env (lc_path a ot) = true /\ l = lc_path a ot /\ o = oc_path a ot topn.
Proof.
  unfold rtl_paths, argerror_if, raise_if.
  destruct (isfile env (lc_path a ot)); cbn; split.
  - intros E. injection E as <- <-. auto.
  - intros (_ & -> & ->). reflexivity.
  - discriminate.
  - intros (E & _). discriminate E.
Qed.

(** C4: With no [--topcfg], or a relative one, the root search ends:
    [search_fuel] iterations of the [while] loop are enough. *)
Theorem main_terminates fuel a :
  relative_topcfg a = true -> search_fuel a <= fuel -> main env fuel a <> None.
Proof.
  unfold relative_topcfg, search_fuel. intros Hr Hf E.
  destruct (main_none_inv _ _ E) as (tc & topn & topvar & Etc & _ & _ & Es).
  rewrite Etc in Hr, Hf. apply negb_true_iff in Hr.
  destruct (dirname_relative tc Hr (given_nonempty _ _ Etc)) as [Hl Ha].
  eapply search_root_relative; [exact Ha | | exact Es]. lia.
Qed.

(** C3: With an absolute [--topcfg] and no [OTDIR], when no ancestor of
    the top file holds [hw/top_<name>/data], the [while cur_dir] loop
    never ends ([dirname('/')] is ['/']): [main] does not return
    whatever the fuel. *)
Theorem main_search_diverges a tc topn topvar :
  parse_check a = Ok tt -> given (hjson_error env) = None ->
  given (topcfg a) = Some tc -> given (opentitan a) = None ->
  top_from_file env tc = Ok (topn, topvar) -> is_abs tc = true ->
  (forall n, isdir env (joinpath (Nat.iter n dirname (dirname tc)) ("hw/" ++ topn ++ "/data"))
             = false) ->
  forall fuel, main env fuel a = None.
Proof.
  intros Hp Hh Htc Hot Htf Ha Hn fuel. unfold main, locate.
  rewrite Hp, Hh, Htc, Htf, Hot, search_root_abs; auto using dirname_abs.
Qed.

(** C25: A missing LifeCycle file is an [argparser.error]: the process
    exits with status 2, where the CLI contract gives 1 to I/O errors. *)
Theorem main_missing_lc_file fuel a ot topn topvar :
  parse_check a = Ok tt -> given (hjson_error env) = None ->
  locate env fuel a = Some (Ok (ot, topn, topvar)) ->
  isfile env (lc_path a ot) = false ->
  option_map (run_outcome (debug a)) (main env fuel a) =
    Some (Usage 2 ("No such file '" ++ lc_path a ot ++ "'")).
Proof.
  intros Hp Hh Hl Hf. rewrite (main_located _ _ _ _ _ Hp Hh Hl).
  unfold generate, rtl_paths. rewrite Hf. reflexivity.
Qed.

(** C8: A LifeCycle state table whose keys are all zero raises
    [IndexError], which the handler does not catch: the run ends with a
    traceback instead of the one-line error message. *)
Theorem main_all_zero_states fuel a ot topn topvar t :
  parse_check a = Ok tt -> given (hjson_error env) = None ->
  locate env fuel a = Some (Ok (ot, topn, topvar)) ->
  isfile env (lc_path a ot) = true -> open_lc env (lc_path a ot) = Ok t ->
  get_configuration t "LC_STATE" <> [] -> dict_wf (get_configuration t "LC_STATE") ->
  filter_nonzero (get_configuration t "LC_STATE") = Ok [] ->
  option_map (run_outcome (debug a)) (main env fuel a) = Some (Traceback IndexError).
Proof.
  intros Hp Hh Hl Hf Ho Hne Hwf Hz. rewrite (main_located _ _ _ _ _ Hp Hh Hl).
  unfold generate. rewrite rtl_paths_isfile by exact Hf. cbn [bind].
  rewrite Ho. cbn [bind]. rewrite load_lifecycle_all_zero by assumption. reflexivity.
Qed.

(** C35: A [--topcfg] that is a bare file name has an empty [dirname], so
    without [OTDIR] the root search is never entered and the run stops
    with "Cannot find OT root directory", even when the current directory
    is the OpenTitan root. *)
Theorem main_bare_topcfg fuel a tc topn topvar :
  parse_check a = Ok tt -> given (hjson_error env) = None ->
  given (topcfg a) = Some tc -> given (opentitan a) = None ->
  top_from_file env tc = Ok (topn, topvar) -> dirname tc = EmptyString ->
  main env (S fuel) a = Some (Raise (SystemExit 2 "Cannot find OT root directory")).
Proof.
  intros Hp Hh Htc Hot Htf Hd. unfold main, locate.
  rewrite Hp, Hh, Htc, Htf, Hot, Hd. reflexivity.
Qed.

(** C34: The message of the missing-[hjson] error lacks its [f] prefix:
    it is the literal text with [{_HJSON_ERROR}], whatever the import
    error was. *)
Theorem main_hjson_missing fuel a m :
  parse_check a = Ok tt -> given (hjson_error env) = Some m ->
  main env fuel a = Some (Raise (SystemExit 2 "Missing HJSON module: {_HJSON_ERROR}")).
Proof. intros Hp Hh. unfold main. rewrite Hp, Hh. reflexivity. Qed.
(** ** Fuel and the files a run reads *)

Lemma locate_mono i j a r :
  locate env i a = Some r -> i <= j -> locate env j a = Some r.
Proof.
  unfold locate. intros E Hij.
  destruct (given (topcfg a)); [|exact E].
  destruct (top_from_file env _) as [[topn topvar]|e]; [|exact E].
  destruct (given (opentitan a)); [exact E|].
  destruct (search_root i _ _ _) as [found|] eqn:Es; [|discriminate].
  rewrite (search_root_mono _ _ i j _ _ Es Hij). exact E.
Qed.

Lemma generate_reads a ot topn topvar o text :
  generate env a ot topn topvar = Ok (o, text) ->
  isfile env (lc_path a ot) = true /\
  (exists lcext, open_lc env (lc_path a ot) = Ok lcext) /\
  (exists otpc, open_otp env (oc_path a ot topn) = Ok otpc).
Proof.
  unfold generate. intros Hrun. inv_run.
  match goal with H : rtl_paths _ _ _ _ = Ok _ |- _ =>
    destruct (rtl_paths_inv _ _ _ _ _ H) as (? & -> & ->) end.
  eauto.
Qed.

(** Fuel only bounds the root search: once [main] returns a result
    with some fuel, it returns the same result with any larger fuel. *)
Lemma main_fuel_mono i j a r :
  main env i a = Some r -> i <= j -> main env j a = Some r.
Proof.
  unfold main. intros E Hij.
  destruct (parse_check a); [|exact E]. destruct (given (hjson_error env)); [exact E|].
  destruct (locate env i a) as [l|] eqn:El; [|discriminate].
  rewrite (locate_mono _ _ _ _ El Hij). exact E.
Qed.

(** C11: A configuration is written only after the argument checks passed,
    the OpenTitan root and top were located, the LifeCycle file was found
    and both RTL packages were read. *)
Theorem main_ok_reads fuel a o text :
  main env fuel a = Some (Ok (o, text)) ->
  parse_check a = Ok tt /\ given (hjson_error env) = None /\
  exists ot topn topvar, locate env fuel a = Some (Ok (ot, topn, topvar)) /\
    isfile env (lc_path a ot) = true /\
    (exists lcext, open_lc env (lc_path a ot) = Ok lcext) /\
    (exists otpc, open_otp env (oc_path a ot topn) = Ok otpc).
Proof.
  unfold main. destruct (parse_check a) as [[]|e]; [|discriminate].
  destruct (given (hjson_error env)); [discriminate|].
  destruct (locate env fuel a) as [[[[ot topn] topvar]|e]|]; try discriminate.
  intros E. injection E as E. destruct (generate_reads _ _ _ _ _ _ E) as (Hf & Hl & Ho).
  split; [reflexivity|]. split; [reflexivity|]. eauto 8.
Qed.

(** ** The instance count and the OTP file *)

(** The configuration [generate] renders has no ROM bank, so the count
    does not change its text. *)
Lemma generate_count a n ot topn topvar :
  generate env (with_count a n) ot topn topvar = generate env a ot topn topvar.
Proof.
  unfold generate.
  change (rtl_paths env (with_count a n) ot topn) with (rtl_paths env a ot topn).
  destruct (rtl_paths env a ot topn) as [[l o]|e]; cbn [bind]; [|reflexivity].
  destruct (open_lc env l) as [t|e]; cbn [bind]; [|reflexivity].
  destruct (load_lifecycle t init_config) as [cfg|e] eqn:Hl; cbn [bind]; [|reflexivity].
  destruct (open_otp env o) as [otpc|e]; cbn [bind]; [|reflexivity].
  destruct (load_lifecycle_frame _ _ _ Hl) as (Hr & _).
  unfold Generate.save, save_parser. cbn [roms load_otp_constants]. rewrite Hr.
  cbn [roms init_config]. rewrite !generate_roms_nil. reflexivity.
Qed.

(** C18: Because line 337 renders a fresh configuration, which has no ROM
    bank, [--count] has no effect on a run: [main] with any count gives
    the same result. *)
Theorem main_count_irrelevant fuel a n :
  main env fuel (with_count a n) = main env fuel a.
Proof.
  unfold main.
  change (parse_check (with_count a n)) with (parse_check a).
  change (locate env fuel (with_count a n)) with (locate env fuel a).
  destruct (parse_check a); [|reflexivity]. destruct (given (hjson_error env)); [reflexivity|].
  destruct (locate env fuel a) as [[[[ot topn] topvar]|e]|]; try reflexivity.
  rewrite generate_count. reflexivity.
Qed.

(** C19: A missing OTP constants file passes the path checks (the second
    check tests the LifeCycle file again): the OTP reader's [OSError] is
    reported with status 1, and with the traceback under [--debug],
    instead of the usage error that names the file. *)
Theorem main_missing_otp_file fuel a ot topn topvar t cfg p :
  parse_check a = Ok tt -> given (hjson_error env) = None ->
  locate env fuel a = Some (Ok (ot, topn, topvar)) ->
  isfile env (lc_path a ot) = true -> isfile env (oc_path a ot topn) = false ->
  open_lc env (lc_path a ot) = Ok t -> load_lifecycle t init_config = Ok cfg ->
  open_otp env (oc_path a ot topn) = Raise (OSError p) ->
  option_map (run_outcome (debug a)) (main env fuel a) = Some (Reported (OSError p) (debug a)).
Proof.
  intros Hp Hh Hl Hf _ Ho Hlc Hot. rewrite (main_located _ _ _ _ _ Hp Hh Hl).
  unfold generate. rewrite rtl_paths_isfile by exact Hf. cbn [bind].
  rewrite Ho. cbn [bind]. rewrite Hlc. cbn [bind]. rewrite Hot. reflexivity.
Qed.
(** ** From the LifeCycle file to the written file *)

(** The bound of the state range stored in the LifeCycle section. *)
Lemma lc_section_bound c opts k v :
  dict_wf (lc c) -> dget (lc c) k = None ->
  dget (lc_range_pairs c) k = Some v -> v <> EmptyString ->
  (forall key, dget opts key = dget (add_pairs (add_pairs [] (lc_range_pairs c)) (lc c)) key) ->
  dget opts ("  " ++ k) = Some (dq ++ v ++ dq).
Proof.
  intros Hwf Hk Hv Hne Ho. rewrite Ho, add_pairs_dget, Hk, add_pairs_dget, Hv
    by (exact Hwf || apply lc_range_pairs_keys).
  destruct (String.eqb_spec v ""); [contradiction | reflexivity].
Qed.

(** C15: The state range written to the LifeCycle section is the one of
    the LifeCycle file that was read: under [lc_state_first] and
    [lc_state_last], between double quotes, the first and the last keys
    of its [LC_STATE] table whose [int(key, 16)] is not zero. *)
Theorem main_writes_state_range fuel a o text :
  (forall path t, open_lc env path = Ok t -> lc_package_ok t) ->
  main env fuel a = Some (Ok (o, text)) ->
  exists ot topn topvar lcext d f l p opts,
    locate env fuel a = Some (Ok (ot, topn, topvar)) /\
    open_lc env (lc_path a ot) = Ok lcext /\
    filter_nonzero (get_configuration lcext "LC_STATE") = Ok d /\
    first_last (dkeys d) = Some (f, l) /\
    text = Ini.write p /\
    dget p (section_name (lc_name (socid a))) = Some opts /\
    dget opts "  lc_state_first" = Some (dq ++ f ++ dq) /\
    dget opts "  lc_state_last" = Some (dq ++ l ++ dq).
Proof.
  intros Hpk Hm. destruct (main_ok_inv _ _ _ _ Hm) as (ot & topn & topvar & Hloc & Hg).
  destruct (generate_ok_inv _ _ _ _ _ _ Hg) as (_ & lcext & otpc & cfg & Hlc & _ & Hl & Hs).
  destruct (Hpk _ _ Hlc) as (Hwf & Htw & Htl & Hf1 & Hf2).
  destruct (load_lifecycle_states _ _ _ Hwf Hl) as (d & Hd & Hfl).
  destruct (load_lifecycle_frame _ _ _ Hl) as (_ & _ & _ & Hlcm).
  assert (Hlc' : lc (load_otp_constants otpc cfg) = get_tokens lcext false false).
  { cbn [lc load_otp_constants]. rewrite Hlcm. apply dupdate_fresh, Htw. }
  unfold Generate.save, save_parser in Hs. inv_run. subst.
  match goal with H : generate_life_cycle _ _ _ = Ok _ |- _ =>
    apply generate_life_cycle_section in H as (opts & Hsec & Ho) end;
    [| rewrite Hlc'; exact Htw | rewrite Hlc'; exact Htl].
  destruct (lc_states cfg) as [f l] eqn:Est.
  destruct (first_last_in _ _ _ Hfl) as [Hfin Hlin].
  exists ot, topn, topvar, lcext, d, f, l, a0, opts.
  do 6 (split; [assumption || reflexivity|]).
  rewrite <- Hlc' in Hf1, Hf2, Htw.
  assert (Hst : lc_states (load_otp_constants otpc cfg) = (f, l)) by exact Est.
  split; [change "  lc_state_first" with ("  " ++ "lc_state_first")
         | change "  lc_state_last" with ("  " ++ "lc_state_last")];
    (eapply lc_section_bound;
       [exact Htw | eassumption | unfold lc_range_pairs; rewrite Hst; reflexivity
       | eapply filter_nonzero_key; eassumption | exact Ho]).
Qed.
End MainProps.

(** ** Witnesses: an OpenTitan checkout under [/ot] *)

Definition ex_top_doc : json := JObj [("name", JStr "earlgrey")].

Definition ex_lc : LcTables :=
  mkLcTables
    [("LC_STATE", [("0", "RAW"); ("1", "TEST_UNLOCKED0"); ("2", "PROD")]);
     ("LC_TRANSITION_CNT", [("0", "0"); ("1", "1"); ("18", "24")])]
    [("lc_raw_unlock_token", "0x1234")].

Definition ex_lc_zero : LcTables :=
  mkLcTables [("LC_STATE", [("0", "RAW"); ("00", "RAW")])] [].

Definition ex_otp : OtpTables :=
  mkOtpTables [("cnsty_digest", [("digest_iv", "0xAB")]);
               ("sram_data_key", [("sram_const", "0xCD")])].

Definition ex_env (hj : option string) (files dirs : string -> bool) (lcx : LcTables)
  : Env LcTables OtpTables :=
  mkEnv _ _ hj files dirs (fun p => p) (fun _ => Ok ex_top_doc) (fun _ => Ok lcx)
    (fun _ => Ok ex_otp).

Definition ex_lc_file : string := "/ot/hw/ip/lc_ctrl/rtl/lc_ctrl_state_pkg.sv".

Definition ex_args_root : Args := mkArgs (Some "/ot") (Some "earlgrey") None None None None None 1 false.

Definition ex_args_file (tc : string) : Args := mkArgs None None None None None (Some tc) None 1 false.

Definition ex_ok_env : Env LcTables OtpTables :=
  ex_env None (fun _ => true) (fun _ => true) ex_lc.

Definition ex_text : string :=
  match main ex_ok_env 0 ex_args_root with Some (Ok (_, t)) => t | _ => "" end.

Lemma main_renders_fresh_config_witness :
  None = out ex_args_root /\ exists ot topn topvar lcext otpc cfg,
    locate ex_ok_env 0 ex_args_root = Some (Ok (ot, topn, topvar)) /\
    open_lc ex_ok_env (lc_path ex_args_root ot) = Ok lcext /\
    open_otp ex_ok_env (oc_path ex_args_root ot topn) = Ok otpc /\
    load_lifecycle lcext init_config = Ok cfg /\
    Generate.save (load_otp_constants otpc cfg) topvar (socid ex_args_root)
      (count ex_args_root) = Ok ex_text.
Proof. apply (main_renders_fresh_config ex_ok_env 0 ex_args_root None ex_text). vm_compute. reflexivity. Defined.

Lemma main_no_rom_sections_witness :
  exists variant p, ex_text = Ini.write p /\
    map fst p = [section_name (otp_name variant (socid ex_args_root));
                 section_name (lc_name (socid ex_args_root))].
Proof. apply (main_no_rom_sections ex_ok_env 0 ex_args_root None ex_text). vm_compute. reflexivity. Defined.

Lemma rtl_paths_ok_witness :
  rtl_paths ex_ok_env ex_args_root "/ot" "top_earlgrey" = Ok (ex_lc_file, "x") <->
  isfile ex_ok_env (lc_path ex_args_root "/ot") = true /\ ex_lc_file = lc_path ex_args_root "/ot" /\
  "x" = oc_path ex_args_root "/ot" "top_earlgrey".
Proof. exact (rtl_paths_ok ex_ok_env ex_args_root "/ot" "top_earlgrey" ex_lc_file "x"). Defined.

Lemma main_terminates_witness :
  main (ex_env None (fun _ => true) (fun _ => false) ex_lc) 14 (ex_args_file "cfg/top.hjson") <> None.
Proof.
  apply main_terminates; vm_compute; [reflexivity | repeat constructor].
Defined.

Lemma main_search_diverges_witness :
  main (ex_env None (fun _ => true) (fun _ => false) ex_lc) 1000 (ex_args_file "/opt/top.hjson")
  = None.
Proof.
  apply (main_search_diverges _ _ "/opt/top.hjson" "top_earlgrey" "eg");
    vm_compute; reflexivity.
Defined.

Lemma main_missing_lc_file_witness :
  option_map (run_outcome (debug ex_args_root))
    (main (ex_env None (fun p => negb (String.eqb p ex_lc_file)) (fun _ => true) ex_lc) 0
       ex_args_root) =
  Some (Usage 2 ("No such file '" ++ lc_path ex_args_root "/ot" ++ "'")).
Proof.
  apply (main_missing_lc_file _ _ _ "/ot" "top_earlgrey" "eg"); vm_compute; reflexivity.
Defined.

Lemma main_all_zero_states_witness :
  option_map (run_outcome (debug ex_args_root))
    (main (ex_env None (fun _ => true) (fun _ => true) ex_lc_zero) 0 ex_args_root) =
  Some (Traceback IndexError).
Proof.
  apply (main_all_zero_states _ _ _ "/ot" "top_earlgrey" "eg" ex_lc_zero);
    try (vm_compute; reflexivity).
  - vm_compute. discriminate.
  - apply nodupb_NoDup. vm_compute. reflexivity.
Defined.

Lemma main_bare_topcfg_witness :
  main (ex_env None (fun _ => true) (fun _ => true) ex_lc) 1 (ex_args_file "top_earlgrey.gen.hjson")
  = Some (Raise (SystemExit 2 "Cannot find OT root directory")).
Proof.
  apply (main_bare_topcfg _ 0 _ "top_earlgrey.gen.hjson" "top_earlgrey" "eg");
    vm_compute; reflexivity.
Defined.

Lemma main_hjson_missing_witness :
  main (ex_env (Some "No module named 'hjson'") (fun _ => true) (fun _ => true) ex_lc) 0
    ex_args_root =
  Some (Raise (SystemExit 2 "Missing HJSON module: {_HJSON_ERROR}")).
Proof. apply (main_hjson_missing _ _ _ "No module named 'hjson'"); vm_compute; reflexivity. Defined.

Lemma main_ok_reads_witness :
  parse_check ex_args_root = Ok tt /\ given (hjson_error ex_ok_env) = None /\
  exists ot topn topvar, locate ex_ok_env 0 ex_args_root = Some (Ok (ot, topn, topvar)) /\
    isfile ex_ok_env (lc_path ex_args_root ot) = true /\
    (exists lcext, open_lc ex_ok_env (lc_path ex_args_root ot) = Ok lcext) /\
    (exists otpc, open_otp ex_ok_env (oc_path ex_args_root ot topn) = Ok otpc).
Proof. apply (main_ok_reads ex_ok_env 0 ex_args_root None ex_text). vm_compute. reflexivity. Defined.

Definition ex_no_otp_file (p : string) : bool :=
  negb (String.eqb p (oc_path ex_args_root "/ot" "top_earlgrey")).

Lemma main_missing_otp_file_witness :
  option_map (run_outcome (debug ex_args_root))
    (main (mkEnv _ _ None ex_no_otp_file (fun _ => true) (fun p => p) (fun _ => Ok ex_top_doc)
             (fun _ => Ok ex_lc) (fun p => Raise (OSError p))) 0 ex_args_root) =
  Some (Reported (OSError (oc_path ex_args_root "/ot" "top_earlgrey")) (debug ex_args_root)).
Proof.
  apply (main_missing_otp_file _ _ _ "/ot" "top_earlgrey" "eg" ex_lc
           (match load_lifecycle ex_lc init_config with Ok c => c | Raise _ => init_config end));
    vm_compute; reflexivity.
Defined.

Lemma main_writes_state_range_witness :
  exists ot topn topvar lcext d f l p opts,
    locate ex_ok_env 0 ex_args_root = Some (Ok (ot, topn, topvar)) /\
    open_lc ex_ok_env (lc_path ex_args_root ot) = Ok lcext /\
    filter_nonzero (get_configuration lcext "LC_STATE") = Ok d /\
    first_last (dkeys d) = Some (f, l) /\
    ex_text = Ini.write p /\
    dget p (section_name (lc_name (socid ex_args_root))) = Some opts /\
    dget opts "  lc_state_first" = Some (dq ++ f ++ dq) /\
    dget opts "  lc_state_last" = Some (dq ++ l ++ dq).
Proof.
  apply (main_writes_state_range ex_ok_env 0 ex_args_root None ex_text).
  - intros path t E. injection E as <-. unfold lc_package_ok.
    split; [apply nodupb_NoDup; vm_compute; reflexivity|].
    split; [apply nodupb_NoDup; vm_compute; reflexivity|].
    split; [repeat constructor|]. split; reflexivity.
  - vm_compute. reflexivity.
Defined.

End Main.
